(** * Space mission planner (SpaceRockets.c): a shallow embedding

    The planner of [SpaceRockets.c] decides whether a rocket of a small
    catalog reaches a celestial body: a delta-v budget from the rocket
    equation, a choice of strategy, a count of tanker flights, and a table
    of launch windows.

    Numeric model.  A C [double] is a real number of [R]: [+ - * /] are the
    field operations, [log] is [ln], [floor] and [ceil] are the integer
    parts; there is no rounding, no infinity and no NaN.  The integer types
    keep their C ranges: [int] is 32 bits and [time_t] 64 bits, a conversion
    from [double] whose integral part does not fit and a signed addition
    that overflows are undefined in C and are [None] here.

    Where the size of a computed number decides a property (a capability
    against a requirement, the order of two capabilities), the property is
    stated over the catalog, whose numbers stay away from every threshold,
    and with a margin in its conclusion, so that it does not rest on the
    absence of rounding.  The tanker count is specified for every rounding
    of the quotient ([compute_tanker_plan_rounded]), and the payload test of
    [main] also for the infinities and the NaN that [scanf] can store
    ([read_payload_scanned]).

    Of run_mission the model keeps what is computed: the strategy and the
    notes written into the mission, the delta-v numbers, the tanker count,
    the success flag, the status, the suggested rockets, the rows of the
    timeline and the five rows of the window table.  The layout of the
    printed text and the writing of the file are left out.  [mktime] and
    [strftime] belong to the C library and are parameters; an instance for
    the UTC time zone serves the examples.  Of [main] the model keeps the
    mission built by menu entry 2, as a function of what the reads returned.

    The second program, assignment.c, is embedded in [Module Assignment]. *)

From Stdlib Require Import Reals Lra Lia ZArith Bool List String Ascii.
From Stdlib Require Import DecimalString.
Import ListNotations.

Local Open Scope string_scope.
Local Open Scope Z_scope.
Local Open Scope R_scope.

(** ** Undefined behaviour as an error monad *)

Definition bind {A B : Type} (c : option A) (k : A -> option B) : option B :=
  match c with
  | Some a => k a
  | None => None
  end.

Notation "x <- c ;; k" := (bind c (fun x => k))
  (at level 61, c at next level, right associativity).
Notation "' p <- c ;; k" := (bind c (fun p => k))
  (at level 61, p pattern, c at next level, right associativity).

(** ** Comparisons of doubles, as the conditions of the C code *)

Definition Rltb (x y : R) : bool := if Rlt_dec x y then true else false.
Definition Rleb (x y : R) : bool := if Rle_dec x y then true else false.
Definition Rgtb (x y : R) : bool := Rltb y x.
Definition Rgeb (x y : R) : bool := Rleb y x.

(** ** <math.h>: floor, ceil, and the conversions to integer types *)

Definition floor (x : R) : R := IZR (Int_part x).
Definition ceil (x : R) : R := IZR (- Int_part (- x)).

(** Conversion of a double to an integer type discards the fractional part
    (truncation toward zero). *)
Definition trunc (x : R) : Z :=
  if Rle_dec 0 x then Int_part x else (- Int_part (- x))%Z.

Definition INT_MIN : Z := (-2147483648)%Z.
Definition INT_MAX : Z := 2147483647%Z.
Definition TIME_T_MIN : Z := (-9223372036854775808)%Z.
Definition TIME_T_MAX : Z := 9223372036854775807%Z.

Definition fits (lo hi z : Z) : bool := ((lo <=? z) && (z <=? hi))%Z.

Definition checked (lo hi z : Z) : option Z :=
  if fits lo hi z then Some z else None.

(** [(int)x] and [(time_t)x] for a double [x]. *)
Definition double_to_int (x : R) : option Z := checked INT_MIN INT_MAX (trunc x).
Definition double_to_time_t (x : R) : option Z :=
  checked TIME_T_MIN TIME_T_MAX (trunc x).

(** Signed additions. *)
Definition int_add (a b : Z) : option Z := checked INT_MIN INT_MAX (a + b).
Definition time_t_add (a b : Z) : option Z :=
  checked TIME_T_MIN TIME_T_MAX (a + b).

(** ** <string.h>: strstr, strlen *)

(** [strstr haystack needle] is the suffix of [haystack] that starts at the
    first occurrence of [needle], or [None] (the null pointer). *)
Fixpoint strstr (haystack needle : string) : option string :=
  if prefix needle haystack then Some haystack
  else match haystack with
       | EmptyString => None
       | String _ rest => strstr rest needle
       end.

Definition found (p : option string) : bool :=
  match p with Some _ => true | None => false end.

Definition strlen (s : string) : Z := Z.of_nat (String.length s).

(** ** Constants and data structures *)

Definition G0 : R := 9.80665.
Definition EARTH_ASCENT_COST : R := 9.30.
Definition DATE_STRLEN : Z := 20%Z.

Record Rocket := {
  rocket_name : string;
  wet_mass_kg : R;
  dry_mass_kg : R;
  isp_avg : R;
  payload_leo_kg : R;
  staging_factor : R;
  refuel_dv_per_tanker : R
}.

Record Body := {
  body_name : string;
  dv_transfer : R;
  dv_capture : R;
  synodic_days : R;
  epoch_date : string;
  typical_transit_days : R
}.

(** [strategy]: 0=direct, 1=oberth, 2=gravity-assist, 3=refuel,
    4=kick-stage, -1=impossible. *)
Record Mission := {
  rocket : Rocket;
  body : Body;
  start_date : string;
  payload_kg : R;
  strategy : Z;
  notes : string
}.

Definition Direct : Z := 0%Z.
Definition ObertPerigeeKick : Z := 1%Z.
Definition GravityAssist : Z := 2%Z.
Definition OrbitalRefuel : Z := 3%Z.
Definition KickStage : Z := 4%Z.
Definition Infeasible : Z := (-1)%Z.

(** ** The catalog *)

Definition starship : Rocket :=
  {| rocket_name := "SpaceX's Starship"; wet_mass_kg := 5000000;
     dry_mass_kg := 200000; isp_avg := 350; payload_leo_kg := 150000;
     staging_factor := 1.4; refuel_dv_per_tanker := 5.5 |}.

Definition sls : Rocket :=
  {| rocket_name := "NASA's SLS"; wet_mass_kg := 2600000;
     dry_mass_kg := 110000; isp_avg := 400; payload_leo_kg := 95000;
     staging_factor := 1.5; refuel_dv_per_tanker := 0 |}.

Definition new_glenn : Rocket :=
  {| rocket_name := "Blue Origin's New Glenn"; wet_mass_kg := 1700000;
     dry_mass_kg := 100000; isp_avg := 340; payload_leo_kg := 45000;
     staging_factor := 1.4; refuel_dv_per_tanker := 0 |}.

Definition pslv : Rocket :=
  {| rocket_name := "ISRO's Mangalyaan 1 (PSLV)"; wet_mass_kg := 320000;
     dry_mass_kg := 42000; isp_avg := 275; payload_leo_kg := 1750;
     staging_factor := 1.2; refuel_dv_per_tanker := 0 |}.

Definition rockets : list Rocket := [starship; sls; new_glenn; pslv].

Definition moon : Body :=
  {| body_name := "Moon"; dv_transfer := 3.12; dv_capture := 2.80;
     synodic_days := 29.5; epoch_date := "2025-01-13";
     typical_transit_days := 3 |}.

Definition mars : Body :=
  {| body_name := "Mars"; dv_transfer := 3.80; dv_capture := 2.10;
     synodic_days := 780; epoch_date := "2025-01-16";
     typical_transit_days := 210 |}.

Definition titan : Body :=
  {| body_name := "Titan (Saturn)"; dv_transfer := 7.30; dv_capture := 3.00;
     synodic_days := 378.1; epoch_date := "2025-09-21";
     typical_transit_days := 1000 |}.

Definition bodies : list Body := [moon; mars; titan].

(** ** calc_capability *)

Definition calc_capability (r : Rocket) (payload : R) : R :=
  if Rgtb payload (payload_leo_kg r) then 0
  else
    let m0 := wet_mass_kg r + payload in
    let mf := dry_mass_kg r + payload in
    if Rleb mf 0 || Rleb m0 mf then 0
    else
      let dv := (isp_avg r * G0 * ln (m0 / mf)) / 1000 in
      let dv := dv * staging_factor r in
      dv.

(** ** compute_tanker_plan

    The function stores the count through [tankers_needed] and returns the
    same number; the model returns it once. *)

Definition compute_tanker_plan (m : Mission) (shortage : R) : option Z :=
  let per_tanker := refuel_dv_per_tanker (rocket m) in
  if Rleb per_tanker 0 || Rleb shortage 0 then Some 0%Z
  else
    needed <- double_to_int (ceil (shortage / per_tanker)) ;;
    Some needed.

(** The quotient [shortage / per_tanker] is a double: the quotient of the
    two numbers, rounded.  [compute_tanker_plan_rounded div_double] is the
    function with [div_double] for the division of doubles;
    [compute_tanker_plan] is [compute_tanker_plan_rounded Rdiv]. *)
Definition compute_tanker_plan_rounded (div_double : R -> R -> R)
    (m : Mission) (shortage : R) : option Z :=
  let per_tanker := refuel_dv_per_tanker (rocket m) in
  if Rleb per_tanker 0 || Rleb shortage 0 then Some 0%Z
  else
    needed <- double_to_int (ceil (div_double shortage per_tanker)) ;;
    Some needed.

(** [2^53]: every whole number up to it is a double. *)
Definition MAX_EXACT : Z := 9007199254740992%Z.

(** What the division of doubles is known to do, for a positive divisor:
    rounding never crosses a whole number up to [2^53], since such a number
    is a double, and between 1 and [2^53] the result is the nearest double,
    within a relative distance of [2^-53] of the quotient. *)
Definition rounds_quotient (div_double : R -> R -> R) : Prop :=
  (forall x y k, 0 < y -> (Z.abs k <= MAX_EXACT)%Z ->
     x / y <= IZR k -> div_double x y <= IZR k) /\
  (forall x y k, 0 < y -> (Z.abs k <= MAX_EXACT)%Z ->
     IZR k <= x / y -> IZR k <= div_double x y) /\
  (forall x y, 0 < y -> 1 <= x / y <= IZR MAX_EXACT ->
     Rabs (div_double x y - x / y) <= x / y / IZR MAX_EXACT).

(** ** run_mission

    [run_mission] writes the strategy and the notes into the mission and
    prints the numbers it computed.  The model returns the updated mission
    together with the locals that are printed. *)

Definition set_strategy (m : Mission) (s : Z) : Mission :=
  {| rocket := rocket m; body := body m; start_date := start_date m;
     payload_kg := payload_kg m; strategy := s; notes := notes m |}.

Definition set_notes (m : Mission) (n : string) : Mission :=
  {| rocket := rocket m; body := body m; start_date := start_date m;
     payload_kg := payload_kg m; strategy := strategy m; notes := n |}.

(** [snprintf(tmp, ..., "%d", n)]: the decimal text of an int. *)
Definition string_of_int (n : Z) : string := NilZero.string_of_int (Z.to_int n).

Record Plan := {
  plan_mission : Mission;
  plan_cap : R;
  plan_total_req : R;
  plan_bonus_dv : R;
  plan_tankers_needed : Z;
  plan_final_cap : R;
  plan_final_margin : R;
  plan_success : bool
}.

(** The decision logic (the [if(margin < 0) ... else ...] statement):
    the mission with its strategy and notes, and [bonus_dv]. *)
Definition decide_strategy (m : Mission) (margin : R) : Mission * R :=
  if Rltb margin 0 then
    if found (strstr (body_name (body m)) "Titan") then
      (set_notes (set_strategy m 2)
         "Alternate route: VEEGA gravity assist (~7 year flight)", 4.5)
    else if found (strstr (rocket_name (rocket m)) "Starship") then
      (set_notes (set_strategy m 3)
         "Assumption: LEO refueling by tanker missions", 0)
    else if Rgtb margin (-1.5) then
      (set_notes (set_strategy m 4)
         "Assumption: Added 'Star 48' solid kick stage", 2.0)
    else
      (set_notes (set_strategy m (-1))
         "No feasible profile found with current assumptions", 0)
  else
    if found (strstr (rocket_name (rocket m)) "PSLV")
       && found (strstr (body_name (body m)) "Mars")
       && Rleb (payload_kg m) 1500 then
      (set_notes (set_strategy m 1)
         "Oberth/Kick-perigee method for low-mass Mars mission", 6.5)
    else (m, 0).

(** From the delta-v requirements to the [success] flag. *)
Definition run_mission_plan (m : Mission) : option Plan :=
  let p1 := EARTH_ASCENT_COST in
  let p2 := dv_transfer (body m) in
  let p3 := dv_capture (body m) in
  let total_req := p1 + p2 + p3 in
  let cap := calc_capability (rocket m) (payload_kg m) in
  let m := set_strategy m 0 in
  let m := set_notes m "None" in
  let margin := cap - total_req in
  let '(m, bonus_dv) := decide_strategy m margin in
  '(m, tankers_needed, final_cap) <-
    (if (strategy m =? 3)%Z then
       let shortage := total_req - cap in
       if Rleb shortage 0 then Some (m, 0%Z, cap)
       else
         tankers_needed <- compute_tanker_plan m shortage ;;
         let tankers_needed :=
           if (tankers_needed <? 0)%Z then 0%Z else tankers_needed in
         let final_cap :=
           cap + IZR tankers_needed * refuel_dv_per_tanker (rocket m) in
         let tmp := "LEO refueling: estimated " ++ string_of_int tankers_needed
                    ++ " tanker(s) required" in
         Some (set_notes m tmp, tankers_needed, final_cap)
     else Some (m, 0%Z, cap + bonus_dv)) ;;
  let final_margin := final_cap - total_req in
  let success := Rgeb final_margin 0 && negb (strategy m =? -1)%Z in
  Some {| plan_mission := m; plan_cap := cap; plan_total_req := total_req;
          plan_bonus_dv := bonus_dv; plan_tankers_needed := tankers_needed;
          plan_final_cap := final_cap; plan_final_margin := final_margin;
          plan_success := success |}.

(** ** sscanf(s, "%d-%d-%d", &y, &m, &d) *)

Definition isspace (c : ascii) : bool :=
  let n := nat_of_ascii c in
  (Nat.eqb n 32 || (Nat.leb 9 n && Nat.leb n 13))%bool.

Definition digit_of (c : ascii) : option Z :=
  let n := nat_of_ascii c in
  if (Nat.leb 48 n && Nat.leb n 57)%bool then Some (Z.of_nat n - 48)%Z
  else None.

Fixpoint skip_space (s : string) : string :=
  match s with
  | String c rest => if isspace c then skip_space rest else s
  | EmptyString => s
  end.

(** The longest run of digits at the head of [s], read in base ten. *)
Fixpoint scan_digits (s : string) (acc : Z) : Z * string :=
  match s with
  | String c rest =>
      match digit_of c with
      | Some v => scan_digits rest (10 * acc + v)%Z
      | None => (acc, s)
      end
  | EmptyString => (acc, s)
  end.

(** One [%d] directive: white space, an optional sign, at least one digit.
    [None] is a matching failure. *)
Definition scan_int (s : string) : option (Z * string) :=
  let s := skip_space s in
  let '(neg, s) :=
    match s with
    | String "-"%char rest => (true, rest)
    | String "+"%char rest => (false, rest)
    | _ => (false, s)
    end in
  match s with
  | String c _ =>
      match digit_of c with
      | Some _ =>
          let '(v, rest) := scan_digits s 0 in
          Some (if neg then (- v)%Z else v, rest)
      | None => None
      end
  | EmptyString => None
  end.

(** The literal [-] of the format. *)
Definition scan_dash (s : string) : option string :=
  match s with
  | String "-"%char rest => Some rest
  | _ => None
  end.

(** The three fields when all three conversions succeed, that is when
    [sscanf] returns 3. *)
Definition sscanf_ymd (s : string) : option (Z * Z * Z) :=
  match scan_int s with
  | Some (y, s1) =>
      match scan_dash s1 with
      | Some s2 =>
          match scan_int s2 with
          | Some (m, s3) =>
              match scan_dash s3 with
              | Some s4 =>
                  match scan_int s4 with
                  | Some (d, _) => Some (y, m, d)
                  | None => None
                  end
              | None => None
              end
          | None => None
          end
      | None => None
      end
  | None => None
  end.

Section Libc.

(** [mktime] on a [struct tm] whose hour, minute and second are 0 and whose
    [tm_isdst] is -1, as a function of [tm_year], [tm_mon] and [tm_mday];
    [strftime_ymd t] is the text [strftime] writes for ["%Y-%m-%d"] and
    [localtime(&t)].  Both depend on the time zone of the process. *)
Variable mktime : Z -> Z -> Z -> Z.
Variable strftime_ymd : Z -> string.

(** ** parse_date: -1 on error.  A field that does not fit an [int] is
    undefined. *)
Definition parse_date (s : string) : option Z :=
  if (strlen s <? 8)%Z then Some (-1)%Z
  else
    match sscanf_ymd s with
    | None => Some (-1)%Z
    | Some (y, m, d) =>
        y <- checked INT_MIN INT_MAX y ;;
        m <- checked INT_MIN INT_MAX m ;;
        d <- checked INT_MIN INT_MAX d ;;
        tm_year <- int_add y (-1900) ;;
        tm_mon <- int_add m (-1) ;;
        let tm_mday := d in
        Some (mktime tm_year tm_mon tm_mday)
    end.

(** ** format_date *)
Definition format_date (t : Z) : string :=
  if (t <? 0)%Z then "----" else strftime_ymd t.

(** [difftime(time1, time0)] *)
Definition difftime (time1 time0 : Z) : R := IZR time1 - IZR time0.

(** ** The launch-window table of run_mission *)

(** One turn of the [for] loop: the launch and arrival instants. *)
Definition launch_window (m : Mission) (epoch cycles : Z) (cycle_sec : R)
    (i : Z) : option (Z * Z) :=
  n <- int_add cycles i ;;
  off <- double_to_time_t (IZR n * cycle_sec) ;;
  launch <- time_t_add epoch off ;;
  let days := typical_transit_days (body m) in
  let days :=
    if (strategy m =? 2)%Z && found (strstr (body_name (body m)) "Titan")
    then 2555 else days in
  toff <- double_to_time_t (days * 86400) ;;
  arrival <- time_t_add launch toff ;;
  Some (launch, arrival).

(** [for(int i = ...; ...; i++)] with [count] turns left. *)
Fixpoint for_windows (m : Mission) (epoch cycles : Z) (cycle_sec : R)
    (count : nat) (i : Z) : option (list (Z * Z)) :=
  match count with
  | O => Some []
  | S count' =>
      w <- launch_window m epoch cycles cycle_sec i ;;
      ws <- for_windows m epoch cycles cycle_sec count' (i + 1)%Z ;;
      Some (w :: ws)
  end.

(** [cycles]: a quotient by zero is an infinity or a NaN, which no [int]
    represents. *)
Definition cycles_of (diff cycle_sec : R) : option Z :=
  if Rleb diff 0 then Some 0%Z
  else if Req_dec_T cycle_sec 0 then None
  else double_to_int (floor (diff / cycle_sec)).

Definition run_mission_windows (m : Mission) : option (list (Z * Z)) :=
  start <- parse_date (start_date m) ;;
  epoch <- parse_date (epoch_date (body m)) ;;
  let cycle_sec := synodic_days (body m) * 86400 in
  let diff := difftime start epoch in
  cycles <- cycles_of diff cycle_sec ;;
  for_windows m epoch cycles cycle_sec 5 0.

(** The rows of the table as printed. *)
Definition window_rows (ws : list (Z * Z)) : list (string * string) :=
  map (fun w => (format_date (fst w), format_date (snd w))) ws.

Record Output := {
  out_plan : Plan;
  out_windows : list (Z * Z);
  out_rows : list (string * string)
}.

Definition run_mission (m : Mission) : option Output :=
  plan <- run_mission_plan m ;;
  ws <- run_mission_windows (plan_mission plan) ;;
  Some {| out_plan := plan; out_windows := ws; out_rows := window_rows ws |}.

End Libc.

(** ** The C library in the UTC time zone

    An instance of [mktime] and [strftime] for a process whose time zone is
    UTC: the proleptic Gregorian calendar, days counted from 1970-01-01.
    [mktime] normalises a month or a day out of its range. *)

Definition days_from_civil (y m d : Z) : Z :=
  let y := if (m <=? 2)%Z then (y - 1)%Z else y in
  let era := (y / 400)%Z in
  let yoe := (y - era * 400)%Z in
  let mp := if (m >? 2)%Z then (m - 3)%Z else (m + 9)%Z in
  let doy := ((153 * mp + 2) / 5 + d - 1)%Z in
  let doe := (yoe * 365 + yoe / 4 - yoe / 100 + doy)%Z in
  (era * 146097 + doe - 719468)%Z.

Definition civil_from_days (z : Z) : Z * Z * Z :=
  let z := (z + 719468)%Z in
  let era := (z / 146097)%Z in
  let doe := (z - era * 146097)%Z in
  let yoe := ((doe - doe / 1460 + doe / 36524 - doe / 146096) / 365)%Z in
  let y := (yoe + era * 400)%Z in
  let doy := (doe - (365 * yoe + yoe / 4 - yoe / 100))%Z in
  let mp := ((5 * doy + 2) / 153)%Z in
  let d := (doy - (153 * mp + 2) / 5 + 1)%Z in
  let m := if (mp <? 10)%Z then (mp + 3)%Z else (mp - 9)%Z in
  (if (m <=? 2)%Z then (y + 1)%Z else y, m, d).

Definition mktime_utc (tm_year tm_mon tm_mday : Z) : Z :=
  let y := (tm_year + 1900 + tm_mon / 12)%Z in
  let m := (tm_mon mod 12 + 1)%Z in
  (86400 * (days_from_civil y m 1 + (tm_mday - 1)))%Z.

Definition two_digits (n : Z) : string :=
  if (n <? 10)%Z then "0" ++ string_of_int n else string_of_int n.

Definition strftime_ymd_utc (t : Z) : string :=
  let '(y, m, d) := civil_from_days (t / 86400)%Z in
  string_of_int y ++ "-" ++ two_digits m ++ "-" ++ two_digits d.

Definition parse_date_utc := parse_date mktime_utc.
Definition format_date_utc := format_date strftime_ymd_utc.

(** ** A mission as [main] fills it in before calling run_mission *)

Definition mk_mission (r : Rocket) (b : Body) (date : string) (payload : R)
  : Mission :=
  {| rocket := r; body := b; start_date := date; payload_kg := payload;
     strategy := 0%Z; notes := "" |}.

(** ** Definitions used in the statements *)

(** A rocket with [dry < wet] and a capacity that is not negative, whose
    dry mass is zero. *)
Definition massless_rocket : Rocket :=
  {| rocket_name := "Test"; wet_mass_kg := 100; dry_mass_kg := 0;
     isp_avg := 300; payload_leo_kg := 10; staging_factor := 1;
     refuel_dv_per_tanker := 0 |}.

(** A rocket named PSLV with the masses of the catalog one and an engine
    that reaches Mars. *)
Definition uprated_pslv : Rocket :=
  {| rocket_name := "PSLV (uprated)"; wet_mass_kg := 320000;
     dry_mass_kg := 42000; isp_avg := 1000; payload_leo_kg := 1750;
     staging_factor := 2; refuel_dv_per_tanker := 0 |}.

(** A rocket named Starship for which no tanker is flown. *)
Definition tankerless_starship : Rocket :=
  {| rocket_name := "SpaceX's Starship"; wet_mass_kg := 5000000;
     dry_mass_kg := 200000; isp_avg := 350; payload_leo_kg := 150000;
     staging_factor := 1.4; refuel_dv_per_tanker := 0 |}.

(** The locals [total_req] and [cap] of run_mission, and the mission after
    [m->strategy = 0; strcpy(m->notes, "None")]. *)
Definition total_req_of (m : Mission) : R :=
  EARTH_ASCENT_COST + dv_transfer (body m) + dv_capture (body m).

(** [cap]: the base capability for the mission's payload. *)
Definition cap_of (m : Mission) : R :=
  calc_capability (rocket m) (payload_kg m).

(** The mission at the start of the decision logic. *)
Definition initialised (m : Mission) : Mission :=
  set_notes (set_strategy m 0) "None".

(** The note that the refuel branch formats into [tmp]. *)
Definition refuel_note (n : Z) : string :=
  "LEO refueling: estimated " ++ string_of_int n ++ " tanker(s) required".

(** The four [strstr] tests on the names. *)
Definition names_titan (m : Mission) : bool :=
  found (strstr (body_name (body m)) "Titan").
Definition names_starship (m : Mission) : bool :=
  found (strstr (rocket_name (rocket m)) "Starship").
Definition names_pslv (m : Mission) : bool :=
  found (strstr (rocket_name (rocket m)) "PSLV").
Definition names_mars (m : Mission) : bool :=
  found (strstr (body_name (body m)) "Mars").

(** What run_mission computes on the refuel branch with [n] tankers. *)
Definition refuel_plan (m : Mission) (n : Z) : Plan :=
  let m1 := set_notes (set_strategy (initialised m) 3)
              "Assumption: LEO refueling by tanker missions" in
  {| plan_mission := set_notes m1 (refuel_note n);
     plan_cap := cap_of m;
     plan_total_req := total_req_of m; plan_bonus_dv := 0;
     plan_tankers_needed := n;
     plan_final_cap := cap_of m + IZR n * refuel_dv_per_tanker (rocket m);
     plan_final_margin :=
       cap_of m + IZR n * refuel_dv_per_tanker (rocket m) - total_req_of m;
     plan_success :=
       Rgeb (cap_of m + IZR n * refuel_dv_per_tanker (rocket m)
             - total_req_of m) 0 && true |}.

(** A Starship whose tankers add a nanometre per second each. *)
Definition slow_tanker_starship : Rocket :=
  {| rocket_name := "SpaceX's Starship"; wet_mass_kg := 5000000;
     dry_mass_kg := 200000; isp_avg := 350; payload_leo_kg := 150000;
     staging_factor := 1.4; refuel_dv_per_tanker := 0.000000000001 |}.

(** [days] in the loop: 2555 for the gravity-assist strategy to Titan. *)
Definition transit_days_of (m : Mission) : R :=
  if (strategy m =? 2)%Z && found (strstr (body_name (body m)) "Titan")
  then 2555 else typical_transit_days (body m).

(** The instants of window [i]. *)
Definition window_at (m : Mission) (epoch cycles : Z) (cycle_sec : R) (i : Z)
  : Z * Z :=
  let launch := (epoch + trunc (IZR (cycles + i) * cycle_sec))%Z in
  (launch, (launch + trunc (transit_days_of m * 86400))%Z).

(** The values of the loop variable: [count] of them from [i] on. *)
Fixpoint indices (count : nat) (i : Z) : list Z :=
  match count with
  | O => []
  | S count' => i :: indices count' (i + 1)%Z
  end.

(** [cycles] as run_mission computes it from the two parsed instants. *)
Definition cycle_index (start epoch : Z) (cycle_sec : R) : Z :=
  if Rle_dec (IZR start - IZR epoch) 0 then 0%Z
  else Int_part ((IZR start - IZR epoch) / cycle_sec).

(** The conversions and additions of the loop stay in range: the cycle
    index of the fifth window fits an [int]; the epoch, the offset of the
    fifth window, the transit and the fifth arrival fit a [time_t]. *)
Definition windows_in_range (start epoch : Z) (cycle_sec transit_sec : R)
  : Prop :=
  (TIME_T_MIN <= epoch)%Z /\
  Rmax 0 (IZR start - IZR epoch) / cycle_sec + 4 <= IZR INT_MAX /\
  Rmax 0 (IZR start - IZR epoch) + 4 * cycle_sec <= IZR TIME_T_MAX /\
  transit_sec <= IZR TIME_T_MAX /\
  IZR epoch + Rmax 0 (IZR start - IZR epoch) + 4 * cycle_sec + transit_sec
    <= IZR TIME_T_MAX.


(** A Mars whose epoch date is not a date. *)
Definition unknown_epoch_mars : Body :=
  {| body_name := "Mars"; dv_transfer := 3.80; dv_capture := 2.10;
     synodic_days := 780; epoch_date := "unknown!!";
     typical_transit_days := 210 |}.

(** ** The rest of run_mission: status, suggestions, the save prompt *)

(** The status that run_mission prints under the mission header. *)
Inductive Status : Type :=
  | DirectMissionFeasible
  | AlternateProfileFeasible
  | NotFeasible.

Definition status_of (success : bool) (m : Mission) : Status :=
  if success then
    if (strategy m =? 0)%Z then DirectMissionFeasible
    else AlternateProfileFeasible
  else NotFeasible.

(** The margin line of print_dv_breakdown: [true] is "[FEASIBLE]",
    [false] is "[INSUFFICIENT]". *)
Definition margin_feasible (final_margin : R) : bool := Rgeb final_margin 0.

(** The loop that suggests other rockets, run when [success] is 0: the
    rockets printed, each with its [alt_cap]. *)
Fixpoint suggest_loop (rs : list Rocket) (m : Mission) (total_req : R)
  : list (Rocket * R) :=
  match rs with
  | [] => []
  | r :: rest =>
      if String.eqb (rocket_name r) (rocket_name (rocket m))
      then suggest_loop rest m total_req
      else
        let alt_cap := calc_capability r (payload_kg m) in
        if Rgeb (alt_cap - total_req) 0
        then (r, alt_cap) :: suggest_loop rest m total_req
        else suggest_loop rest m total_req
  end.

Definition suggestions (plan : Plan) : list (Rocket * R) :=
  if plan_success plan then []
  else suggest_loop rockets (plan_mission plan) (plan_total_req plan).

(** The mission planned again with another rocket. *)
Definition with_rocket (m : Mission) (r : Rocket) : Mission :=
  {| rocket := r; body := body m; start_date := start_date m;
     payload_kg := payload_kg m; strategy := strategy m; notes := notes m |}.

(** ** Standard input *)

Definition newline : ascii := ascii_of_nat 10.

(** clean_stdin: characters are read up to and including the first newline,
    or to the end of the input.  The result is the input left. *)
Fixpoint clean_stdin (input : string) : string :=
  match input with
  | EmptyString => EmptyString
  | String c rest => if Ascii.eqb c newline then rest else clean_stdin rest
  end.

(** The save prompt of run_mission: [clean_stdin(); c = getchar();] and the
    test [c == 'y' || c == 'Y'].  At the end of the input [getchar] is EOF. *)
Definition wants_save (input : string) : bool :=
  match clean_stdin input with
  | EmptyString => false
  | String c _ => Ascii.eqb c "y" || Ascii.eqb c "Y"
  end.

(** ** main: the mission of menu entry 2

    The model takes what the reads returned: [Some v] when [scanf] converted
    the value [v], [None] when it converted nothing; the buffer filled by
    [fgets], or [None] for a null result. *)

Definition NUM_ROCKETS : Z := Z.of_nat (List.length rockets).
Definition NUM_BODIES : Z := Z.of_nat (List.length bodies).

(** [if(scanf(...) != 1) sel = 1; if(sel < 1 || sel > n) sel = 1;] *)
Definition clamp_selection (n : Z) (scanned : option Z) : Z :=
  let sel := match scanned with Some v => v | None => 1%Z end in
  if (sel <? 1)%Z || (sel >? n)%Z then 1%Z else sel.

(** [a[i]]: outside the array the access is undefined. *)
Definition array_get {A : Type} (a : list A) (i : Z) : option A :=
  if (i <? 0)%Z then None else nth_error a (Z.to_nat i).

(** [buf[strcspn(buf, "\n")] = 0] *)
Fixpoint cut_at_newline (buf : string) : string :=
  match buf with
  | EmptyString => EmptyString
  | String c rest =>
      if Ascii.eqb c newline then EmptyString
      else String c (cut_at_newline rest)
  end.

(** [strncpy(dst, src, n)] into a field that ends in a zero byte. *)
Definition strncpy (src : string) (n : Z) : string :=
  substring 0 (Z.to_nat n) src.

Definition read_start_date (line : option string) : string :=
  let buf := match line with Some l => l | None => "2025-01-01" end in
  let buf := cut_at_newline buf in
  if (strlen buf <? 8)%Z then "2025-01-01"
  else strncpy buf (DATE_STRLEN - 1).

Definition read_payload (scanned : option R) : R :=
  let payload := match scanned with Some v => v | None => 0 end in
  if Rltb payload 0 then 0 else payload.

(** What [scanf("%lf", &payload)] can store: a number, or an infinity or a
    NaN for the inputs "inf", "-inf" and "nan". *)
Inductive scanned_double : Type :=
  | Number (x : R)
  | PlusInfinity
  | MinusInfinity
  | NotANumber.

(** [payload < 0]: a comparison with a NaN is false. *)
Definition negative (payload : scanned_double) : bool :=
  match payload with
  | Number x => Rltb x 0
  | MinusInfinity => true
  | PlusInfinity => false
  | NotANumber => false
  end.

(** The two payload tests of [main] on what [scanf] stored;
    [read_payload] is their restriction to the numbers. *)
Definition read_payload_scanned (scanned : option scanned_double)
  : scanned_double :=
  let payload := match scanned with Some v => v | None => Number 0 end in
  if negative payload then Number 0 else payload.

(** The mission handed to run_mission.  [m] is the mission object of
    [main], which keeps the strategy and the notes of the run before. *)
Definition plan_new_mission (m : Mission) (rsel bsel : option Z)
    (line : option string) (payload : option R) : option Mission :=
  let rsel := clamp_selection NUM_ROCKETS rsel in
  r <- array_get rockets (rsel - 1) ;;
  let bsel := clamp_selection NUM_BODIES bsel in
  b <- array_get bodies (bsel - 1) ;;
  Some {| rocket := r; body := b; start_date := read_start_date line;
          payload_kg := read_payload payload;
          strategy := strategy m; notes := notes m |}.

(** ** Forms used to state and prove the scanning properties *)

(** The sign step of a [%d] directive, with the character tests written
    as comparisons. *)
Definition sign_step (s : string) : bool * string :=
  match s with
  | String c rest =>
      if Ascii.eqb c "-" then (true, rest)
      else if Ascii.eqb c "+" then (false, rest)
      else (false, s)
  | EmptyString => (false, s)
  end.

(** A text that is empty or starts with a character that is no digit. *)
Definition no_leading_digit (t : string) : Prop :=
  match t with
  | String c _ => digit_of c = None
  | EmptyString => True
  end.

(** ** The timeline and the notes of run_mission *)

(** The first column of the rows of print_enhanced_timeline, which
    run_mission calls when [success] holds. *)
Definition timeline_regimes (m : Mission) : list string :=
  ["Pre-Launch"; "Atmospheric Ascent"; "LEO Insertion"]
  ++ (if (strategy m =? 3)%Z then ["Orbital Rendezvous"; "Departure Burn"]
      else if (strategy m =? 4)%Z then ["Kick Stage Ignition"]
      else if (strategy m =? 2)%Z then ["Gravity Assist Phase"]
      else if (strategy m =? 1)%Z then ["Oberth Kicks"]
      else ["Trans Injection"])
  ++ ["Interplanetary Cruise"; "Approach & Capture"; "Landing/Arrival"].

Definition printed_timeline (plan : Plan) : option (list string) :=
  if plan_success plan then Some (timeline_regimes (plan_mission plan))
  else None.

(** * assignment.c: the table-driven planner *)

Module Assignment.

Definition NUM_ROCKETS : Z := 4%Z.
Definition NUM_BODIES : Z := 3%Z.
Definition MAX_WINDOWS : Z := 5%Z.

Record Rocket := {
  name : string;
  isp : R;
  dry_mass : R;
  wet_mass : R;
  max_dv : R
}.

Record LaunchWindow := {
  launch_date : string;
  arrival_date : string;
  required_dv : R
}.

Record CelestialBody := {
  cname : string;
  average_distance : R;
  synodic_period : R;
  min_dv : R;
  windows : list LaunchWindow
}.

Definition window (l a : string) (dv : R) : LaunchWindow :=
  {| launch_date := l; arrival_date := a; required_dv := dv |}.

Definition rockets : list Rocket :=
  [ {| name := "SpaceX Starship"; isp := 380; dry_mass := 120000;
       wet_mass := 500000; max_dv := 9.1 |};
    {| name := "NASA SLS"; isp := 452; dry_mass := 85000;
       wet_mass := 2600000; max_dv := 10.0 |};
    {| name := "Blue Origin New Glenn"; isp := 350; dry_mass := 45000;
       wet_mass := 450000; max_dv := 9.0 |};
    {| name := "ISRO Mangalyaan 1"; isp := 315; dry_mass := 1350;
       wet_mass := 2200; max_dv := 9.7 |} ].

Definition bodies : list CelestialBody :=
  [ {| cname := "Moon"; average_distance := 384400; synodic_period := 29.53;
       min_dv := 10.8;
       windows :=
         [ window "2025-12-01" "2025-12-04" 10.8;
           window "2026-01-01" "2026-01-04" 10.8;
           window "2026-01-31" "2026-02-03" 10.8;
           window "2026-03-01" "2026-03-04" 10.8;
           window "2026-03-30" "2026-04-02" 10.8 ] |};
    {| cname := "Mars"; average_distance := 225000000; synodic_period := 780.0;
       min_dv := 12.0;
       windows :=
         [ window "2027-02-01" "2027-09-01" 12.0;
           window "2029-04-15" "2029-11-20" 12.0;
           window "2031-06-10" "2032-01-10" 12.0;
           window "2033-08-17" "2034-03-12" 12.0;
           window "2035-10-22" "2036-05-30" 12.0 ] |};
    {| cname := "Titan"; average_distance := 1200000000;
       synodic_period := 378.0; min_dv := 18.0;
       windows :=
         [ window "2030-05-18" "2037-01-15" 18.0;
           window "2035-06-22" "2042-02-01" 18.0;
           window "2040-07-30" "2047-03-10" 18.0;
           window "2045-09-06" "2052-04-18" 18.0;
           window "2050-10-14" "2057-05-27" 18.0 ] |} ].

(** select_by_menu: [scanned] is the value [scanf] stored in [x], or
    [None] when nothing was converted; [x] is then read uninitialised, which
    is undefined. *)
Definition select_by_menu (n : Z) (scanned : option Z) : option Z :=
  x <- scanned ;;
  Some (if (1 <=? x)%Z && (x <=? n)%Z then (x - 1)%Z else (-1)%Z).

(** estimate_fuel.  For [isp = 0] the C quotient is an infinity or a NaN,
    which [R] does not have; the properties below take [0 < isp]. *)
Definition estimate_fuel (dv_kms : R) (r : Rocket) : R :=
  let g0 := 9.81 in
  let dv := dv_kms * 1000.0 in
  let exponent := dv / (g0 * isp r) in
  let mass_ratio := exp exponent in
  let fuel := dry_mass r * (mass_ratio - 1) in
  if Rltb fuel 0 then 0 else fuel.

(** The column "Usable for Rocket": "YES" or "EXCEEDS BY" and the excess. *)
Inductive Usable : Type :=
  | Yes
  | ExceedsBy (dv_over : R).

Record Row := {
  row_launch : string;
  row_arrival : string;
  row_req_dv : R;
  row_status : Usable;
  row_fuel : R
}.

(** One turn of the loop of print_launch_windows. *)
Definition window_row (r : Rocket) (w : LaunchWindow) : Row :=
  let req_dv := required_dv w in
  let dv_over := req_dv - max_dv r in
  let status := if Rleb dv_over 0 then Yes else ExceedsBy dv_over in
  let fuel := estimate_fuel req_dv r in
  {| row_launch := launch_date w; row_arrival := arrival_date w;
     row_req_dv := req_dv; row_status := status; row_fuel := fuel |}.

(** [for (i = 0; i < MAX_WINDOWS; i++)] over [b->windows[i]]. *)
Fixpoint rows_from (r : Rocket) (b : CelestialBody) (count : nat) (i : Z)
  : option (list Row) :=
  match count with
  | O => Some []
  | S count' =>
      w <- array_get (windows b) i ;;
      rest <- rows_from r b count' (i + 1)%Z ;;
      Some (window_row r w :: rest)
  end.

Definition print_launch_windows (r : Rocket) (b : CelestialBody)
  : option (list Row) :=
  rows_from r b (Z.to_nat MAX_WINDOWS) 0.

(** main: the exit status and the rows printed. *)
Definition main (rsel bsel : option Z) : option (Z * list Row) :=
  r_idx <- select_by_menu NUM_ROCKETS rsel ;;
  if (r_idx =? -1)%Z then Some (1%Z, [])
  else
    b_idx <- select_by_menu NUM_BODIES bsel ;;
    if (b_idx =? -1)%Z then Some (1%Z, [])
    else
      r <- array_get rockets r_idx ;;
      b <- array_get bodies b_idx ;;
      rows <- print_launch_windows r b ;;
      Some (0%Z, rows).

End Assignment.

(** * Properties *)

(** ** Dates in the UTC time zone *)

Example parse_date_epoch_mars :
  parse_date_utc "2025-01-16" = Some 1736985600%Z.
Proof. vm_compute. reflexivity. Qed.

Example format_date_epoch_mars :
  format_date_utc 1736985600%Z = "2025-01-16".
Proof. vm_compute. reflexivity. Qed.

Example parse_date_too_short : parse_date_utc "2025" = Some (-1)%Z.
Proof. vm_compute. reflexivity. Qed.

Example parse_date_no_number : parse_date_utc "not-a-date" = Some (-1)%Z.
Proof. vm_compute. reflexivity. Qed.

Example format_date_error : format_date_utc (-1)%Z = "----".
Proof. vm_compute. reflexivity. Qed.

(** Three integers that are no calendar date are accepted: [mktime]
    normalises the thirtieth of February to the second of March. *)
Example parse_date_february_30 :
  option_map format_date_utc (parse_date_utc "2025-02-30") = Some "2025-03-02".
Proof. vm_compute. reflexivity. Qed.


(** ** Comparisons *)

Lemma Rltb_true x y : Rltb x y = true <-> x < y.
Proof. unfold Rltb. destruct (Rlt_dec x y); split; intros; try lra; congruence. Qed.

Lemma Rltb_false x y : Rltb x y = false <-> y <= x.
Proof. unfold Rltb. destruct (Rlt_dec x y); split; intros; try lra; congruence. Qed.

Lemma Rleb_true x y : Rleb x y = true <-> x <= y.
Proof. unfold Rleb. destruct (Rle_dec x y); split; intros; try lra; congruence. Qed.

Lemma Rleb_false x y : Rleb x y = false <-> y < x.
Proof. unfold Rleb. destruct (Rle_dec x y); split; intros; try lra; congruence. Qed.

Lemma Rltb_lt x y : x < y -> Rltb x y = true.
Proof. apply Rltb_true. Qed.

Lemma Rltb_ge x y : y <= x -> Rltb x y = false.
Proof. apply Rltb_false. Qed.

Lemma Rleb_le x y : x <= y -> Rleb x y = true.
Proof. apply Rleb_true. Qed.

Lemma Rleb_gt x y : y < x -> Rleb x y = false.
Proof. apply Rleb_false. Qed.

(** ** Integer parts *)

Lemma Int_part_bounds x : IZR (Int_part x) <= x < IZR (Int_part x) + 1.
Proof. destruct (base_Int_part x). lra. Qed.

Lemma Int_part_unique x z : IZR z <= x < IZR z + 1 -> Int_part x = z.
Proof. intros H. symmetry. apply Int_part_spec. lra. Qed.

Lemma Int_part_IZR z : Int_part (IZR z) = z.
Proof. apply Int_part_unique. lra. Qed.

Lemma ceil_bounds x : ceil x - 1 < x <= ceil x.
Proof.
  unfold ceil. rewrite opp_IZR.
  destruct (Int_part_bounds (- x)). lra.
Qed.

Lemma ceil_unique x z : IZR z - 1 < x <= IZR z -> ceil x = IZR z.
Proof.
  intros H. unfold ceil. f_equal.
  rewrite (Int_part_unique (- x) (- z)).
  - lia.
  - rewrite opp_IZR. lra.
Qed.

Lemma trunc_IZR z : trunc (IZR z) = z.
Proof.
  unfold trunc. destruct (Rle_dec 0 (IZR z)).
  - apply Int_part_IZR.
  - rewrite <- opp_IZR, Int_part_IZR. lia.
Qed.

Lemma trunc_nonneg_bounds x : 0 <= x -> IZR (trunc x) <= x < IZR (trunc x) + 1.
Proof.
  intros Hx. unfold trunc. destruct (Rle_dec 0 x); [|lra].
  apply Int_part_bounds.
Qed.

Lemma trunc_nonneg x : 0 <= x -> (0 <= trunc x)%Z.
Proof.
  intros Hx. destruct (trunc_nonneg_bounds x Hx) as [_ H].
  apply Z.lt_succ_r. apply lt_IZR. rewrite succ_IZR. lra.
Qed.


Lemma trunc_mono x y : 0 <= x -> x <= y -> (trunc x <= trunc y)%Z.
Proof.
  intros Hx Hxy.
  destruct (trunc_nonneg_bounds x Hx) as [Hl _].
  destruct (trunc_nonneg_bounds y ltac:(lra)) as [_ Hu].
  apply Z.lt_succ_r. apply lt_IZR. rewrite succ_IZR. lra.
Qed.

Lemma checked_fits lo hi z :
  (lo <= z <= hi)%Z -> checked lo hi z = Some z.
Proof.
  intros H. unfold checked, fits.
  destruct (Z.leb_spec lo z); [|lia].
  destruct (Z.leb_spec z hi); [|lia]. reflexivity.
Qed.

Lemma checked_Some lo hi z v :
  checked lo hi z = Some v -> v = z /\ (lo <= z <= hi)%Z.
Proof.
  unfold checked, fits.
  destruct (Z.leb_spec lo z); destruct (Z.leb_spec z hi); simpl;
    intros E; inversion E; subst; lia.
Qed.

(** ** Bounds on the logarithm *)

Lemma exp_INR_mult x n : exp (INR n * x) = exp x ^ n.
Proof.
  induction n as [|n IH].
  - simpl. rewrite Rmult_0_l. apply exp_0.
  - rewrite S_INR, Rmult_plus_distr_r, Rmult_1_l, exp_plus, IH.
    simpl. ring.
Qed.

Lemma ln_lt_of_exp a b : 0 < a -> a < exp b -> ln a < b.
Proof.
  intros Ha H. rewrite <- (ln_exp b). now apply ln_increasing.
Qed.

Lemma ln_gt_of_exp a b : exp b < a -> b < ln a.
Proof.
  intros H. rewrite <- (ln_exp b). apply ln_increasing; [apply exp_pos|exact H].
Qed.

Lemma ln_pos a : 1 < a -> 0 < ln a.
Proof. intros H. rewrite <- ln_1. apply ln_increasing; lra. Qed.

(** [2 < e], hence [16 < exp 4]. *)
Lemma exp_4_gt_16 : 16 < exp 4.
Proof.
  assert (H1 : 2 < exp 1) by (generalize (exp_ineq1 1 ltac:(lra)); lra).
  replace 4 with (INR 4 * 1) by (simpl; ring).
  rewrite exp_INR_mult. simpl.
  assert (H2 : 4 < exp 1 * exp 1) by nra.
  replace (exp 1 * (exp 1 * (exp 1 * (exp 1 * 1))))
    with ((exp 1 * exp 1) * (exp 1 * exp 1)) by ring.
  nra.
Qed.

(** [exp (1/4) <= 4/3], hence [exp (9/4) < 17]. *)
Lemma exp_9_4_lt_17 : exp (9 / 4) < 17.
Proof.
  assert (H0 : 3 / 4 <= exp (- (1 / 4))) by (generalize (exp_ineq1_le (- (1 / 4))); lra).
  assert (Hp : 0 < exp (1 / 4)) by apply exp_pos.
  assert (H1 : exp (1 / 4) <= 4 / 3).
  { rewrite exp_Ropp in H0.
    assert (He : exp (1 / 4) * / exp (1 / 4) = 1) by (apply Rinv_r; lra).
    nra. }
  replace (9 / 4) with (INR 9 * (1 / 4)) by (simpl; lra).
  rewrite exp_INR_mult.
  apply Rle_lt_trans with ((4 / 3) ^ 9).
  - apply pow_incr. lra.
  - simpl. lra.
Qed.

(** ** calc_capability *)

Lemma calc_capability_over r P :
  payload_leo_kg r < P -> calc_capability r P = 0.
Proof. intros H. unfold calc_capability, Rgtb. now rewrite Rltb_lt. Qed.

Lemma calc_capability_degenerate r P :
  dry_mass_kg r + P <= 0 \/ wet_mass_kg r + P <= dry_mass_kg r + P ->
  calc_capability r P = 0.
Proof.
  intros H. unfold calc_capability.
  destruct (Rgtb P (payload_leo_kg r)); [reflexivity|].
  destruct H as [H|H].
  - now rewrite (Rleb_le _ _ H).
  - rewrite (Rleb_le _ _ H). now rewrite orb_true_r.
Qed.

Lemma calc_capability_formula r P :
  P <= payload_leo_kg r ->
  0 < dry_mass_kg r + P ->
  dry_mass_kg r + P < wet_mass_kg r + P ->
  calc_capability r P =
    isp_avg r * G0 * ln ((wet_mass_kg r + P) / (dry_mass_kg r + P)) / 1000
    * staging_factor r.
Proof.
  intros H1 H2 H3. unfold calc_capability, Rgtb.
  rewrite (Rltb_ge _ _ H1), (Rleb_gt _ _ H2), (Rleb_gt _ _ H3).
  reflexivity.
Qed.

(** C6.  The three cases of [calc_capability]: a payload above the
    practical payload gives 0; a final mass [dry + P <= 0] or an initial
    mass [wet + P <= dry + P] gives 0; otherwise the result is
    [isp * 9.80665 * ln ((wet + P) / (dry + P))], divided by 1000 (km/s),
    times the staging factor. *)
Theorem calc_capability_cases (r : Rocket) (P : R) :
  (P > payload_leo_kg r -> calc_capability r P = 0) /\
  (dry_mass_kg r + P <= 0 \/ wet_mass_kg r + P <= dry_mass_kg r + P ->
   calc_capability r P = 0) /\
  (~ P > payload_leo_kg r ->
   ~ (dry_mass_kg r + P <= 0 \/ wet_mass_kg r + P <= dry_mass_kg r + P) ->
   calc_capability r P =
     isp_avg r * 9.80665 * ln ((wet_mass_kg r + P) / (dry_mass_kg r + P))
     / 1000 * staging_factor r).
Proof.
  split; [|split].
  - intros H. apply calc_capability_over. lra.
  - apply calc_capability_degenerate.
  - intros H1 H2. apply calc_capability_formula; lra.
Qed.

Lemma calc_capability_cases_witness :
  calc_capability starship 150001 = 0 /\
  calc_capability starship 100000 =
    isp_avg starship * 9.80665
    * ln ((wet_mass_kg starship + 100000) / (dry_mass_kg starship + 100000))
    / 1000 * staging_factor starship.
Proof.
  split.
  - apply (proj1 (calc_capability_cases starship 150001)). simpl. lra.
  - apply (proj2 (proj2 (calc_capability_cases starship 100000))); simpl; lra.
Defined.

Lemma calc_capability_nonneg_ratio r P :
  0 < dry_mass_kg r + P -> dry_mass_kg r < wet_mass_kg r ->
  1 < (wet_mass_kg r + P) / (dry_mass_kg r + P).
Proof.
  intros H1 H2.
  apply Rmult_lt_reg_r with (dry_mass_kg r + P); [lra|].
  unfold Rdiv. rewrite Rmult_assoc, Rinv_l; lra.
Qed.

Lemma mass_ratio_decreasing wet dry P P' :
  dry < wet -> 0 < dry + P -> P <= P' ->
  (wet + P') / (dry + P') <= (wet + P) / (dry + P).
Proof.
  intros Hdw Hpos HPP.
  assert (Hpos' : 0 < dry + P') by lra.
  apply Rmult_le_reg_r with ((dry + P) * (dry + P')); [nra|].
  replace ((wet + P') / (dry + P') * ((dry + P) * (dry + P')))
    with ((wet + P') * (dry + P)) by (field; lra).
  replace ((wet + P) / (dry + P) * ((dry + P) * (dry + P')))
    with ((wet + P) * (dry + P')) by (field; lra).
  nra.
Qed.

Lemma ln_le_mono x y : 0 < x -> x <= y -> ln x <= ln y.
Proof.
  intros Hx [H| ->]; [|lra]. left. now apply ln_increasing.
Qed.

(** C7 as stated fails: with a zero dry mass and no payload the final mass
    is 0, the guard [mf <= 0] returns 0, and a heavier payload gets a
    larger capability. *)
Lemma capability_positive_counterexample :
  dry_mass_kg massless_rocket < wet_mass_kg massless_rocket /\
  0 <= payload_leo_kg massless_rocket /\
  1 <= payload_leo_kg massless_rocket /\
  calc_capability massless_rocket 0 = 0 /\
  calc_capability massless_rocket 0 < calc_capability massless_rocket 1.
Proof.
  assert (H0 : calc_capability massless_rocket 0 = 0).
  { apply calc_capability_degenerate. simpl. lra. }
  repeat split; try (simpl; lra); try exact H0.
  rewrite H0, calc_capability_formula by (simpl; lra).
  simpl. unfold G0.
  assert (H : 0 < ln ((100 + 1) / (0 + 1))) by (apply ln_pos; lra).
  lra.
Qed.

(** [ln x <= x - 1], hence [1 - 1 / x <= ln x]; and [1 <= ln x] from 3
    on. *)
Lemma ln_le_sub x : 0 < x -> ln x <= x - 1.
Proof.
  intros Hx. rewrite <- (ln_exp (x - 1)).
  apply ln_le_mono; [exact Hx|].
  generalize (exp_ineq1_le (x - 1)). lra.
Qed.

Lemma ln_ge_sub x : 0 < x -> 1 - / x <= ln x.
Proof.
  intros Hx. assert (Hi : 0 < / x) by now apply Rinv_0_lt_compat.
  pose proof (ln_le_sub (/ x) Hi) as H. rewrite ln_Rinv in H by exact Hx. lra.
Qed.

Lemma ln_ge_1 x : 3 <= x -> 1 <= ln x.
Proof.
  intros Hx. rewrite <- (ln_exp 1) at 1. apply ln_le_mono; [apply exp_pos|].
  generalize exp_le_3. lra.
Qed.

Lemma Rdiv_ge_bound c x d : 0 < d -> c * d <= x -> c <= x / d.
Proof.
  intros Hd H. apply Rmult_le_reg_r with d; [exact Hd|].
  unfold Rdiv. rewrite Rmult_assoc, Rinv_l, Rmult_1_r; lra.
Qed.

(** How fast the capability falls when the payload grows from [P] to
    [P']. *)
Lemma capability_gap r P P' :
  0 <= isp_avg r -> 0 <= staging_factor r ->
  dry_mass_kg r < wet_mass_kg r -> 0 < dry_mass_kg r + P ->
  P <= P' -> P' <= payload_leo_kg r ->
  isp_avg r * G0 / 1000 * staging_factor r
  * ((wet_mass_kg r - dry_mass_kg r) * (P' - P)
     / ((dry_mass_kg r + P') * (wet_mass_kg r + P)))
  <= calc_capability r P - calc_capability r P'.
Proof.
  intros Hisp Hst Hdw Hpos HPP Hcap.
  rewrite !calc_capability_formula by lra.
  set (w := wet_mass_kg r) in *. set (d := dry_mass_kg r) in *.
  set (a := (w + P) / (d + P)). set (b := (w + P') / (d + P')).
  assert (Ha : 0 < a) by (apply Rdiv_lt_0_compat; lra).
  assert (Hb : 0 < b) by (apply Rdiv_lt_0_compat; lra).
  assert (Hq : 0 < a / b) by (apply Rdiv_lt_0_compat; assumption).
  assert (Hab : 1 - b / a <= ln a - ln b).
  { assert (Hdiv : ln (a / b) = ln a - ln b).
    { unfold Rdiv. rewrite ln_mult, ln_Rinv; try assumption; [lra|].
      now apply Rinv_0_lt_compat. }
    rewrite <- Hdiv.
    pose proof (ln_ge_sub (a / b) Hq) as H.
    replace (/ (a / b)) with (b / a) in H by (field; split; lra).
    exact H. }
  assert (Heq : 1 - b / a = (w - d) * (P' - P) / ((d + P') * (w + P))).
  { unfold a, b. field. repeat split; lra. }
  rewrite Heq in Hab.
  set (k := isp_avg r * G0 / 1000 * staging_factor r).
  assert (Hk : 0 <= k).
  { unfold k, G0. apply Rmult_le_pos; [|exact Hst]. lra. }
  replace (isp_avg r * G0 * ln a / 1000 * staging_factor r
           - isp_avg r * G0 * ln b / 1000 * staging_factor r)
    with (k * (ln a - ln b)) by (unfold k; field).
  apply Rmult_le_compat_l; assumption.
Qed.

Lemma gap_bound k w d L P P' :
  0 <= P -> P + 1 <= P' -> P' <= L -> 0 < d -> d < w -> 0 <= k ->
  0.00001 * ((d + L) * (w + L)) <= k * (w - d) ->
  0.00001 <= k * ((w - d) * (P' - P) / ((d + P') * (w + P))).
Proof.
  intros HP HPP HL Hd Hdw Hk Hnum.
  assert (HD : 0 < (d + P') * (w + P)) by (apply Rmult_lt_0_compat; lra).
  assert (Hmax : (d + P') * (w + P) <= (d + L) * (w + L))
    by (apply Rmult_le_compat; lra).
  replace (k * ((w - d) * (P' - P) / ((d + P') * (w + P))))
    with (k * (w - d) * (P' - P) / ((d + P') * (w + P))) by (field; lra).
  apply Rdiv_ge_bound; [exact HD|].
  assert (HK : 0 <= k * (w - d)) by (apply Rmult_le_pos; lra).
  apply Rle_trans with (k * (w - d) * 1); [lra|].
  apply Rmult_le_compat_l; lra.
Qed.

(** The numbers of the catalog that the bounds below rest on: the masses
    are positive, the rocket weighs at least three times its final mass at
    full payload, the factor [isp * G0 / 1000 * staging] is at least 3, and
    the slope of the capability is at least 0.00001 km/s per kilogram. *)
Lemma catalog_rocket_numbers r :
  In r rockets ->
  0 < dry_mass_kg r /\ dry_mass_kg r < wet_mass_kg r /\
  0 <= payload_leo_kg r /\
  3 * (dry_mass_kg r + payload_leo_kg r) <= wet_mass_kg r + payload_leo_kg r /\
  3 <= isp_avg r * G0 / 1000 * staging_factor r /\
  0 <= isp_avg r /\ 0 <= staging_factor r /\
  0.00001 * ((dry_mass_kg r + payload_leo_kg r)
             * (wet_mass_kg r + payload_leo_kg r))
    <= isp_avg r * G0 / 1000 * staging_factor r
       * (wet_mass_kg r - dry_mass_kg r).
Proof.
  intros H. simpl in H.
  destruct H as [<-|[<-|[<-|[<-|[]]]]]; simpl; unfold G0;
    repeat split; lra.
Qed.

(** C7, amended.  For every rocket of the catalog and every payload
    between 0 and the practical payload, the capability is positive, at
    least 3 km/s; and of two such payloads at least one kilogram apart the
    heavier has the smaller capability, by at least 0.00001 km/s. *)
Theorem catalog_capability_decreasing (r : Rocket) (P P' : R) :
  In r rockets -> 0 <= P -> P <= payload_leo_kg r ->
  3 <= calc_capability r P /\
  (P + 1 <= P' -> P' <= payload_leo_kg r ->
   calc_capability r P' + 0.00001 <= calc_capability r P).
Proof.
  intros Hr HP Hcap.
  destruct (catalog_rocket_numbers r Hr)
    as (Hd & Hdw & HL & H3 & Hk & Hisp & Hst & Hslope).
  split.
  - rewrite calc_capability_formula by lra.
    assert (Hl : 1 <= ln ((wet_mass_kg r + P) / (dry_mass_kg r + P))).
    { apply ln_ge_1. apply Rdiv_ge_bound; lra. }
    replace (isp_avg r * G0
             * ln ((wet_mass_kg r + P) / (dry_mass_kg r + P)) / 1000
             * staging_factor r)
      with (isp_avg r * G0 / 1000 * staging_factor r
            * ln ((wet_mass_kg r + P) / (dry_mass_kg r + P))) by field.
    apply Rle_trans with (isp_avg r * G0 / 1000 * staging_factor r * 1);
      [lra|].
    apply Rmult_le_compat_l; lra.
  - intros HPP Hcap'.
    pose proof (capability_gap r P P' Hisp Hst Hdw) as Hg.
    assert (Hb : 0.00001
                 <= isp_avg r * G0 / 1000 * staging_factor r
                    * ((wet_mass_kg r - dry_mass_kg r) * (P' - P)
                       / ((dry_mass_kg r + P') * (wet_mass_kg r + P)))).
    { apply (gap_bound _ _ _ (payload_leo_kg r)); try assumption; lra. }
    assert (Hg' := Hg ltac:(lra) ltac:(lra) Hcap'). lra.
Qed.

Lemma catalog_capability_decreasing_witness :
  3 <= calc_capability starship 100000 /\
  calc_capability starship 140000 + 0.00001 <= calc_capability starship 100000.
Proof.
  destruct (catalog_capability_decreasing starship 100000 140000)
    as [H1 H2]; try (simpl; auto; lra).
  split; [exact H1|]. apply H2; simpl; lra.
Defined.

(** ** compute_tanker_plan *)

Lemma ceil_Z x : ceil x = IZR (- Int_part (- x)).
Proof. reflexivity. Qed.

Lemma double_to_int_ceil x :
  0 < x -> x <= IZR INT_MAX ->
  exists n, double_to_int (ceil x) = Some n /\ IZR n = ceil x /\ (1 <= n)%Z.
Proof.
  intros Hpos Hmax.
  destruct (ceil_bounds x) as [Hlo Hhi].
  rewrite ceil_Z in *. set (c := (- Int_part (- x))%Z) in *.
  assert (Hc1 : (1 <= c)%Z).
  { apply Z.lt_pred_le. apply lt_IZR. simpl. lra. }
  assert (Hc2 : (c <= INT_MAX)%Z).
  { apply Z.lt_succ_r. apply lt_IZR. rewrite succ_IZR. lra. }
  exists c. unfold double_to_int. rewrite trunc_IZR.
  rewrite checked_fits by (unfold INT_MIN; lia). auto.
Qed.

Lemma compute_tanker_plan_zero m shortage :
  refuel_dv_per_tanker (rocket m) <= 0 \/ shortage <= 0 ->
  compute_tanker_plan m shortage = Some 0%Z.
Proof.
  intros H. unfold compute_tanker_plan. destruct H as [H|H].
  - now rewrite (Rleb_le _ _ H).
  - rewrite (Rleb_le _ _ H). now rewrite orb_true_r.
Qed.

Lemma compute_tanker_plan_ceil m shortage :
  0 < refuel_dv_per_tanker (rocket m) -> 0 < shortage ->
  compute_tanker_plan m shortage =
    double_to_int (ceil (shortage / refuel_dv_per_tanker (rocket m))).
Proof.
  intros H1 H2. unfold compute_tanker_plan.
  rewrite (Rleb_gt _ _ H1), (Rleb_gt _ _ H2). simpl.
  destruct (double_to_int _); reflexivity.
Qed.

Lemma double_to_int_ceil_value x z :
  IZR z - 1 < x <= IZR z -> (INT_MIN <= z <= INT_MAX)%Z ->
  double_to_int (ceil x) = Some z.
Proof.
  intros Hx Hz. rewrite (ceil_unique x z Hx).
  unfold double_to_int. rewrite trunc_IZR. now apply checked_fits.
Qed.

(** C8 as stated fails: the count is converted to a 32-bit [int].  For the
    catalog Starship (5.5 km/s per tanker) and a shortage of 16.5e9 km/s
    the quotient is 3e9, which no [int] holds: the conversion is undefined
    and no count [ceil (shortage / per_tanker)] is returned. *)
Lemma compute_tanker_plan_counterexample :
  0 < refuel_dv_per_tanker starship /\
  0 < 16500000000 /\
  ceil (16500000000 / refuel_dv_per_tanker starship) = 3000000000 /\
  compute_tanker_plan (mk_mission starship mars "2025-01-01" 0) 16500000000
    = None.
Proof.
  assert (Hc : ceil (16500000000 / refuel_dv_per_tanker starship)
               = IZR 3000000000).
  { apply ceil_unique. simpl. lra. }
  repeat split; try (simpl; lra); try exact Hc.
  rewrite compute_tanker_plan_ceil by (simpl; lra).
  change (refuel_dv_per_tanker (rocket (mk_mission starship mars "2025-01-01" 0)))
    with (refuel_dv_per_tanker starship).
  rewrite Hc. unfold double_to_int. rewrite trunc_IZR. reflexivity.
Qed.

(** [compute_tanker_plan] is the function with the exact quotient, and the
    exact quotient is one of the roundings. *)
Lemma compute_tanker_plan_exact m shortage :
  compute_tanker_plan_rounded Rdiv m shortage = compute_tanker_plan m shortage.
Proof. reflexivity. Qed.

Lemma Rdiv_rounds_quotient : rounds_quotient Rdiv.
Proof.
  repeat split; intros; try assumption.
  replace (x / y - x / y) with 0 by ring. rewrite Rabs_R0.
  unfold MAX_EXACT. apply Rmult_le_pos; [lra|].
  apply Rlt_le, Rinv_0_lt_compat. lra.
Qed.

(** C8, amended.  With [refuel_dv_per_tanker <= 0] or [shortage <= 0] the
    plan is 0 tankers.  Otherwise, when the quotient
    [shortage / refuel_dv_per_tanker] is at most [INT_MAX], the plan is the
    ceiling of the quotient as the division of doubles delivers it: a count
    that is not negative and lies within one of the quotient, above
    [shortage / refuel_dv_per_tanker - 1] and below
    [shortage / refuel_dv_per_tanker + 1].  A shortage of 7.0 km/s at
    5.5 km/s per tanker gives 2 tankers. *)
Theorem compute_tanker_plan_rounded_spec (div_double : R -> R -> R)
    (m : Mission) (shortage : R) :
  rounds_quotient div_double ->
  (refuel_dv_per_tanker (rocket m) <= 0 \/ shortage <= 0 ->
   compute_tanker_plan_rounded div_double m shortage = Some 0%Z) /\
  (0 < refuel_dv_per_tanker (rocket m) -> 0 < shortage ->
   shortage / refuel_dv_per_tanker (rocket m) <= IZR INT_MAX ->
   exists n,
     compute_tanker_plan_rounded div_double m shortage = Some n /\
     IZR n = ceil (div_double shortage (refuel_dv_per_tanker (rocket m))) /\
     (0 <= n)%Z /\
     IZR n - 1 < shortage / refuel_dv_per_tanker (rocket m) < IZR n + 1) /\
  (refuel_dv_per_tanker (rocket m) = 5.5 ->
   compute_tanker_plan_rounded div_double m 7.0 = Some 2%Z).
Proof.
  intros (Hup & Hdown & Hnear).
  set (per := refuel_dv_per_tanker (rocket m)).
  repeat apply conj.
  - intros H. unfold compute_tanker_plan_rounded. fold per.
    destruct H as [H|H].
    + now rewrite (Rleb_le _ _ H).
    + rewrite (Rleb_le _ _ H). now rewrite orb_true_r.
  - intros Hper Hs Hmax.
    unfold compute_tanker_plan_rounded. fold per.
    rewrite (Rleb_gt _ _ Hper), (Rleb_gt _ _ Hs). simpl orb. cbv iota.
    set (q := shortage / per) in *.
    set (f := div_double shortage per).
    assert (Hq : 0 < q) by (apply Rdiv_lt_0_compat; assumption).
    destruct (ceil_bounds q) as [Hc1 Hc2]. rewrite ceil_Z in Hc1, Hc2.
    set (cz := (- Int_part (- q))%Z) in *.
    destruct (Int_part_bounds q) as [Hd1 Hd2].
    set (dz := Int_part q) in *.
    destruct (ceil_bounds f) as [Hf1 Hf2]. rewrite ceil_Z in Hf1, Hf2 |- *.
    set (fz := (- Int_part (- f))%Z) in *.
    assert (Hcz : (1 <= cz <= INT_MAX)%Z).
    { split.
      - apply Z.lt_pred_le. apply lt_IZR. simpl. lra.
      - apply Z.lt_succ_r. apply lt_IZR. rewrite succ_IZR. lra. }
    assert (Hdz : (0 <= dz <= INT_MAX)%Z).
    { split.
      - apply Z.lt_succ_r. apply lt_IZR. rewrite succ_IZR. lra.
      - apply le_IZR. lra. }
    assert (Hfc : f <= IZR cz).
    { apply Hup; [exact Hper| |exact Hc2].
      unfold MAX_EXACT, INT_MAX in *. lia. }
    assert (Hfd : IZR dz <= f).
    { apply Hdown; [exact Hper| |exact Hd1].
      unfold MAX_EXACT, INT_MAX in *. lia. }
    assert (Hfz : (dz <= fz <= cz)%Z).
    { split.
      - apply le_IZR. lra.
      - apply Z.lt_succ_r. apply lt_IZR. rewrite succ_IZR. lra. }
    exists fz. unfold double_to_int. rewrite trunc_IZR.
    rewrite checked_fits by (unfold INT_MIN, INT_MAX in *; lia).
    repeat apply conj; try reflexivity; try lia.
    + destruct Hfz as [_ Hfz]. apply IZR_le in Hfz. lra.
    + destruct Hfz as [Hfz _]. apply IZR_le in Hfz. lra.
  - intros H55. unfold compute_tanker_plan_rounded. fold per. rewrite H55.
    rewrite Rleb_gt by lra. rewrite Rleb_gt by lra. simpl orb. cbv iota.
    assert (Hn : Rabs (div_double 7.0 5.5 - 7.0 / 5.5)
                 <= 7.0 / 5.5 / IZR MAX_EXACT).
    { apply Hnear; unfold MAX_EXACT; lra. }
    pose proof (Rle_abs (div_double 7.0 5.5 - 7.0 / 5.5)) as Ha.
    pose proof (Rle_abs (7.0 / 5.5 - div_double 7.0 5.5)) as Hb.
    rewrite (Rabs_minus_sym (7.0 / 5.5)) in Hb.
    unfold MAX_EXACT in Hn.
    rewrite (double_to_int_ceil_value _ 2); [reflexivity| |].
    + simpl. lra.
    + unfold INT_MIN, INT_MAX. lia.
Qed.

Lemma compute_tanker_plan_rounded_spec_witness :
  compute_tanker_plan_rounded Rdiv (mk_mission sls mars "2025-01-01" 0) 3
    = Some 0%Z /\
  (exists n,
     compute_tanker_plan_rounded Rdiv
       (mk_mission starship mars "2025-01-01" 0) 11 = Some n /\
     IZR n = ceil (11 / refuel_dv_per_tanker starship) /\
     (0 <= n)%Z /\
     IZR n - 1 < 11 / refuel_dv_per_tanker starship < IZR n + 1) /\
  compute_tanker_plan_rounded Rdiv
    (mk_mission starship mars "2025-01-01" 0) 7.0 = Some 2%Z.
Proof.
  split; [|split].
  - apply (proj1 (compute_tanker_plan_rounded_spec Rdiv
                    (mk_mission sls mars "2025-01-01" 0) 3
                    Rdiv_rounds_quotient)).
    left. simpl. lra.
  - apply (proj1 (proj2 (compute_tanker_plan_rounded_spec Rdiv
                           (mk_mission starship mars "2025-01-01" 0) 11
                           Rdiv_rounds_quotient)));
      cbn [refuel_dv_per_tanker rocket mk_mission starship];
      unfold INT_MAX; lra.
  - apply (proj2 (proj2 (compute_tanker_plan_rounded_spec Rdiv
                           (mk_mission starship mars "2025-01-01" 0) 7.0
                           Rdiv_rounds_quotient))).
    simpl. lra.
Defined.

(** ** The decision logic of run_mission *)

Lemma decide_gravity_assist m margin :
  margin < 0 -> names_titan m = true ->
  decide_strategy m margin =
    (set_notes (set_strategy m 2)
       "Alternate route: VEEGA gravity assist (~7 year flight)", 4.5).
Proof.
  intros Hm Ht. unfold decide_strategy, names_titan in *.
  now rewrite (Rltb_lt _ _ Hm), Ht.
Qed.

Lemma decide_refuel m margin :
  margin < 0 -> names_titan m = false -> names_starship m = true ->
  decide_strategy m margin =
    (set_notes (set_strategy m 3)
       "Assumption: LEO refueling by tanker missions", 0).
Proof.
  intros Hm Ht Hs. unfold decide_strategy, names_titan, names_starship in *.
  now rewrite (Rltb_lt _ _ Hm), Ht, Hs.
Qed.

Lemma decide_kick_stage m margin :
  margin < 0 -> names_titan m = false -> names_starship m = false ->
  -1.5 < margin ->
  decide_strategy m margin =
    (set_notes (set_strategy m 4)
       "Assumption: Added 'Star 48' solid kick stage", 2.0).
Proof.
  intros Hm Ht Hs Hk.
  unfold decide_strategy, names_titan, names_starship, Rgtb in *.
  now rewrite (Rltb_lt _ _ Hm), Ht, Hs, (Rltb_lt _ _ Hk).
Qed.

Lemma decide_infeasible m margin :
  margin < 0 -> names_titan m = false -> names_starship m = false ->
  margin <= -1.5 ->
  decide_strategy m margin =
    (set_notes (set_strategy m (-1))
       "No feasible profile found with current assumptions", 0).
Proof.
  intros Hm Ht Hs Hk.
  unfold decide_strategy, names_titan, names_starship, Rgtb in *.
  now rewrite (Rltb_lt _ _ Hm), Ht, Hs, (Rltb_ge _ _ Hk).
Qed.

Lemma decide_oberth m margin :
  0 <= margin -> names_pslv m = true -> names_mars m = true ->
  payload_kg m <= 1500 ->
  decide_strategy m margin =
    (set_notes (set_strategy m 1)
       "Oberth/Kick-perigee method for low-mass Mars mission", 6.5).
Proof.
  intros Hm Hp Hb Hl.
  unfold decide_strategy, names_pslv, names_mars in *.
  now rewrite (Rltb_ge _ _ Hm), Hp, Hb, (Rleb_le _ _ Hl).
Qed.

Lemma decide_direct m margin :
  0 <= margin ->
  names_pslv m && names_mars m && Rleb (payload_kg m) 1500 = false ->
  decide_strategy m margin = (m, 0).
Proof.
  intros Hm Hc. unfold decide_strategy, names_pslv, names_mars in *.
  now rewrite (Rltb_ge _ _ Hm), Hc.
Qed.

(** The strategy written by the decision logic is one of the six codes. *)
Lemma decide_strategy_codes m margin :
  strategy m = 0%Z ->
  In (strategy (fst (decide_strategy m margin))) [0; 1; 2; 3; 4; -1]%Z.
Proof.
  intros H0. unfold decide_strategy.
  repeat match goal with
         | |- context [if ?c then _ else _] => destruct c
         end; simpl; auto 10.
Qed.

(** The two ways run_mission goes on after the decision. *)
Lemma run_mission_plan_bonus m m1 bonus :
  decide_strategy (initialised m) (cap_of m - total_req_of m) = (m1, bonus) ->
  strategy m1 <> 3%Z ->
  run_mission_plan m =
    Some {| plan_mission := m1; plan_cap := cap_of m;
            plan_total_req := total_req_of m; plan_bonus_dv := bonus;
            plan_tankers_needed := 0;
            plan_final_cap := cap_of m + bonus;
            plan_final_margin := cap_of m + bonus - total_req_of m;
            plan_success :=
              Rgeb (cap_of m + bonus - total_req_of m) 0
              && negb (strategy m1 =? -1)%Z |}.
Proof.
  intros Hd Hs. unfold run_mission_plan.
  unfold initialised, cap_of, total_req_of in Hd. rewrite Hd.
  destruct (Z.eqb_spec (strategy m1) 3); [contradiction|]. reflexivity.
Qed.

Lemma run_mission_plan_tankers m m1 bonus n :
  decide_strategy (initialised m) (cap_of m - total_req_of m) = (m1, bonus) ->
  strategy m1 = 3%Z ->
  0 < total_req_of m - cap_of m ->
  compute_tanker_plan m1 (total_req_of m - cap_of m) = Some n ->
  (0 <= n)%Z ->
  run_mission_plan m =
    Some {| plan_mission := set_notes m1 (refuel_note n);
            plan_cap := cap_of m;
            plan_total_req := total_req_of m; plan_bonus_dv := bonus;
            plan_tankers_needed := n;
            plan_final_cap :=
              cap_of m + IZR n * refuel_dv_per_tanker (rocket m1);
            plan_final_margin :=
              cap_of m + IZR n * refuel_dv_per_tanker (rocket m1)
              - total_req_of m;
            plan_success :=
              Rgeb (cap_of m + IZR n * refuel_dv_per_tanker (rocket m1)
                    - total_req_of m) 0
              && negb (strategy m1 =? -1)%Z |}.
Proof.
  intros Hd Hs Hsh Hn Hge. unfold run_mission_plan.
  unfold initialised, cap_of, total_req_of in *. rewrite Hd.
  rewrite Hs. simpl (3 =? 3)%Z. cbv iota.
  rewrite (Rleb_gt _ _ Hsh). rewrite Hn. simpl bind.
  destruct (Z.ltb_spec n 0); [lia|].
  cbn [set_notes strategy]. rewrite ?Hs. reflexivity.
Qed.

Lemma run_mission_plan_undefined m m1 bonus :
  decide_strategy (initialised m) (cap_of m - total_req_of m) = (m1, bonus) ->
  strategy m1 = 3%Z ->
  0 < total_req_of m - cap_of m ->
  compute_tanker_plan m1 (total_req_of m - cap_of m) = None ->
  run_mission_plan m = None.
Proof.
  intros Hd Hs Hsh Hn. unfold run_mission_plan.
  unfold initialised, cap_of, total_req_of in *. rewrite Hd.
  rewrite Hs. simpl (3 =? 3)%Z. cbv iota.
  rewrite (Rleb_gt _ _ Hsh). rewrite Hn. reflexivity.
Qed.

(** ** Capabilities of the catalog rockets *)

(** [(9/8)^25 > 17], hence [17 < exp (25/8)]. *)
Lemma exp_25_8_gt_17 : 17 < exp (25 / 8).
Proof.
  assert (H1 : 9 / 8 <= exp (1 / 8)) by (generalize (exp_ineq1_le (1 / 8)); lra).
  replace (25 / 8) with (INR 25 * (1 / 8)) by (simpl; lra).
  rewrite exp_INR_mult.
  apply Rlt_le_trans with ((9 / 8) ^ 25).
  - simpl. lra.
  - apply pow_incr. lra.
Qed.

Lemma ln_17_bounds : 9 / 4 < ln 17 < 25 / 8.
Proof.
  split.
  - apply ln_gt_of_exp. apply exp_9_4_lt_17.
  - apply ln_lt_of_exp; [lra|]. apply exp_25_8_gt_17.
Qed.

Lemma ln_lt_4 x : 0 < x -> x <= 16 -> ln x < 4.
Proof.
  intros H0 H1. apply ln_lt_of_exp; [exact H0|].
  generalize exp_4_gt_16. lra.
Qed.

(** Starship with 100 t: between 10.8 and 15.1 km/s. *)
Lemma cap_starship_100000 :
  10.8 < calc_capability starship 100000 < 15.1.
Proof.
  rewrite calc_capability_formula by (simpl; lra).
  simpl. unfold G0.
  replace ((5000000 + 100000) / (200000 + 100000)) with 17 by lra.
  generalize ln_17_bounds. lra.
Qed.

(** Starship with 140 t: positive and below 19.3 km/s. *)
Lemma cap_starship_140000 :
  0 < calc_capability starship 140000 < 19.3.
Proof.
  rewrite calc_capability_formula by (simpl; lra).
  simpl. unfold G0.
  assert (H1 : 0 < ln ((5000000 + 140000) / (200000 + 140000)))
    by (apply ln_pos; lra).
  assert (H2 : ln ((5000000 + 140000) / (200000 + 140000)) < 4)
    by (apply ln_lt_4; lra).
  lra.
Qed.

(** The PSLV with 1 t: positive and below 13 km/s. *)
Lemma cap_pslv_1000 :
  0 < calc_capability pslv 1000 < 13.
Proof.
  rewrite calc_capability_formula by (simpl; lra).
  simpl. unfold G0.
  assert (H1 : 0 < ln ((320000 + 1000) / (42000 + 1000)))
    by (apply ln_pos; lra).
  assert (H2 : ln ((320000 + 1000) / (42000 + 1000)) < 4)
    by (apply ln_lt_4; lra).
  lra.
Qed.

Lemma total_req_mars date r P :
  total_req_of (mk_mission r mars date P) = 15.2.
Proof. unfold total_req_of, EARTH_ASCENT_COST. simpl. lra. Qed.

Lemma total_req_titan date r P :
  total_req_of (mk_mission r titan date P) = 19.6.
Proof. unfold total_req_of, EARTH_ASCENT_COST. simpl. lra. Qed.

Lemma total_req_moon date r P :
  total_req_of (mk_mission r moon date P) = 15.22.
Proof. unfold total_req_of, EARTH_ASCENT_COST. simpl. lra. Qed.

(** ** The refuelling path *)

Lemma run_mission_plan_refuel m n :
  cap_of m < total_req_of m ->
  names_titan m = false -> names_starship m = true ->
  compute_tanker_plan m (total_req_of m - cap_of m) = Some n ->
  (0 <= n)%Z ->
  run_mission_plan m = Some (refuel_plan m n).
Proof.
  intros Hm Ht Hs Hn Hge.
  assert (Hd := decide_refuel (initialised m) (cap_of m - total_req_of m)).
  rewrite (run_mission_plan_tankers m _ 0 n (Hd ltac:(lra) Ht Hs));
    try reflexivity; try assumption; lra.
Qed.

Lemma run_mission_plan_refuel_undefined m :
  cap_of m < total_req_of m ->
  names_titan m = false -> names_starship m = true ->
  compute_tanker_plan m (total_req_of m - cap_of m) = None ->
  run_mission_plan m = None.
Proof.
  intros Hm Ht Hs Hn.
  assert (Hd := decide_refuel (initialised m) (cap_of m - total_req_of m)).
  apply (run_mission_plan_undefined m _ 0 (Hd ltac:(lra) Ht Hs));
    try reflexivity; try assumption; lra.
Qed.

(** Starship to Mars with 100 t: one tanker. *)
Lemma plan_starship_mars date :
  run_mission_plan (mk_mission starship mars date 100000) =
    Some (refuel_plan (mk_mission starship mars date 100000) 1).
Proof.
  pose proof cap_starship_100000 as Hc.
  set (m := mk_mission starship mars date 100000).
  assert (Hcap : cap_of m = calc_capability starship 100000) by reflexivity.
  assert (Hreq : total_req_of m = 15.2) by apply total_req_mars.
  apply run_mission_plan_refuel; try reflexivity; try lia.
  - lra.
  - rewrite compute_tanker_plan_ceil by (simpl; lra).
    apply double_to_int_ceil_value; [|unfold INT_MIN, INT_MAX; lia].
    rewrite Hcap, Hreq. simpl. lra.
Qed.

(** ** What a finished run_mission has computed *)

Lemma decide_strategy_preserves m margin :
  rocket (fst (decide_strategy m margin)) = rocket m /\
  body (fst (decide_strategy m margin)) = body m /\
  payload_kg (fst (decide_strategy m margin)) = payload_kg m /\
  start_date (fst (decide_strategy m margin)) = start_date m.
Proof.
  unfold decide_strategy.
  repeat match goal with
         | |- context [if ?c then _ else _] => destruct c
         end; simpl; auto.
Qed.

Lemma run_mission_plan_inv m plan :
  run_mission_plan m = Some plan ->
  let d := decide_strategy (initialised m) (cap_of m - total_req_of m) in
  plan_cap plan = cap_of m /\
  plan_total_req plan = total_req_of m /\
  plan_bonus_dv plan = snd d /\
  strategy (plan_mission plan) = strategy (fst d) /\
  rocket (plan_mission plan) = rocket m /\
  body (plan_mission plan) = body m /\
  plan_final_margin plan = plan_final_cap plan - plan_total_req plan /\
  plan_success plan =
    Rgeb (plan_final_margin plan) 0
    && negb (strategy (plan_mission plan) =? -1)%Z /\
  (strategy (fst d) = 3%Z ->
   plan_final_cap plan =
     cap_of m + IZR (plan_tankers_needed plan) * refuel_dv_per_tanker (rocket m)
   /\ (0 <= plan_tankers_needed plan)%Z) /\
  (strategy (fst d) <> 3%Z ->
   plan_final_cap plan = cap_of m + snd d /\ plan_tankers_needed plan = 0%Z).
Proof.
  intros Hrun d.
  destruct (decide_strategy_preserves (initialised m)
              (cap_of m - total_req_of m)) as (Hr & Hb & _).
  fold d in Hr, Hb. simpl in Hr, Hb.
  unfold run_mission_plan in Hrun.
  change (decide_strategy _ _) with d in Hrun.
  destruct d as [m1 bonus]. simpl in Hr, Hb. simpl fst. simpl snd.
  destruct (Z.eqb_spec (strategy m1) 3) as [E|E].
  - destruct (Rleb _ 0) in Hrun.
    + simpl in Hrun. inversion Hrun; subst plan; clear Hrun. simpl.
      rewrite Hr, Hb. repeat split; try reflexivity; try lia; try contradiction.
      unfold cap_of. ring.
    + destruct (compute_tanker_plan m1 _) as [n|]; [|discriminate].
      simpl in Hrun. inversion Hrun; subst plan; clear Hrun. simpl.
      rewrite Hr, Hb. repeat split; try reflexivity; try contradiction.
      destruct (Z.ltb_spec n 0); lia.
  - simpl in Hrun. inversion Hrun; subst plan; clear Hrun. simpl.
    rewrite Hr, Hb. repeat split; try reflexivity; try contradiction.
Qed.

(** ** Scenario A: Starship to Mars with 100 t *)

(** C1 as stated fails: the capability of the catalog Starship with 100 t
    is below the 15.2 km/s that Mars requires, so the strategy is the
    refuelling one (3) and not the direct one (0). *)
Lemma starship_mars_counterexample :
  calc_capability starship 100000
    < EARTH_ASCENT_COST + dv_transfer mars + dv_capture mars /\
  exists plan,
    run_mission_plan (mk_mission starship mars "2025-01-01" 100000) = Some plan /\
    strategy (plan_mission plan) = OrbitalRefuel /\
    strategy (plan_mission plan) <> Direct.
Proof.
  split.
  - generalize cap_starship_100000. unfold EARTH_ASCENT_COST. simpl. lra.
  - eexists. split; [apply plan_starship_mars|].
    split; [reflexivity|discriminate].
Qed.

(** C1, amended.  For the catalog Starship, the catalog Mars (15.2 km/s
    required) and a payload of 100 t, the base capability is below the
    requirement, the strategy is OrbitalRefuel with one tanker, the final
    capability is the base capability plus 5.5 km/s, and the success flag
    is true. *)
Theorem starship_mars_refuels (date : string) :
  exists plan,
    run_mission_plan (mk_mission starship mars date 100000) = Some plan /\
    plan_cap plan = calc_capability starship 100000 /\
    plan_total_req plan = 15.2 /\
    plan_cap plan < plan_total_req plan /\
    strategy (plan_mission plan) = OrbitalRefuel /\
    plan_tankers_needed plan = 1%Z /\
    plan_final_cap plan = plan_cap plan + 5.5 /\
    plan_success plan = true.
Proof.
  pose proof cap_starship_100000 as Hc.
  pose proof (total_req_mars date starship 100000) as Hreq.
  eexists. split; [apply plan_starship_mars|].
  cbn [refuel_plan plan_cap plan_total_req plan_mission plan_tankers_needed
       plan_final_cap plan_success].
  change (cap_of (mk_mission starship mars date 100000))
    with (calc_capability starship 100000).
  rewrite Hreq.
  repeat split; try reflexivity; try lra.
  - simpl. lra.
  - rewrite andb_true_r. apply Rleb_le. simpl. lra.
Qed.

(** ** Scenario C: the PSLV to Mars with 1 t *)

(** The Oberth branch, for a mission whose base margin is not negative. *)
Lemma oberth_when_margin_nonneg (m : Mission) :
  0 <= cap_of m - total_req_of m ->
  names_pslv m = true -> names_mars m = true -> payload_kg m <= 1500 ->
  exists plan,
    run_mission_plan m = Some plan /\
    strategy (plan_mission plan) = ObertPerigeeKick /\
    plan_bonus_dv plan = 6.5 /\
    plan_final_cap plan = plan_cap plan + 6.5.
Proof.
  intros Hm Hp Hb Hl.
  pose proof (decide_oberth (initialised m) _ Hm Hp Hb Hl) as Hd.
  eexists. split.
  - apply (run_mission_plan_bonus m _ _ Hd). discriminate.
  - repeat split.
Qed.

(** The catalog PSLV stays below 13 km/s for every payload that is not
    negative, so with Mars (15.2 km/s) its margin is never [>= 0]: no run
    from the catalog reaches the Oberth branch. *)
Lemma cap_pslv_below_13 P : 0 <= P -> calc_capability pslv P < 13.
Proof.
  intros HP. destruct (Rle_dec P 1750) as [Hle|Hgt].
  - rewrite calc_capability_formula by (simpl; lra).
    simpl. unfold G0.
    assert (H2 : ln ((320000 + P) / (42000 + P)) < 4).
    { apply ln_lt_4.
      - apply Rdiv_lt_0_compat; lra.
      - apply Rmult_le_reg_r with (42000 + P); [lra|].
        unfold Rdiv. rewrite Rmult_assoc, Rinv_l; lra. }
    assert (H1 : 0 < ln ((320000 + P) / (42000 + P))).
    { apply ln_pos. apply Rmult_lt_reg_r with (42000 + P); [lra|].
      unfold Rdiv. rewrite Rmult_assoc, Rinv_l; lra. }
    lra.
  - rewrite calc_capability_over by (simpl; lra). lra.
Qed.

Lemma oberth_unreachable_for_pslv date P plan :
  0 <= P ->
  run_mission_plan (mk_mission pslv mars date P) = Some plan ->
  strategy (plan_mission plan) = Infeasible.
Proof.
  intros HP Hrun.
  pose proof (cap_pslv_below_13 P HP) as Hc.
  pose proof (total_req_mars date pslv P) as Hreq.
  destruct (run_mission_plan_inv _ plan Hrun) as (_ & _ & _ & Hst & _).
  rewrite Hst.
  rewrite (decide_infeasible (initialised (mk_mission pslv mars date P)));
    try reflexivity.
  - rewrite Hreq. change (cap_of (mk_mission pslv mars date P))
      with (calc_capability pslv P). lra.
  - rewrite Hreq. change (cap_of (mk_mission pslv mars date P))
      with (calc_capability pslv P). lra.
Qed.

(** The catalog PSLV, the catalog Mars and 1 t of payload: the base
    capability is below 13 km/s, the margin is below -1.5 km/s, the
    strategy is the impossible one (-1) with no bonus, and the success flag
    is false. *)
Lemma plan_pslv_mars_1000 (date : string) :
  exists plan,
    run_mission_plan (mk_mission pslv mars date 1000) = Some plan /\
    plan_cap plan - plan_total_req plan < -1.5 /\
    strategy (plan_mission plan) = Infeasible /\
    strategy (plan_mission plan) <> ObertPerigeeKick /\
    plan_bonus_dv plan = 0 /\
    plan_final_cap plan = plan_cap plan /\
    notes (plan_mission plan)
      = "No feasible profile found with current assumptions" /\
    plan_success plan = false.
Proof.
  pose proof cap_pslv_1000 as Hc.
  pose proof (total_req_mars date pslv 1000) as Hreq.
  set (m := mk_mission pslv mars date 1000) in *.
  assert (Hcap : cap_of m = calc_capability pslv 1000) by reflexivity.
  assert (Hd : decide_strategy (initialised m) (cap_of m - total_req_of m)
               = (set_notes (set_strategy (initialised m) (-1))
                    "No feasible profile found with current assumptions", 0)).
  { apply decide_infeasible; try reflexivity; lra. }
  eexists. split.
  - apply (run_mission_plan_bonus m _ _ Hd). discriminate.
  - cbn [plan_cap plan_total_req plan_mission plan_bonus_dv plan_final_cap
         plan_success set_notes set_strategy strategy notes].
    repeat split; try reflexivity; try discriminate; try lra.
    apply andb_false_r.
Qed.

(** The Oberth strategy is written only on the branch of a margin that is
    not negative. *)
Lemma oberth_only_when_margin_nonneg m plan :
  run_mission_plan m = Some plan ->
  strategy (plan_mission plan) = ObertPerigeeKick ->
  0 <= cap_of m - total_req_of m.
Proof.
  intros Hrun Hs.
  unfold run_mission_plan in Hrun.
  change (decide_strategy _ _)
    with (decide_strategy (initialised m) (cap_of m - total_req_of m)) in Hrun.
  assert (Hd : strategy (plan_mission plan)
               = strategy (fst (decide_strategy (initialised m)
                                  (cap_of m - total_req_of m)))).
  { destruct (decide_strategy (initialised m) (cap_of m - total_req_of m))
      as [m1 bonus].
    destruct (strategy m1 =? 3)%Z.
    - destruct (Rleb _ 0) in Hrun.
      + simpl in Hrun. inversion Hrun; subst plan. reflexivity.
      + destruct (compute_tanker_plan m1 _) as [n|]; [|discriminate].
        simpl in Hrun. inversion Hrun; subst plan. reflexivity.
    - simpl in Hrun. inversion Hrun; subst plan. reflexivity. }
  rewrite Hd in Hs. clear Hd Hrun.
  unfold decide_strategy, ObertPerigeeKick in Hs.
  destruct (Rltb (cap_of m - total_req_of m) 0) eqn:Em.
  - repeat match type of Hs with
           | context [if ?c then _ else _] => destruct c
           end; discriminate Hs.
  - now apply Rltb_false in Em.
Qed.

(** The uprated PSLV with 1 t reaches Mars. *)
Lemma cap_uprated_pslv_1000 : 15.2 <= calc_capability uprated_pslv 1000.
Proof.
  rewrite calc_capability_formula by (simpl; lra).
  simpl. unfold G0.
  assert (H : 1 <= ln ((320000 + 1000) / (42000 + 1000)))
    by (apply ln_ge_1; lra).
  lra.
Qed.

(** C3 as stated fails: the catalog rocket named PSLV, the catalog Mars
    and a payload of 1 t, which is at most 1500 kg, get the impossible
    strategy and no bonus, not the Oberth strategy and 6.5 km/s. *)
Lemma pslv_mars_counterexample :
  found (strstr (rocket_name pslv) "PSLV") = true /\
  found (strstr (body_name mars) "Mars") = true /\
  1000 <= 1500 /\
  exists plan,
    run_mission_plan (mk_mission pslv mars "2025-01-01" 1000) = Some plan /\
    strategy (plan_mission plan) = Infeasible /\
    strategy (plan_mission plan) <> ObertPerigeeKick /\
    plan_bonus_dv plan = 0 /\
    plan_final_cap plan <> plan_cap plan + 6.5.
Proof.
  repeat apply conj; try reflexivity; try lra.
  destruct (plan_pslv_mars_1000 "2025-01-01")
    as (plan & Hrun & _ & Hs & Hne & Hb & Hf & _).
  exists plan. repeat apply conj; try assumption.
  rewrite Hf. lra.
Qed.

(** C3, amended.  For a rocket named "PSLV", a body named "Mars" and a
    payload of at most 1500 kg the strategy is the Oberth one, with a bonus
    of 6.5 km/s added to the base capability, when the base capability
    already reaches the required delta-v; and no mission gets the Oberth
    strategy with a negative base margin.  The catalog PSLV with 1 t to
    Mars has a base margin below -1.5 km/s: its strategy is the impossible
    one, with no bonus, and the success flag is false. *)
Theorem oberth_needs_margin (m : Mission) :
  (0 <= calc_capability (rocket m) (payload_kg m)
        - (EARTH_ASCENT_COST + dv_transfer (body m) + dv_capture (body m)) ->
   found (strstr (rocket_name (rocket m)) "PSLV") = true ->
   found (strstr (body_name (body m)) "Mars") = true ->
   payload_kg m <= 1500 ->
   exists plan,
     run_mission_plan m = Some plan /\
     strategy (plan_mission plan) = ObertPerigeeKick /\
     plan_bonus_dv plan = 6.5 /\
     plan_final_cap plan = plan_cap plan + 6.5) /\
  (forall plan,
     run_mission_plan m = Some plan ->
     strategy (plan_mission plan) = ObertPerigeeKick ->
     0 <= calc_capability (rocket m) (payload_kg m)
          - (EARTH_ASCENT_COST + dv_transfer (body m) + dv_capture (body m))) /\
  (forall date,
     exists plan,
       run_mission_plan (mk_mission pslv mars date 1000) = Some plan /\
       plan_cap plan - plan_total_req plan < -1.5 /\
       strategy (plan_mission plan) = Infeasible /\
       plan_bonus_dv plan = 0 /\
       plan_final_cap plan = plan_cap plan /\
       plan_success plan = false).
Proof.
  repeat apply conj.
  - apply oberth_when_margin_nonneg.
  - apply oberth_only_when_margin_nonneg.
  - intros date.
    destruct (plan_pslv_mars_1000 date)
      as (plan & Hrun & Hm & Hs & _ & Hb & Hf & _ & Hsucc).
    exists plan. repeat apply conj; assumption.
Qed.

Lemma oberth_needs_margin_witness :
  exists plan,
    run_mission_plan (mk_mission uprated_pslv mars "2025-01-01" 1000)
      = Some plan /\
    strategy (plan_mission plan) = ObertPerigeeKick /\
    plan_bonus_dv plan = 6.5 /\
    plan_final_cap plan = plan_cap plan + 6.5.
Proof.
  apply (proj1 (oberth_needs_margin
                  (mk_mission uprated_pslv mars "2025-01-01" 1000))).
  - cbn [rocket body payload_kg mk_mission].
    generalize cap_uprated_pslv_1000. unfold EARTH_ASCENT_COST. simpl. lra.
  - reflexivity.
  - reflexivity.
  - simpl. lra.
Defined.

(** ** Strategy priority when the base margin is negative *)

Lemma plan_starship_titan date :
  exists plan,
    run_mission_plan (mk_mission starship titan date 140000) = Some plan /\
    strategy (plan_mission plan) = GravityAssist /\
    plan_bonus_dv plan = 4.5.
Proof.
  pose proof cap_starship_140000 as Hc.
  pose proof (total_req_titan date starship 140000) as Hreq.
  set (m := mk_mission starship titan date 140000) in *.
  assert (Hcap : cap_of m = calc_capability starship 140000) by reflexivity.
  assert (Hd : decide_strategy (initialised m) (cap_of m - total_req_of m)
               = (set_notes (set_strategy (initialised m) 2)
                    "Alternate route: VEEGA gravity assist (~7 year flight)",
                  4.5)).
  { apply decide_gravity_assist; [lra|reflexivity]. }
  eexists. split.
  - apply (run_mission_plan_bonus m _ _ Hd). discriminate.
  - split; reflexivity.
Qed.

(** C4.  With a negative base margin [cap - total_req]: a body whose name
    contains "Titan" gets GravityAssist and +4.5 km/s, whatever the rocket;
    otherwise a rocket whose name contains "Starship" gets OrbitalRefuel
    (the decision logic writes it, and every completed run has it; the
    tanker count that follows is the subject of C10); otherwise a margin above -1.5 gets KickStage and +2.0 km/s;
    otherwise the mission is Infeasible with no bonus.  The catalog Starship
    to Titan with 140 t gets GravityAssist and +4.5 km/s. *)
Theorem strategy_priority (m : Mission) :
  calc_capability (rocket m) (payload_kg m)
    - (EARTH_ASCENT_COST + dv_transfer (body m) + dv_capture (body m)) < 0 ->
  (found (strstr (body_name (body m)) "Titan") = true ->
   exists plan,
     run_mission_plan m = Some plan /\
     strategy (plan_mission plan) = GravityAssist /\
     plan_bonus_dv plan = 4.5) /\
  (found (strstr (body_name (body m)) "Titan") = false ->
   found (strstr (rocket_name (rocket m)) "Starship") = true ->
   strategy (fst (decide_strategy (initialised m)
                    (calc_capability (rocket m) (payload_kg m)
                     - (EARTH_ASCENT_COST + dv_transfer (body m)
                        + dv_capture (body m)))))
     = OrbitalRefuel /\
   forall plan,
     run_mission_plan m = Some plan ->
     strategy (plan_mission plan) = OrbitalRefuel) /\
  (found (strstr (body_name (body m)) "Titan") = false ->
   found (strstr (rocket_name (rocket m)) "Starship") = false ->
   calc_capability (rocket m) (payload_kg m)
     - (EARTH_ASCENT_COST + dv_transfer (body m) + dv_capture (body m)) > -1.5 ->
   exists plan,
     run_mission_plan m = Some plan /\
     strategy (plan_mission plan) = KickStage /\
     plan_bonus_dv plan = 2.0) /\
  (found (strstr (body_name (body m)) "Titan") = false ->
   found (strstr (rocket_name (rocket m)) "Starship") = false ->
   ~ calc_capability (rocket m) (payload_kg m)
       - (EARTH_ASCENT_COST + dv_transfer (body m) + dv_capture (body m))
       > -1.5 ->
   exists plan,
     run_mission_plan m = Some plan /\
     strategy (plan_mission plan) = Infeasible /\
     plan_bonus_dv plan = 0) /\
  (forall date,
   exists plan,
     run_mission_plan (mk_mission starship titan date 140000) = Some plan /\
     strategy (plan_mission plan) = GravityAssist /\
     plan_bonus_dv plan = 4.5).
Proof.
  change (calc_capability (rocket m) (payload_kg m)
          - (EARTH_ASCENT_COST + dv_transfer (body m) + dv_capture (body m)))
    with (cap_of m - total_req_of m).
  intros Hm. repeat apply conj.
  - intros Ht.
    pose proof (decide_gravity_assist (initialised m) _ Hm Ht) as Hd.
    eexists. split; [apply (run_mission_plan_bonus m _ _ Hd); discriminate|].
    split; reflexivity.
  - intros Ht Hs.
    pose proof (decide_refuel (initialised m) _ Hm Ht Hs) as Hd.
    split; [now rewrite Hd|].
    intros plan Hrun.
    destruct (run_mission_plan_inv m plan Hrun) as (_ & _ & _ & Hst & _).
    now rewrite Hst, Hd.
  - intros Ht Hs Hk.
    pose proof (decide_kick_stage (initialised m) _ Hm Ht Hs ltac:(lra)) as Hd.
    eexists. split; [apply (run_mission_plan_bonus m _ _ Hd); discriminate|].
    split; reflexivity.
  - intros Ht Hs Hk.
    pose proof (decide_infeasible (initialised m) _ Hm Ht Hs ltac:(lra)) as Hd.
    eexists. split; [apply (run_mission_plan_bonus m _ _ Hd); discriminate|].
    split; reflexivity.
  - apply plan_starship_titan.
Qed.

Lemma strategy_priority_witness :
  exists plan,
    run_mission_plan (mk_mission sls mars "2025-01-01" 100000) = Some plan /\
    strategy (plan_mission plan) = Infeasible /\
    plan_bonus_dv plan = 0.
Proof.
  assert (Hc : calc_capability sls 100000 = 0)
    by (apply calc_capability_over; simpl; lra).
  assert (Hm : calc_capability sls 100000
               - (EARTH_ASCENT_COST + dv_transfer mars + dv_capture mars) < 0)
    by (rewrite Hc; unfold EARTH_ASCENT_COST; simpl; lra).
  refine (proj1 (proj2 (proj2 (proj2
            (strategy_priority (mk_mission sls mars "2025-01-01" 100000) Hm))))
          eq_refl eq_refl _).
  simpl. rewrite Hc. unfold EARTH_ASCENT_COST. lra.
Defined.

(** ** The margin and the success flag *)

(** C5.  Every completed evaluation has
    [final_margin = final_cap - total_req]; [final_cap] is
    [cap + tankers_needed * refuel_dv_per_tanker] under OrbitalRefuel and
    [cap + bonus_dv] under every other strategy; and [success] holds exactly
    when [final_margin >= 0] and the strategy is not Infeasible. *)
Theorem final_margin_and_success (m : Mission) (plan : Plan) :
  run_mission_plan m = Some plan ->
  plan_final_margin plan = plan_final_cap plan - plan_total_req plan /\
  (strategy (plan_mission plan) = OrbitalRefuel ->
   plan_final_cap plan =
     plan_cap plan
     + IZR (plan_tankers_needed plan)
       * refuel_dv_per_tanker (rocket (plan_mission plan))) /\
  (strategy (plan_mission plan) <> OrbitalRefuel ->
   plan_final_cap plan = plan_cap plan + plan_bonus_dv plan) /\
  (plan_success plan = true <->
   plan_final_margin plan >= 0 /\ strategy (plan_mission plan) <> Infeasible) /\
  plan_cap plan = calc_capability (rocket m) (payload_kg m) /\
  plan_total_req plan
    = EARTH_ASCENT_COST + dv_transfer (body m) + dv_capture (body m).
Proof.
  intros Hrun.
  destruct (run_mission_plan_inv m plan Hrun)
    as (Hcap & Hreq & Hbonus & Hst & Hr & _ & Hfm & Hsucc & H3 & Hn3).
  repeat apply conj; try assumption.
  - intros E. rewrite Hcap, Hr. apply H3. now rewrite <- Hst.
  - intros E. rewrite Hcap, Hbonus. apply Hn3. now rewrite <- Hst.
  - rewrite Hsucc, andb_true_iff, negb_true_iff. unfold Rgeb, Infeasible.
    rewrite Rleb_true, Z.eqb_neq. intuition lra.
  - intros [Hge Hne]. rewrite Hsucc, andb_true_iff, negb_true_iff.
    unfold Rgeb. rewrite Rleb_true, Z.eqb_neq. split; [lra|exact Hne].
Qed.

Lemma final_margin_and_success_witness :
  let plan := refuel_plan (mk_mission starship mars "2025-01-01" 100000) 1 in
  plan_final_margin plan = plan_final_cap plan - plan_total_req plan /\
  (strategy (plan_mission plan) = OrbitalRefuel ->
   plan_final_cap plan =
     plan_cap plan
     + IZR (plan_tankers_needed plan)
       * refuel_dv_per_tanker (rocket (plan_mission plan))) /\
  (strategy (plan_mission plan) <> OrbitalRefuel ->
   plan_final_cap plan = plan_cap plan + plan_bonus_dv plan) /\
  (plan_success plan = true <->
   plan_final_margin plan >= 0 /\ strategy (plan_mission plan) <> Infeasible) /\
  plan_cap plan = calc_capability starship 100000 /\
  plan_total_req plan
    = EARTH_ASCENT_COST + dv_transfer mars + dv_capture mars.
Proof.
  exact (final_margin_and_success
           (mk_mission starship mars "2025-01-01" 100000) _
           (plan_starship_mars "2025-01-01")).
Defined.

(** ** Refuelling and the range of [int] *)

(** When the decision logic selects strategy 3. *)
Lemma decide_refuel_iff m margin :
  strategy m = 0%Z ->
  (strategy (fst (decide_strategy m margin)) = OrbitalRefuel <->
   margin < 0 /\ names_titan m = false /\ names_starship m = true).
Proof.
  intros H0. unfold decide_strategy, names_titan, names_starship, OrbitalRefuel.
  destruct (Rltb margin 0) eqn:Em.
  - apply Rltb_true in Em.
    destruct (found (strstr (body_name (body m)) "Titan"));
      destruct (found (strstr (rocket_name (rocket m)) "Starship"));
      try destruct (Rgtb margin (-1.5)); simpl;
      split; intros H; try discriminate; try tauto;
      destruct H as (_ & ? & ?); discriminate.
  - apply Rltb_false in Em.
    destruct (_ && _ && _); simpl; rewrite ?H0;
      split; intros H; try discriminate; destruct H; lra.
Qed.

(** C10 as stated fails: the tanker count is an [int].  For this rocket,
    Mars and 200 t the decision logic selects OrbitalRefuel and
    [refuel_dv_per_tanker] is positive, but the count 15.2e12 does not fit:
    the conversion is undefined and no plan with [success] is produced. *)
Lemma refuel_counterexample :
  let m := mk_mission slow_tanker_starship mars "2025-01-01" 200000 in
  0 < refuel_dv_per_tanker (rocket m) /\
  strategy (fst (decide_strategy (initialised m) (cap_of m - total_req_of m)))
    = OrbitalRefuel /\
  ceil ((total_req_of m - cap_of m) / refuel_dv_per_tanker (rocket m))
    = 15200000000000 /\
  run_mission_plan m = None.
Proof.
  intros m.
  assert (Hcap : cap_of m = 0) by (apply calc_capability_over; simpl; lra).
  assert (Hreq : total_req_of m = 15.2) by apply total_req_mars.
  assert (Hc : ceil ((total_req_of m - cap_of m) / refuel_dv_per_tanker (rocket m))
               = IZR 15200000000000).
  { apply ceil_unique. rewrite Hcap, Hreq. simpl. lra. }
  repeat apply conj.
  - simpl. lra.
  - apply decide_refuel_iff; [reflexivity|].
    repeat split. lra.
  - exact Hc.
  - apply run_mission_plan_refuel_undefined; try reflexivity; [lra|].
    rewrite compute_tanker_plan_ceil by (simpl; lra).
    rewrite Hc. unfold double_to_int. rewrite trunc_IZR. reflexivity.
Qed.

Lemma plan_starship_overloaded date b P :
  150000 < P -> b = moon \/ b = mars ->
  run_mission_plan (mk_mission starship b date P)
    = Some (refuel_plan (mk_mission starship b date P) 3).
Proof.
  intros HP Hb.
  set (m := mk_mission starship b date P).
  assert (Hcap : cap_of m = 0) by (apply calc_capability_over; simpl; lra).
  assert (Hreq : total_req_of m = 15.22 \/ total_req_of m = 15.2).
  { destruct Hb; subst b; [left; apply total_req_moon|right; apply total_req_mars]. }
  apply run_mission_plan_refuel; try lia.
  - lra.
  - destruct Hb; subst b; reflexivity.
  - reflexivity.
  - rewrite compute_tanker_plan_ceil by (simpl; lra).
    apply double_to_int_ceil_value; [|unfold INT_MIN, INT_MAX; lia].
    rewrite Hcap. simpl refuel_dv_per_tanker. destruct Hreq as [-> | ->]; lra.
Qed.


(** ** The launch windows *)

Lemma double_to_time_t_nonneg x :
  0 <= x -> x <= IZR TIME_T_MAX -> double_to_time_t x = Some (trunc x).
Proof.
  intros H0 Hmax. unfold double_to_time_t. apply checked_fits.
  pose proof (trunc_nonneg x H0).
  destruct (trunc_nonneg_bounds x H0) as [Hl _].
  split; [unfold TIME_T_MIN; lia|]. apply le_IZR. lra.
Qed.

Lemma launch_window_value m epoch cycles cycle_sec i :
  (INT_MIN <= cycles + i <= INT_MAX)%Z ->
  0 <= IZR (cycles + i) * cycle_sec ->
  0 <= transit_days_of m * 86400 ->
  (TIME_T_MIN <= epoch)%Z ->
  IZR (cycles + i) * cycle_sec <= IZR TIME_T_MAX ->
  transit_days_of m * 86400 <= IZR TIME_T_MAX ->
  IZR epoch + IZR (cycles + i) * cycle_sec + transit_days_of m * 86400
    <= IZR TIME_T_MAX ->
  launch_window m epoch cycles cycle_sec i
    = Some (window_at m epoch cycles cycle_sec i).
Proof.
  intros Hi Hoff Hday Hep Hoffmax Hdaymax Hsum.
  unfold launch_window, window_at.
  fold (transit_days_of m).
  unfold int_add. rewrite (checked_fits _ _ _ Hi). simpl bind.
  rewrite (double_to_time_t_nonneg _ Hoff Hoffmax). simpl bind.
  set (off := trunc (IZR (cycles + i) * cycle_sec)).
  set (toff := trunc (transit_days_of m * 86400)).
  pose proof (trunc_nonneg _ Hoff) as Hoff0. fold off in Hoff0.
  pose proof (trunc_nonneg _ Hday) as Htoff0. fold toff in Htoff0.
  destruct (trunc_nonneg_bounds _ Hoff) as [Hoffl _]. fold off in Hoffl.
  destruct (trunc_nonneg_bounds _ Hday) as [Htoffl _]. fold toff in Htoffl.
  assert (Hl : (epoch + off + toff <= TIME_T_MAX)%Z).
  { apply le_IZR. rewrite !plus_IZR. lra. }
  unfold time_t_add. rewrite checked_fits by lia. simpl bind.
  rewrite (double_to_time_t_nonneg _ Hday Hdaymax). simpl bind.
  fold toff. rewrite checked_fits by lia. reflexivity.
Qed.

Lemma for_windows_value m epoch cycles cycle_sec count :
  forall i,
  (forall k, In k (indices count i) ->
     launch_window m epoch cycles cycle_sec k
       = Some (window_at m epoch cycles cycle_sec k)) ->
  for_windows m epoch cycles cycle_sec count i
    = Some (map (window_at m epoch cycles cycle_sec) (indices count i)).
Proof.
  induction count as [|count IH]; intros i H.
  - reflexivity.
  - simpl. rewrite (H i) by (simpl; auto). simpl bind.
    rewrite IH by (intros k Hk; apply H; simpl; auto). reflexivity.
Qed.

Lemma indices_5 : indices 5 0 = [0; 1; 2; 3; 4]%Z.
Proof. reflexivity. Qed.

(** The cycle index. *)
Lemma cycles_of_clamped diff cycle_sec :
  diff <= 0 -> cycles_of diff cycle_sec = Some 0%Z.
Proof. intros H. unfold cycles_of. now rewrite (Rleb_le _ _ H). Qed.

Lemma cycles_of_floor diff cycle_sec :
  0 < diff -> 0 < cycle_sec -> diff / cycle_sec <= IZR INT_MAX ->
  cycles_of diff cycle_sec = Some (Int_part (diff / cycle_sec)) /\
  (0 <= Int_part (diff / cycle_sec) <= INT_MAX)%Z /\
  IZR (Int_part (diff / cycle_sec)) * cycle_sec <= diff.
Proof.
  intros Hd Hc Hmax.
  assert (Hq : 0 < diff / cycle_sec) by now apply Rdiv_lt_0_compat.
  destruct (Int_part_bounds (diff / cycle_sec)) as [Hl Hu].
  set (c := Int_part (diff / cycle_sec)) in *.
  assert (Hc0 : (0 <= c)%Z).
  { apply Z.lt_succ_r. apply lt_IZR. rewrite succ_IZR. lra. }
  assert (Hc1 : (c <= INT_MAX)%Z) by (apply le_IZR; lra).
  repeat split; try assumption.
  - unfold cycles_of. rewrite (Rleb_gt _ _ Hd).
    destruct (Req_dec_T cycle_sec 0); [lra|].
    unfold double_to_int, floor. fold c. rewrite trunc_IZR.
    apply checked_fits. unfold INT_MIN. lia.
  - apply Rmult_le_compat_r with (r := cycle_sec) in Hl; [|lra].
    unfold Rdiv in Hl. rewrite Rmult_assoc, Rinv_l, Rmult_1_r in Hl; lra.
Qed.

Lemma cycle_index_spec start epoch cycle_sec :
  0 < cycle_sec ->
  Rmax 0 (IZR start - IZR epoch) / cycle_sec + 4 <= IZR INT_MAX ->
  cycles_of (difftime start epoch) cycle_sec
    = Some (cycle_index start epoch cycle_sec) /\
  (0 <= cycle_index start epoch cycle_sec <= INT_MAX - 4)%Z /\
  IZR (cycle_index start epoch cycle_sec) * cycle_sec
    <= Rmax 0 (IZR start - IZR epoch).
Proof.
  intros Hc Hmax. unfold cycle_index, difftime.
  destruct (Rle_dec (IZR start - IZR epoch) 0) as [Hd|Hd].
  - rewrite cycles_of_clamped by exact Hd.
    rewrite Rmax_left in * by exact Hd.
    split; [reflexivity|]. split.
    + unfold INT_MAX. lia.
    + rewrite Rmult_0_l. lra.
  - apply Rnot_le_lt in Hd.
    rewrite Rmax_right in * by lra.
    assert (Hq : (IZR start - IZR epoch) / cycle_sec <= IZR INT_MAX) by lra.
    destruct (cycles_of_floor _ cycle_sec Hd Hc Hq) as (E & [H0 H1] & Hle).
    split; [exact E|]. split; [|exact Hle].
    destruct (Int_part_bounds ((IZR start - IZR epoch) / cycle_sec)) as [Hl _].
    split; [exact H0|].
    apply Z.lt_succ_r. apply lt_IZR. rewrite succ_IZR, minus_IZR. lra.
Qed.

Lemma run_mission_windows_value mktime m start epoch :
  parse_date mktime (start_date m) = Some start ->
  parse_date mktime (epoch_date (body m)) = Some epoch ->
  0 < synodic_days (body m) ->
  0 <= transit_days_of m ->
  windows_in_range start epoch
    (synodic_days (body m) * 86400) (transit_days_of m * 86400) ->
  run_mission_windows mktime m
    = Some (map (window_at m epoch
                   (cycle_index start epoch (synodic_days (body m) * 86400))
                   (synodic_days (body m) * 86400))
              [0; 1; 2; 3; 4]%Z).
Proof.
  intros Hs He Hsyn Hdays (Hep & Hint & Hoff & Htr & Hsum).
  set (cs := synodic_days (body m) * 86400) in *.
  assert (Hcs : 0 < cs) by (unfold cs; lra).
  destruct (cycle_index_spec start epoch cs Hcs Hint) as (Ec & [Hc0 Hc1] & Hle).
  set (c := cycle_index start epoch cs) in *.
  assert (Hfor : for_windows m epoch c cs 5 0
                 = Some (map (window_at m epoch c cs) [0; 1; 2; 3; 4]%Z)).
  { rewrite <- indices_5. apply for_windows_value.
    intros k Hk.
    assert (Hk04 : (0 <= k <= 4)%Z).
    { rewrite indices_5 in Hk. simpl in Hk. intuition lia. }
    assert (Hk4 : IZR k <= 4) by (apply IZR_le; lia).
    assert (Hc0' : 0 <= IZR c) by (apply IZR_le; lia).
    assert (Hck : IZR (c + k) * cs <= IZR c * cs + 4 * cs).
    { rewrite plus_IZR, Rmult_plus_distr_r.
      apply Rplus_le_compat_l. apply Rmult_le_compat_r; lra. }
    assert (Hck0 : 0 <= IZR (c + k) * cs).
    { apply Rmult_le_pos; [apply IZR_le; lia|lra]. }
    apply launch_window_value; try assumption; try lra.
    unfold INT_MIN. lia. }
  unfold run_mission_windows. rewrite Hs, He.
  cbv beta iota delta [bind]. fold cs. rewrite Ec. exact Hfor.
Qed.


Lemma trunc_mult_IZR n k : trunc (IZR n * IZR k) = (n * k)%Z.
Proof. rewrite <- mult_IZR. apply trunc_IZR. Qed.


Lemma window_arrival m epoch c cs i :
  0 <= transit_days_of m ->
  (fst (window_at m epoch c cs i) <= snd (window_at m epoch c cs i))%Z.
Proof.
  intros Hd. unfold window_at. cbn [fst snd].
  assert (H : (0 <= trunc (transit_days_of m * 86400))%Z)
    by (apply trunc_nonneg; lra).
  lia.
Qed.

Lemma window_first m epoch cs :
  fst (window_at m epoch 0 cs 0) = epoch.
Proof.
  unfold window_at. cbn [fst]. simpl (0 + 0)%Z.
  rewrite Rmult_0_l. change 0 with (IZR 0). rewrite trunc_IZR. lia.
Qed.

Lemma window_at_whole m epoch c cs i k t :
  cs = IZR k -> transit_days_of m * 86400 = IZR t ->
  window_at m epoch c cs i
    = ((epoch + (c + i) * k)%Z, (epoch + (c + i) * k + t)%Z).
Proof.
  intros -> Ht. unfold window_at. rewrite Ht, trunc_mult_IZR, trunc_IZR.
  reflexivity.
Qed.

Lemma cycle_index_clamped start epoch cs :
  (start <= epoch)%Z -> cycle_index start epoch cs = 0%Z.
Proof.
  intros H. unfold cycle_index. apply IZR_le in H.
  destruct (Rle_dec (IZR start - IZR epoch) 0); [reflexivity|lra].
Qed.

Lemma parse_date_rejects mktime s :
  (strlen s < 8)%Z \/ sscanf_ymd s = None ->
  parse_date mktime s = Some (-1)%Z.
Proof.
  intros H. unfold parse_date.
  destruct (Z.ltb_spec (strlen s) 8); [reflexivity|].
  destruct H as [H|H]; [lia|]. now rewrite H.
Qed.



Lemma mars_windows_in_range (start : Z) :
  (-1 <= start <= 1736985600)%Z ->
  windows_in_range start 1736985600 (780 * 86400) (210 * 86400).
Proof.
  intros [H0 H1]. apply IZR_le in H0, H1.
  unfold windows_in_range. rewrite Rmax_left by lra.
  unfold TIME_T_MIN, TIME_T_MAX, INT_MAX.
  repeat split; try lia; lra.
Qed.


(** ** Dates that parse_date rejects *)

Lemma mars_rows (m : Mission) (epoch c : Z) :
  synodic_days (body m) = 780 -> transit_days_of m = 210 ->
  map (window_at m epoch c (synodic_days (body m) * 86400)) [0; 1; 2; 3; 4]%Z
  = map (fun i => ((epoch + (c + i) * 67392000)%Z,
                   (epoch + (c + i) * 67392000 + 18144000)%Z))
      [0; 1; 2; 3; 4]%Z.
Proof.
  intros Hsyn Htd. apply map_ext. intros i.
  apply window_at_whole; [rewrite Hsyn|rewrite Htd]; lra.
Qed.

(** C2 as stated fails: run_mission does not test the value parse_date
    returns.  For the start date "not-a-date" parse_date returns -1, and
    run_mission for the catalog Starship and Mars completes and prints five
    rows of dates counted from the epoch.  For a body whose epoch date is
    "unknown!!" the epoch is -1 and the launch of the second row is
    67391999, printed as a date of 1972. *)
Lemma date_error_counterexample :
  parse_date_utc "not-a-date" = Some (-1)%Z /\
  (exists out,
     run_mission mktime_utc strftime_ymd_utc
       (mk_mission starship mars "not-a-date" 100000) = Some out /\
     out_rows out =
       [("2025-01-16", "2025-08-14"); ("2027-03-07", "2027-10-03");
        ("2029-04-25", "2029-11-21"); ("2031-06-14", "2032-01-10");
        ("2033-08-02", "2034-02-28")]) /\
  parse_date_utc "unknown!!" = Some (-1)%Z /\
  (exists ws,
     run_mission_windows mktime_utc
       (mk_mission starship unknown_epoch_mars "not-a-date" 100000) = Some ws /\
     window_rows strftime_ymd_utc ws =
       [("----", "1970-07-29"); ("1972-02-19", "1972-09-16");
        ("1974-04-09", "1974-11-05"); ("1976-05-28", "1976-12-24");
        ("1978-07-17", "1979-02-12")]).
Proof.
  split; [vm_compute; reflexivity|]. split; [|split; [vm_compute; reflexivity|]].
  - set (m := mk_mission starship mars "not-a-date" 100000).
    set (m1 := plan_mission (refuel_plan m 1)).
    assert (Hs : parse_date mktime_utc (start_date m1) = Some (-1)%Z)
      by (vm_compute; reflexivity).
    assert (He : parse_date mktime_utc (epoch_date (body m1)) = Some 1736985600%Z)
      by (vm_compute; reflexivity).
    assert (Hw : run_mission_windows mktime_utc m1
                 = Some (map (fun i => ((1736985600 + (0 + i) * 67392000)%Z,
                                        (1736985600 + (0 + i) * 67392000
                                         + 18144000)%Z))
                           [0; 1; 2; 3; 4]%Z)).
    { rewrite (run_mission_windows_value mktime_utc m1 _ _ Hs He).
      - rewrite cycle_index_clamped by lia.
        now rewrite (mars_rows m1 _ 0) by reflexivity.
      - simpl. lra.
      - change (transit_days_of m1) with 210. lra.
      - apply mars_windows_in_range. lia. }
    eexists. split.
    + unfold run_mission. unfold m. rewrite plan_starship_mars.
      cbv beta iota delta [bind]. fold m. fold m1. rewrite Hw. reflexivity.
    + cbn [out_rows]. vm_compute. reflexivity.
  - set (m := mk_mission starship unknown_epoch_mars "not-a-date" 100000).
    assert (Hs : parse_date mktime_utc (start_date m) = Some (-1)%Z)
      by (vm_compute; reflexivity).
    assert (He : parse_date mktime_utc (epoch_date (body m)) = Some (-1)%Z)
      by (vm_compute; reflexivity).
    eexists. split.
    + rewrite (run_mission_windows_value mktime_utc m _ _ Hs He).
      * rewrite cycle_index_clamped by lia.
        rewrite (mars_rows m _ 0) by reflexivity. reflexivity.
      * simpl. lra.
      * change (transit_days_of m) with 210. lra.
      * unfold windows_in_range.
        change (synodic_days (body m)) with 780.
        change (transit_days_of m) with 210.
        rewrite Rmax_left by lra.
        unfold TIME_T_MIN, TIME_T_MAX, INT_MAX.
        repeat split; try lia; lra.
    + vm_compute. reflexivity.
Qed.

(** C2, amended.  A start date that parse_date rejects (fewer than 8
    characters, or not three integers separated by dashes) is the instant
    -1, and the window table is computed from it all the same: with an epoch
    at or after 1970, five windows counted from the epoch, the first launch
    being the epoch, every launch and arrival an instant that format_date
    prints as a date and not as "----". *)
Theorem rejected_start_date_windows (mktime : Z -> Z -> Z -> Z)
    (strftime_ymd : Z -> string) (m : Mission) (epoch : Z) :
  (strlen (start_date m) < 8)%Z \/ sscanf_ymd (start_date m) = None ->
  parse_date mktime (epoch_date (body m)) = Some epoch ->
  (0 <= epoch)%Z ->
  0 < synodic_days (body m) ->
  0 <= transit_days_of m ->
  windows_in_range (-1) epoch
    (synodic_days (body m) * 86400) (transit_days_of m * 86400) ->
  parse_date mktime (start_date m) = Some (-1)%Z /\
  exists ws,
    run_mission_windows mktime m = Some ws /\
    List.length ws = 5%nat /\
    fst (nth 0 ws (0, 0)%Z) = epoch /\
    (forall w, In w ws ->
       (epoch <= fst w <= snd w)%Z /\
       format_date strftime_ymd (fst w) = strftime_ymd (fst w) /\
       format_date strftime_ymd (snd w) = strftime_ymd (snd w)).
Proof.
  intros Hbad He Hep Hsyn Hdays Hrange.
  pose proof (parse_date_rejects mktime _ Hbad) as Hs.
  split; [exact Hs|].
  pose proof (run_mission_windows_value mktime m (-1) epoch
                Hs He Hsyn Hdays Hrange) as Hrun.
  rewrite cycle_index_clamped in Hrun by lia.
  eexists. split; [exact Hrun|]. split; [reflexivity|]. split.
  - cbn [map nth]. apply window_first.
  - intros w Hw. apply in_map_iff in Hw. destruct Hw as (i & <- & Hi).
    assert (Hi04 : (0 <= i <= 4)%Z) by (simpl in Hi; intuition lia).
    pose proof (window_arrival m epoch 0 (synodic_days (body m) * 86400) i Hdays)
      as Harr.
    assert (Hl : (epoch <= fst (window_at m epoch 0
                                  (synodic_days (body m) * 86400) i))%Z).
    { unfold window_at. cbn [fst].
      assert (0 <= trunc (IZR (0 + i) * (synodic_days (body m) * 86400)))%Z.
      { apply trunc_nonneg. apply Rmult_le_pos; [apply IZR_le; lia|lra]. }
      lia. }
    split; [lia|].
    unfold format_date.
    destruct (Z.ltb_spec (fst (window_at m epoch 0
                                 (synodic_days (body m) * 86400) i)) 0); [lia|].
    destruct (Z.ltb_spec (snd (window_at m epoch 0
                                 (synodic_days (body m) * 86400) i)) 0); [lia|].
    split; reflexivity.
Qed.

Lemma rejected_start_date_windows_witness :
  let m := mk_mission starship mars "not-a-date" 100000 in
  parse_date mktime_utc (start_date m) = Some (-1)%Z /\
  exists ws,
    run_mission_windows mktime_utc m = Some ws /\
    List.length ws = 5%nat /\
    fst (nth 0 ws (0, 0)%Z) = 1736985600%Z /\
    (forall w, In w ws ->
       (1736985600 <= fst w <= snd w)%Z /\
       format_date strftime_ymd_utc (fst w) = strftime_ymd_utc (fst w) /\
       format_date strftime_ymd_utc (snd w) = strftime_ymd_utc (snd w)).
Proof.
  intros m.
  assert (He : parse_date mktime_utc (epoch_date (body m)) = Some 1736985600%Z)
    by (vm_compute; reflexivity).
  apply (rejected_start_date_windows mktime_utc strftime_ymd_utc m 1736985600).
  - right. vm_compute. reflexivity.
  - exact He.
  - lia.
  - simpl. lra.
  - change (transit_days_of m) with 210. lra.
  - apply mars_windows_in_range. lia.
Defined.

(** * Further properties of the planner *)

(** ** What the decision logic has decided, read back from the strategy *)

Lemma decide_strategy_inv m margin :
  strategy m = 0%Z ->
  let d := decide_strategy m margin in
  (strategy (fst d) = Direct -> 0 <= margin /\ snd d = 0) /\
  (strategy (fst d) = ObertPerigeeKick -> 0 <= margin /\ snd d = 6.5) /\
  (strategy (fst d) = GravityAssist -> margin < 0 /\ snd d = 4.5) /\
  (strategy (fst d) = OrbitalRefuel -> margin < 0 /\ snd d = 0) /\
  (strategy (fst d) = KickStage -> -1.5 < margin < 0 /\ snd d = 2.0) /\
  (strategy (fst d) = Infeasible -> margin <= -1.5 /\ snd d = 0).
Proof.
  intros H0 d. unfold d, decide_strategy, Rgtb. clear d.
  destruct (Rltb margin 0) eqn:Em.
  - apply Rltb_true in Em.
    destruct (found (strstr (body_name (body m)) "Titan"));
      [|destruct (found (strstr (rocket_name (rocket m)) "Starship"));
        [|destruct (Rltb (-1.5) margin) eqn:Ek;
          [apply Rltb_true in Ek|apply Rltb_false in Ek]]];
      cbn [fst snd strategy set_notes set_strategy];
      unfold Direct, ObertPerigeeKick, GravityAssist, OrbitalRefuel,
        KickStage, Infeasible;
      repeat apply conj; intros E; try discriminate E; lra.
  - apply Rltb_false in Em.
    destruct (_ && _ && _);
      cbn [fst snd strategy set_notes set_strategy]; rewrite ?H0;
      unfold Direct, ObertPerigeeKick, GravityAssist, OrbitalRefuel,
        KickStage, Infeasible;
      repeat apply conj; intros E; try discriminate E; lra.
Qed.

Lemma run_mission_plan_fields m plan :
  run_mission_plan m = Some plan ->
  rocket (plan_mission plan) = rocket m /\
  body (plan_mission plan) = body m /\
  payload_kg (plan_mission plan) = payload_kg m /\
  start_date (plan_mission plan) = start_date m.
Proof.
  intros Hrun.
  destruct (decide_strategy_preserves (initialised m)
              (cap_of m - total_req_of m)) as (Hr & Hb & Hp & Hs).
  unfold run_mission_plan in Hrun.
  change (decide_strategy _ _)
    with (decide_strategy (initialised m) (cap_of m - total_req_of m)) in Hrun.
  destruct (decide_strategy (initialised m) (cap_of m - total_req_of m))
    as [m1 bonus].
  simpl in Hr, Hb, Hp, Hs.
  destruct (strategy m1 =? 3)%Z.
  - destruct (Rleb _ 0) in Hrun.
    + simpl in Hrun. inversion Hrun; subst plan. simpl. auto.
    + destruct (compute_tanker_plan m1 _) as [n|]; [|discriminate].
      simpl in Hrun. inversion Hrun; subst plan. simpl. auto.
  - simpl in Hrun. inversion Hrun; subst plan. simpl. auto.
Qed.

Lemma run_mission_plan_ext m m' :
  rocket m = rocket m' -> body m = body m' ->
  payload_kg m = payload_kg m' -> start_date m = start_date m' ->
  run_mission_plan m = run_mission_plan m'.
Proof.
  destruct m, m'. simpl. intros -> -> -> ->. reflexivity.
Qed.

(** A mission whose base margin is not negative. *)
Lemma plan_when_margin_nonneg m :
  0 <= cap_of m - total_req_of m ->
  exists plan,
    run_mission_plan m = Some plan /\
    plan_success plan = true /\
    plan_tankers_needed plan = 0%Z /\
    (strategy (plan_mission plan) = Direct
     \/ strategy (plan_mission plan) = ObertPerigeeKick).
Proof.
  intros Hm.
  destruct (names_pslv (initialised m) && names_mars (initialised m)
            && Rleb (payload_kg (initialised m)) 1500) eqn:Ec.
  - apply andb_true_iff in Ec. destruct Ec as [Ec Hl].
    apply andb_true_iff in Ec. destruct Ec as [Hp Hb].
    apply Rleb_true in Hl.
    pose proof (decide_oberth (initialised m) _ Hm Hp Hb Hl) as Hd.
    eexists. split; [apply (run_mission_plan_bonus m _ _ Hd); discriminate|].
    cbn [plan_success plan_tankers_needed plan_mission strategy set_notes
         set_strategy].
    repeat split; [|now right].
    rewrite andb_true_r. apply Rleb_le. lra.
  - pose proof (decide_direct (initialised m) _ Hm Ec) as Hd.
    eexists. split; [apply (run_mission_plan_bonus m _ _ Hd); discriminate|].
    cbn [plan_success plan_tankers_needed plan_mission strategy initialised
         set_notes set_strategy].
    repeat split; [|now left].
    rewrite andb_true_r. apply Rleb_le. lra.
Qed.

(** ** run_mission on the mission object that main keeps *)

(** X1.  run_mission overwrites the strategy and the notes before it reads
    them: a run depends only on the rocket, the body, the payload and the
    start date, and running again on the mission it has written gives the
    same output. *)
Theorem run_mission_again (mktime : Z -> Z -> Z -> Z)
    (strftime_ymd : Z -> string) (m : Mission) (out : Output) :
  run_mission mktime strftime_ymd m = Some out ->
  run_mission mktime strftime_ymd (plan_mission (out_plan out)) = Some out /\
  (forall m',
     rocket m' = rocket m -> body m' = body m ->
     payload_kg m' = payload_kg m -> start_date m' = start_date m ->
     run_mission mktime strftime_ymd m' = Some out).
Proof.
  intros Hrun.
  assert (Hext : forall m',
     rocket m' = rocket m -> body m' = body m ->
     payload_kg m' = payload_kg m -> start_date m' = start_date m ->
     run_mission mktime strftime_ymd m' = Some out).
  { intros m' Hr Hb Hp Hs. unfold run_mission in *.
    now rewrite (run_mission_plan_ext m' m Hr Hb Hp Hs). }
  split; [|exact Hext].
  unfold run_mission in Hrun.
  destruct (run_mission_plan m) as [plan|] eqn:Hplan; [|discriminate].
  simpl in Hrun.
  destruct (run_mission_windows mktime (plan_mission plan)) as [ws|];
    [|discriminate].
  simpl in Hrun. inversion Hrun; subst out. cbn [out_plan].
  destruct (run_mission_plan_fields m plan Hplan) as (Hr & Hb & Hp & Hs).
  now apply Hext.
Qed.

Lemma run_starship_mars_utc :
  exists out,
    run_mission mktime_utc strftime_ymd_utc
      (mk_mission starship mars "2025-01-01" 100000) = Some out.
Proof.
  set (m := mk_mission starship mars "2025-01-01" 100000).
  set (m1 := plan_mission (refuel_plan m 1)).
  assert (Hs : parse_date mktime_utc (start_date m1) = Some 1735689600%Z)
    by (vm_compute; reflexivity).
  assert (He : parse_date mktime_utc (epoch_date (body m1)) = Some 1736985600%Z)
    by (vm_compute; reflexivity).
  assert (Hw : exists ws, run_mission_windows mktime_utc m1 = Some ws).
  { eexists. apply (run_mission_windows_value mktime_utc m1 _ _ Hs He).
    - simpl. lra.
    - change (transit_days_of m1) with 210. lra.
    - apply mars_windows_in_range. lia. }
  destruct Hw as [ws Hw]. eexists.
  unfold run_mission. unfold m. rewrite plan_starship_mars.
  cbv beta iota delta [bind]. fold m. fold m1. rewrite Hw. reflexivity.
Qed.

Lemma run_mission_again_witness :
  exists out,
    run_mission mktime_utc strftime_ymd_utc
      (mk_mission starship mars "2025-01-01" 100000) = Some out /\
    run_mission mktime_utc strftime_ymd_utc (plan_mission (out_plan out))
      = Some out.
Proof.
  destruct run_starship_mars_utc as [out Hout].
  exists out. split; [exact Hout|].
  exact (proj1 (run_mission_again mktime_utc strftime_ymd_utc _ out Hout)).
Defined.

(** ** The success flag, the status and the margin line *)

(** X2.  The test [m->strategy != -1] in [success] never decides: the
    impossible strategy comes with a final margin of at most -1.5.  So
    [success] is the sign test of the final margin, and the status "NOT
    FEASIBLE" is printed exactly when the margin line reads
    "[INSUFFICIENT]". *)
Theorem success_is_margin_sign (m : Mission) (plan : Plan) :
  run_mission_plan m = Some plan ->
  plan_success plan = margin_feasible (plan_final_margin plan) /\
  (status_of (plan_success plan) (plan_mission plan) = NotFeasible <->
   margin_feasible (plan_final_margin plan) = false) /\
  (strategy (plan_mission plan) = Infeasible ->
   plan_final_margin plan <= -1.5).
Proof.
  intros Hrun.
  destruct (run_mission_plan_inv m plan Hrun)
    as (Hcap & Hreq & Hbonus & Hst & _ & _ & Hfm & Hsucc & H3 & Hn3).
  destruct (decide_strategy_inv (initialised m) (cap_of m - total_req_of m)
              eq_refl) as (_ & _ & _ & _ & _ & Hinf).
  assert (Hm : strategy (plan_mission plan) = Infeasible ->
               plan_final_margin plan <= -1.5).
  { intros E. rewrite Hst in E. destruct (Hinf E) as [Hle Hb0].
    destruct Hn3 as [Hfc _].
    { rewrite E. discriminate. }
    rewrite Hfm, Hfc, Hreq, Hb0. lra. }
  assert (Hs : plan_success plan = margin_feasible (plan_final_margin plan)).
  { rewrite Hsucc. unfold margin_feasible.
    destruct (Z.eqb_spec (strategy (plan_mission plan)) (-1)) as [E|E].
    - specialize (Hm E). unfold Rgeb. rewrite Rleb_gt by lra. reflexivity.
    - apply andb_true_r. }
  repeat apply conj; try assumption.
  - unfold status_of. rewrite Hs.
    destruct (margin_feasible _); [|intros _; reflexivity].
    destruct (strategy (plan_mission plan) =? 0)%Z; intros E; discriminate E.
  - unfold status_of. rewrite Hs. now intros ->.
Qed.

Lemma success_is_margin_sign_witness :
  let plan := refuel_plan (mk_mission starship mars "2025-01-01" 100000) 1 in
  plan_success plan = margin_feasible (plan_final_margin plan) /\
  (status_of (plan_success plan) (plan_mission plan) = NotFeasible <->
   margin_feasible (plan_final_margin plan) = false) /\
  (strategy (plan_mission plan) = Infeasible ->
   plan_final_margin plan <= -1.5).
Proof.
  exact (success_is_margin_sign
           (mk_mission starship mars "2025-01-01" 100000) _
           (plan_starship_mars "2025-01-01")).
Defined.

(** ** Bounds on the capability *)

Lemma calc_capability_nonneg r P :
  0 <= isp_avg r -> 0 <= staging_factor r -> 0 <= calc_capability r P.
Proof.
  intros Hisp Hst. unfold calc_capability.
  destruct (Rgtb P (payload_leo_kg r)); [lra|].
  destruct (Rleb (dry_mass_kg r + P) 0) eqn:E1; [simpl; lra|].
  destruct (Rleb (wet_mass_kg r + P) (dry_mass_kg r + P)) eqn:E2; [simpl; lra|].
  simpl. apply Rleb_false in E1, E2.
  assert (Hln : 0 < ln ((wet_mass_kg r + P) / (dry_mass_kg r + P))).
  { apply ln_pos. apply Rmult_lt_reg_r with (dry_mass_kg r + P); [lra|].
    unfold Rdiv. rewrite Rmult_assoc, Rinv_l; lra. }
  unfold G0. apply Rmult_le_pos; [|exact Hst].
  apply Rmult_le_pos; [|lra].
  apply Rmult_le_pos; [|lra]. apply Rmult_le_pos; lra.
Qed.

(** ** Missions over the catalog *)

Lemma catalog_rocket_facts r :
  In r rockets ->
  0 <= isp_avg r /\ 0 <= staging_factor r /\
  (found (strstr (rocket_name r) "Starship") = true -> r = starship).
Proof.
  intros H. simpl in H.
  destruct H as [<-|[<-|[<-|[<-|[]]]]];
    (split; [simpl; lra|split; [simpl; lra|]]);
    intros E; try reflexivity; discriminate E.
Qed.

Lemma catalog_body_facts b :
  In b bodies ->
  found (strstr (body_name b) "Titan") = false ->
  EARTH_ASCENT_COST + dv_transfer b + dv_capture b <= 15.22.
Proof.
  intros H. simpl in H. unfold EARTH_ASCENT_COST.
  destruct H as [<-|[<-|[<-|[]]]]; intros E; try discriminate E; simpl; lra.
Qed.

(** ** Refuelling over the catalog *)

Lemma exp_9_4_lt_14 : exp (9 / 4) < 14.
Proof.
  assert (H0 : 3 / 4 <= exp (- (1 / 4)))
    by (generalize (exp_ineq1_le (- (1 / 4))); lra).
  assert (Hp : 0 < exp (1 / 4)) by apply exp_pos.
  assert (H1 : exp (1 / 4) <= 4 / 3).
  { rewrite exp_Ropp in H0.
    assert (He : exp (1 / 4) * / exp (1 / 4) = 1) by (apply Rinv_r; lra).
    nra. }
  replace (9 / 4) with (INR 9 * (1 / 4)) by (simpl; lra).
  rewrite exp_INR_mult.
  apply Rle_lt_trans with ((4 / 3) ^ 9).
  - apply pow_incr. lra.
  - simpl. lra.
Qed.

(** The catalog Starship has no capability at all (a payload above 150 t,
    or a final mass that is not positive), or at least 10.8 km/s. *)
Lemma cap_starship_cases P :
  (150000 < P \/ 200000 + P <= 0) /\ calc_capability starship P = 0 \/
  P <= 150000 /\ 10.8 <= calc_capability starship P.
Proof.
  destruct (Rlt_dec 150000 P) as [H|H].
  - left. split; [now left|]. apply calc_capability_over. simpl. lra.
  - apply Rnot_lt_le in H.
    destruct (Rle_dec (200000 + P) 0) as [H0|H0].
    + left. split; [now right|].
      apply calc_capability_degenerate. left. simpl. lra.
    + right. split; [exact H|]. apply Rnot_le_lt in H0.
      rewrite calc_capability_formula by (simpl; lra).
      simpl. unfold G0.
      assert (Hdw : 200000 < 5000000) by lra.
      pose proof (mass_ratio_decreasing 5000000 200000 P 150000 Hdw H0 H)
        as Hr.
      assert (Hl : 9 / 4 < ln ((5000000 + P) / (200000 + P))).
      { apply ln_gt_of_exp.
        apply Rlt_le_trans with 14; [apply exp_9_4_lt_14|].
        apply Rle_trans with ((5000000 + 150000) / (200000 + 150000));
          [lra|exact Hr]. }
      lra.
Qed.

Lemma catalog_body_req b :
  In b bodies ->
  found (strstr (body_name b) "Titan") = false ->
  15.2 <= EARTH_ASCENT_COST + dv_transfer b + dv_capture b <= 15.22.
Proof.
  intros H. simpl in H. unfold EARTH_ASCENT_COST.
  destruct H as [<-|[<-|[<-|[]]]]; intros E; try discriminate E; simpl; lra.
Qed.

(** C10, amended.  When the decision logic selects OrbitalRefuel for a
    rocket and a body of the catalog (negative base margin, body not named
    "Titan", rocket named "Starship": the catalog Starship, with 5.5 km/s
    per tanker, to the Moon or to Mars), the run completes with 1 to 3
    tankers, which cover the shortage with 1 km/s to spare: the final
    margin is at least 1 km/s and [success] is true.  With more than 150 t
    the base capability is 0 and the plan has 3 tankers. *)
Theorem catalog_refuel_succeeds (m : Mission) :
  In (rocket m) rockets -> In (body m) bodies ->
  calc_capability (rocket m) (payload_kg m)
    - (EARTH_ASCENT_COST + dv_transfer (body m) + dv_capture (body m)) < 0 ->
  found (strstr (body_name (body m)) "Titan") = false ->
  found (strstr (rocket_name (rocket m)) "Starship") = true ->
  exists plan,
    run_mission_plan m = Some plan /\
    strategy (plan_mission plan) = OrbitalRefuel /\
    refuel_dv_per_tanker (rocket m) = 5.5 /\
    (1 <= plan_tankers_needed plan <= 3)%Z /\
    plan_total_req plan - plan_cap plan + 1
      <= IZR (plan_tankers_needed plan) * refuel_dv_per_tanker (rocket m) /\
    1 <= plan_final_margin plan /\
    plan_success plan = true /\
    (150000 < payload_kg m ->
     plan_cap plan = 0 /\ plan_tankers_needed plan = 3%Z).
Proof.
  intros Hr Hb Hm Ht Hs.
  destruct (catalog_rocket_facts _ Hr) as (_ & _ & Hstar).
  pose proof (Hstar Hs) as Hrk.
  pose proof (catalog_body_req _ Hb Ht) as Hreq.
  fold (total_req_of m) in Hreq, Hm. fold (cap_of m) in Hm.
  assert (Hper : refuel_dv_per_tanker (rocket m) = 5.5)
    by (rewrite Hrk; reflexivity).
  assert (Hcap : cap_of m = calc_capability starship (payload_kg m))
    by (unfold cap_of; now rewrite Hrk).
  assert (Hplan : forall n,
            (1 <= n <= 3)%Z ->
            IZR n - 1 < (total_req_of m - cap_of m) / 5.5 <= IZR n ->
            total_req_of m - cap_of m + 1 <= IZR n * 5.5 ->
            exists plan,
              run_mission_plan m = Some plan /\
              strategy (plan_mission plan) = OrbitalRefuel /\
              refuel_dv_per_tanker (rocket m) = 5.5 /\
              (1 <= plan_tankers_needed plan <= 3)%Z /\
              plan_total_req plan - plan_cap plan + 1
                <= IZR (plan_tankers_needed plan)
                   * refuel_dv_per_tanker (rocket m) /\
              1 <= plan_final_margin plan /\
              plan_success plan = true /\
              plan_cap plan = cap_of m /\ plan_tankers_needed plan = n).
  { intros n Hn Hq Hcover.
    exists (refuel_plan m n). split.
    - apply run_mission_plan_refuel; try assumption; try lra; try lia.
      rewrite compute_tanker_plan_ceil by lra. rewrite Hper.
      apply double_to_int_ceil_value; [exact Hq|].
      unfold INT_MIN, INT_MAX. lia.
    - cbn [refuel_plan plan_mission plan_total_req plan_cap
           plan_tankers_needed plan_final_margin plan_success
           strategy set_notes set_strategy].
      rewrite Hper.
      repeat apply conj; try reflexivity; try lia; try lra.
      rewrite andb_true_r. apply Rleb_le. lra. }
  destruct (cap_starship_cases (payload_kg m)) as [[Hc H0]|[HP Hge]].
  - rewrite <- Hcap in H0.
    destruct (Hplan 3%Z) as (plan & H1 & H2 & H3 & H4 & H5 & H6 & H7 & H8 & H9);
      [lia|rewrite H0; simpl; lra|rewrite H0; simpl; lra|].
    exists plan. repeat apply conj; try assumption; try lia.
    intros _. split; [now rewrite H8|exact H9].
  - rewrite <- Hcap in Hge.
    destruct (Hplan 1%Z) as (plan & H1 & H2 & H3 & H4 & H5 & H6 & H7 & H8 & H9);
      [lia|simpl; lra|simpl; lra|].
    exists plan. repeat apply conj; try assumption; try lia.
    intros Hover. lra.
Qed.

Lemma catalog_refuel_succeeds_witness :
  let m := mk_mission starship mars "2025-01-01" 200000 in
  exists plan,
    run_mission_plan m = Some plan /\
    strategy (plan_mission plan) = OrbitalRefuel /\
    refuel_dv_per_tanker (rocket m) = 5.5 /\
    (1 <= plan_tankers_needed plan <= 3)%Z /\
    plan_total_req plan - plan_cap plan + 1
      <= IZR (plan_tankers_needed plan) * refuel_dv_per_tanker (rocket m) /\
    1 <= plan_final_margin plan /\
    plan_success plan = true /\
    (150000 < payload_kg m ->
     plan_cap plan = 0 /\ plan_tankers_needed plan = 3%Z).
Proof.
  intros m.
  assert (Hc : calc_capability starship 200000 = 0)
    by (apply calc_capability_over; simpl; lra).
  apply (catalog_refuel_succeeds m); try reflexivity.
  - simpl. auto.
  - simpl. auto.
  - cbn [m rocket body payload_kg mk_mission]. rewrite Hc.
    unfold EARTH_ASCENT_COST. simpl. lra.
Defined.

Lemma plan_when_no_refuel m :
  cap_of m - total_req_of m < 0 ->
  names_titan m = true \/ names_starship m = false ->
  exists plan,
    run_mission_plan m = Some plan /\ plan_tankers_needed plan = 0%Z.
Proof.
  intros Hm Hn.
  destruct (names_titan m) eqn:Ht.
  - pose proof (decide_gravity_assist (initialised m) _ Hm Ht) as Hd.
    eexists. split; [apply (run_mission_plan_bonus m _ _ Hd); discriminate|].
    reflexivity.
  - destruct Hn as [Hn|Hs]; [discriminate|].
    destruct (Rlt_dec (-1.5) (cap_of m - total_req_of m)) as [Hk|Hk].
    + pose proof (decide_kick_stage (initialised m) _ Hm Ht Hs Hk) as Hd.
      eexists. split; [apply (run_mission_plan_bonus m _ _ Hd); discriminate|].
      reflexivity.
    + apply Rnot_lt_le in Hk.
      pose proof (decide_infeasible (initialised m) _ Hm Ht Hs Hk) as Hd.
      eexists. split; [apply (run_mission_plan_bonus m _ _ Hd); discriminate|].
      reflexivity.
Qed.

Lemma catalog_plan_defined m :
  In (rocket m) rockets -> In (body m) bodies -> 0 <= payload_kg m ->
  exists plan,
    run_mission_plan m = Some plan /\ (0 <= plan_tankers_needed plan <= 3)%Z.
Proof.
  intros Hr Hb HP.
  destruct (catalog_rocket_facts _ Hr) as (Hisp & Hst & Hstar).
  destruct (Rlt_dec (cap_of m - total_req_of m) 0) as [Hm|Hm].
  - destruct (names_titan m) eqn:Ht.
    + destruct (plan_when_no_refuel m Hm (or_introl Ht)) as (plan & Hp & Hn).
      exists plan. split; [exact Hp|lia].
    + destruct (names_starship m) eqn:Hs.
      * pose proof (Hstar Hs) as Hrk.
        pose proof (catalog_body_facts _ Hb Ht) as Hreq.
        fold (total_req_of m) in Hreq.
        pose proof (calc_capability_nonneg (rocket m) (payload_kg m) Hisp Hst)
          as Hcap.
        fold (cap_of m) in Hcap.
        assert (Hper : refuel_dv_per_tanker (rocket m) = 5.5)
          by (rewrite Hrk; reflexivity).
        destruct (double_to_int_ceil
                    ((total_req_of m - cap_of m) / refuel_dv_per_tanker (rocket m)))
          as (n & Hn & Hv & Hge).
        { apply Rdiv_lt_0_compat; lra. }
        { rewrite Hper. unfold INT_MAX. lra. }
        destruct (ceil_bounds
                    ((total_req_of m - cap_of m) / refuel_dv_per_tanker (rocket m)))
          as [Hlo _].
        rewrite <- Hv, Hper in Hlo.
        assert (Hn3 : (n <= 3)%Z).
        { apply Z.lt_succ_r. apply lt_IZR. rewrite succ_IZR. lra. }
        exists (refuel_plan m n). split; [|simpl; lia].
        apply run_mission_plan_refuel; try assumption; try lra; try lia.
        rewrite compute_tanker_plan_ceil by lra. exact Hn.
      * destruct (plan_when_no_refuel m Hm (or_intror Hs)) as (plan & Hp & Hn).
        exists plan. split; [exact Hp|lia].
  - apply Rnot_lt_le in Hm.
    destruct (plan_when_margin_nonneg m Hm) as (plan & Hp & _ & Hn & _).
    exists plan. split; [exact Hp|lia].
Qed.

(** X6.  Every mission over the catalog completes its plan.  For a rocket
    and a body of the two tables and a payload that is not negative, the
    conversion of the tanker count is always defined, and the plan needs at
    most 3 tankers. *)
Theorem catalog_missions_complete (m : Mission) :
  In (rocket m) rockets -> In (body m) bodies -> 0 <= payload_kg m ->
  exists plan,
    run_mission_plan m = Some plan /\ (0 <= plan_tankers_needed plan <= 3)%Z.
Proof. apply catalog_plan_defined. Qed.

Lemma catalog_missions_complete_witness :
  exists plan,
    run_mission_plan (mk_mission starship moon "2025-01-01" 160000) = Some plan /\
    (0 <= plan_tankers_needed plan <= 3)%Z.
Proof.
  apply (catalog_missions_complete
           (mk_mission starship moon "2025-01-01" 160000)).
  - simpl. auto.
  - simpl. auto.
  - simpl. lra.
Defined.

(** ** The suggested rockets *)

Lemma suggest_loop_In rs m total_req r c :
  In (r, c) (suggest_loop rs m total_req) ->
  In r rs /\
  rocket_name r <> rocket_name (rocket m) /\
  c = calc_capability r (payload_kg m) /\
  total_req <= c.
Proof.
  induction rs as [|r0 rs IH]; simpl; [contradiction|].
  destruct (String.eqb_spec (rocket_name r0) (rocket_name (rocket m))) as [E|E].
  - intros H. destruct (IH H) as (? & ? & ? & ?). auto.
  - destruct (Rgeb _ 0) eqn:Eg.
    + intros [H|H].
      * inversion H; subst r c. apply Rleb_true in Eg.
        repeat split; auto. lra.
      * destruct (IH H) as (? & ? & ? & ?). auto.
    + intros H. destruct (IH H) as (? & ? & ? & ?). auto.
Qed.

Lemma suggest_loop_complete rs m total_req r :
  In r rs ->
  rocket_name r <> rocket_name (rocket m) ->
  total_req <= calc_capability r (payload_kg m) ->
  In (r, calc_capability r (payload_kg m)) (suggest_loop rs m total_req).
Proof.
  intros Hin Hne Hle. induction rs as [|r0 rs IH]; simpl; [contradiction|].
  destruct Hin as [->|Hin].
  - destruct (String.eqb_spec (rocket_name r) (rocket_name (rocket m)));
      [contradiction|].
    unfold Rgeb. rewrite Rleb_le by lra. now left.
  - destruct (String.eqb (rocket_name r0) (rocket_name (rocket m))); auto.
    destruct (Rgeb _ 0); simpl; auto.
Qed.

(** X7.  The suggestions are sound.  They are printed only when the
    mission has failed; a suggested rocket is a catalog rocket with another
    name whose base capability for this payload reaches the requirement;
    and the same mission planned with it succeeds without tankers, with the
    direct or the Oberth strategy.  Every catalog rocket with another name
    whose base capability reaches the requirement is suggested. *)
Theorem suggestions_sound (m : Mission) (plan : Plan) (r : Rocket) (c : R) :
  run_mission_plan m = Some plan ->
  (In (r, c) (suggestions plan) ->
   plan_success plan = false /\
   In r rockets /\
   rocket_name r <> rocket_name (rocket m) /\
   c = calc_capability r (payload_kg m) /\
   plan_total_req plan <= c /\
   exists plan',
     run_mission_plan (with_rocket m r) = Some plan' /\
     plan_success plan' = true /\
     plan_tankers_needed plan' = 0%Z /\
     (strategy (plan_mission plan') = Direct
      \/ strategy (plan_mission plan') = ObertPerigeeKick)) /\
  (plan_success plan = false -> In r rockets ->
   rocket_name r <> rocket_name (rocket m) ->
   plan_total_req plan <= calc_capability r (payload_kg m) ->
   In (r, calc_capability r (payload_kg m)) (suggestions plan)).
Proof.
  intros Hrun.
  destruct (run_mission_plan_fields m plan Hrun) as (Hr & _ & Hp & _).
  destruct (run_mission_plan_inv m plan Hrun) as (_ & Hreq & _).
  unfold suggestions. split.
  - destruct (plan_success plan); [contradiction|].
    intros Hin. apply suggest_loop_In in Hin.
    rewrite Hr, Hp in Hin. destruct Hin as (Hin & Hne & Hc & Hle).
    repeat split; try assumption.
    apply plan_when_margin_nonneg.
    change (cap_of (with_rocket m r)) with (calc_capability r (payload_kg m)).
    change (total_req_of (with_rocket m r)) with (total_req_of m).
    rewrite <- Hreq, <- Hc. lra.
  - intros -> Hin Hne Hle.
    rewrite <- Hp. apply suggest_loop_complete; rewrite ?Hr, ?Hp; assumption.
Qed.

(** [exp (1/5) <= 5/4], hence [exp (13/5) < 19]. *)
Lemma exp_13_5_lt_19 : exp (13 / 5) < 19.
Proof.
  assert (H0 : 4 / 5 <= exp (- (1 / 5)))
    by (generalize (exp_ineq1_le (- (1 / 5))); lra).
  assert (Hp : 0 < exp (1 / 5)) by apply exp_pos.
  assert (H1 : exp (1 / 5) <= 5 / 4).
  { rewrite exp_Ropp in H0.
    assert (He : exp (1 / 5) * / exp (1 / 5) = 1) by (apply Rinv_r; lra).
    nra. }
  replace (13 / 5) with (INR 13 * (1 / 5)) by (simpl; lra).
  rewrite exp_INR_mult.
  apply Rle_lt_trans with ((5 / 4) ^ 13).
  - apply pow_incr. lra.
  - simpl. lra.
Qed.

(** The SLS with 1 t: above the 15.2 km/s of Mars. *)
Lemma cap_sls_1000 : 15.2 <= calc_capability sls 1000.
Proof.
  rewrite calc_capability_formula by (simpl; lra).
  simpl. unfold G0.
  assert (H : 13 / 5 < ln ((2600000 + 1000) / (110000 + 1000))).
  { apply ln_gt_of_exp. generalize exp_13_5_lt_19. lra. }
  lra.
Qed.

Lemma plan_pslv_mars_fails date :
  exists plan,
    run_mission_plan (mk_mission pslv mars date 1000) = Some plan /\
    plan_success plan = false.
Proof.
  destruct (catalog_plan_defined (mk_mission pslv mars date 1000))
    as (plan & Hrun & _); try (simpl; auto 6; lra).
  exists plan. split; [exact Hrun|].
  pose proof (oberth_unreachable_for_pslv date 1000 plan ltac:(lra) Hrun) as E.
  destruct (run_mission_plan_inv _ plan Hrun)
    as (_ & _ & _ & _ & _ & _ & _ & Hsucc & _).
  rewrite Hsucc, E. apply andb_false_r.
Qed.

Lemma suggestions_sound_witness :
  exists plan,
    run_mission_plan (mk_mission pslv mars "2025-01-01" 1000) = Some plan /\
    In (sls, calc_capability sls 1000) (suggestions plan) /\
    exists plan',
      run_mission_plan
        (with_rocket (mk_mission pslv mars "2025-01-01" 1000) sls)
        = Some plan' /\
      plan_success plan' = true.
Proof.
  destruct (plan_pslv_mars_fails "2025-01-01") as (plan & Hrun & Hfail).
  exists plan. split; [exact Hrun|].
  assert (Hreq : plan_total_req plan <= calc_capability sls 1000).
  { destruct (run_mission_plan_inv _ plan Hrun) as (_ & -> & _).
    rewrite total_req_mars. apply cap_sls_1000. }
  assert (Hin : In (sls, calc_capability sls 1000) (suggestions plan)).
  { apply (proj2 (suggestions_sound _ plan sls (calc_capability sls 1000) Hrun));
      try assumption.
    - simpl. auto.
    - discriminate. }
  split; [exact Hin|].
  destruct (proj1 (suggestions_sound _ plan sls _ Hrun) Hin)
    as (_ & _ & _ & _ & _ & plan' & Hrun' & Hs & _).
  exists plan'. split; assumption.
Defined.

(** ** The outcome, from the base margin *)

(** A lower bound of [exp] by repeated squaring, from [1 + t <= exp t]. *)
Lemma exp_square_bound b c t :
  0 <= b -> b <= exp t -> c <= b * b -> c <= exp (t + t).
Proof.
  intros Hb H Hc. rewrite exp_plus.
  apply Rle_trans with (b * b); [exact Hc|].
  apply Rmult_le_compat; assumption.
Qed.

Lemma exp_2_5832_gt : 13.1464 < exp (2.5832).
Proof.
  assert (H0 : 1.001261328125 <= exp (2.5832 / 2048))
    by (generalize (exp_ineq1_le (2.5832 / 2048)); lra).
  assert (H1 : 1.002524247198638 <= exp (2.5832 / 1024)).
  { replace (2.5832 / 1024) with ((2.5832 / 2048) + (2.5832 / 2048)) by lra.
    apply (exp_square_bound 1.001261328125); [lra|exact H0|lra]. }
  clear H0.
  assert (H2 : 1.005054866221195 <= exp (2.5832 / 512)).
  { replace (2.5832 / 512) with ((2.5832 / 1024) + (2.5832 / 1024)) by lra.
    apply (exp_square_bound 1.002524247198638); [lra|exact H1|lra]. }
  clear H1.
  assert (H3 : 1.010135284114904 <= exp (2.5832 / 256)).
  { replace (2.5832 / 256) with ((2.5832 / 512) + (2.5832 / 512)) by lra.
    apply (exp_square_bound 1.005054866221195); [lra|exact H2|lra]. }
  clear H2.
  assert (H4 : 1.020373292213897 <= exp (2.5832 / 128)).
  { replace (2.5832 / 128) with ((2.5832 / 256) + (2.5832 / 256)) by lra.
    apply (exp_square_bound 1.010135284114904); [lra|exact H3|lra]. }
  clear H3.
  assert (H5 : 1.041161655463426 <= exp (2.5832 / 64)).
  { replace (2.5832 / 64) with ((2.5832 / 128) + (2.5832 / 128)) by lra.
    apply (exp_square_bound 1.020373292213897); [lra|exact H4|lra]. }
  clear H4.
  assert (H6 : 1.084017592807341 <= exp (2.5832 / 32)).
  { replace (2.5832 / 32) with ((2.5832 / 64) + (2.5832 / 64)) by lra.
    apply (exp_square_bound 1.041161655463426); [lra|exact H5|lra]. }
  clear H5.
  assert (H7 : 1.175094141515822 <= exp (2.5832 / 16)).
  { replace (2.5832 / 16) with ((2.5832 / 32) + (2.5832 / 32)) by lra.
    apply (exp_square_bound 1.084017592807341); [lra|exact H6|lra]. }
  clear H6.
  assert (H8 : 1.380846241424806 <= exp (2.5832 / 8)).
  { replace (2.5832 / 8) with ((2.5832 / 16) + (2.5832 / 16)) by lra.
    apply (exp_square_bound 1.175094141515822); [lra|exact H7|lra]. }
  clear H7.
  assert (H9 : 1.906736342457013 <= exp (2.5832 / 4)).
  { replace (2.5832 / 4) with ((2.5832 / 8) + (2.5832 / 8)) by lra.
    apply (exp_square_bound 1.380846241424806); [lra|exact H8|lra]. }
  clear H8.
  assert (H10 : 3.635643479646347 <= exp (2.5832 / 2)).
  { replace (2.5832 / 2) with ((2.5832 / 4) + (2.5832 / 4)) by lra.
    apply (exp_square_bound 1.906736342457013); [lra|exact H9|lra]. }
  clear H9.
  assert (H11 : 13.217903511094997 <= exp (2.5832)).
  { replace (2.5832) with ((2.5832 / 2) + (2.5832 / 2)) by lra.
    apply (exp_square_bound 3.635643479646347); [lra|exact H10|lra]. }
  clear H10.
  lra.
Qed.

Lemma exp_neg_2_33_gt : 0.0761 < exp (-2.33).
Proof.
  assert (H0 : 0.96359375 <= exp (-2.33 / 64))
    by (generalize (exp_ineq1_le (-2.33 / 64)); lra).
  assert (H1 : 0.928512915039062 <= exp (-2.33 / 32)).
  { replace (-2.33 / 32) with ((-2.33 / 64) + (-2.33 / 64)) by lra.
    apply (exp_square_bound 0.96359375); [lra|exact H0|lra]. }
  clear H0.
  assert (H2 : 0.862136233394336 <= exp (-2.33 / 16)).
  { replace (-2.33 / 16) with ((-2.33 / 32) + (-2.33 / 32)) by lra.
    apply (exp_square_bound 0.928512915039062); [lra|exact H1|lra]. }
  clear H1.
  assert (H3 : 0.743278884931372 <= exp (-2.33 / 8)).
  { replace (-2.33 / 8) with ((-2.33 / 16) + (-2.33 / 16)) by lra.
    apply (exp_square_bound 0.862136233394336); [lra|exact H2|lra]. }
  clear H2.
  assert (H4 : 0.552463500784823 <= exp (-2.33 / 4)).
  { replace (-2.33 / 4) with ((-2.33 / 8) + (-2.33 / 8)) by lra.
    apply (exp_square_bound 0.743278884931372); [lra|exact H3|lra]. }
  clear H3.
  assert (H5 : 0.305215919699422 <= exp (-2.33 / 2)).
  { replace (-2.33 / 2) with ((-2.33 / 4) + (-2.33 / 4)) by lra.
    apply (exp_square_bound 0.552463500784823); [lra|exact H4|lra]. }
  clear H4.
  assert (H6 : 0.093156757637964 <= exp (-2.33)).
  { replace (-2.33) with ((-2.33 / 2) + (-2.33 / 2)) by lra.
    apply (exp_square_bound 0.305215919699422); [lra|exact H5|lra]. }
  clear H5.
  lra.
Qed.

Lemma exp_3_229_gt : 23.637 < exp (3.229).
Proof.
  assert (H0 : 1.0031533203125 <= exp (3.229 / 1024))
    by (generalize (exp_ineq1_le (3.229 / 1024)); lra).
  assert (H1 : 1.006316584053993 <= exp (3.229 / 512)).
  { replace (3.229 / 512) with ((3.229 / 1024) + (3.229 / 1024)) by lra.
    apply (exp_square_bound 1.0031533203125); [lra|exact H0|lra]. }
  clear H0.
  assert (H2 : 1.012673067342097 <= exp (3.229 / 256)).
  { replace (3.229 / 256) with ((3.229 / 512) + (3.229 / 512)) by lra.
    apply (exp_square_bound 1.006316584053993); [lra|exact H1|lra]. }
  clear H1.
  assert (H3 : 1.025506741320051 <= exp (3.229 / 128)).
  { replace (3.229 / 128) with ((3.229 / 256) + (3.229 / 256)) by lra.
    apply (exp_square_bound 1.012673067342097); [lra|exact H2|lra]. }
  clear H2.
  assert (H4 : 1.051664076492869 <= exp (3.229 / 64)).
  { replace (3.229 / 64) with ((3.229 / 128) + (3.229 / 128)) by lra.
    apply (exp_square_bound 1.025506741320051); [lra|exact H3|lra]. }
  clear H3.
  assert (H5 : 1.105997329785599 <= exp (3.229 / 32)).
  { replace (3.229 / 32) with ((3.229 / 64) + (3.229 / 64)) by lra.
    apply (exp_square_bound 1.051664076492869); [lra|exact H4|lra]. }
  clear H4.
  assert (H6 : 1.223230093492875 <= exp (3.229 / 16)).
  { replace (3.229 / 16) with ((3.229 / 32) + (3.229 / 32)) by lra.
    apply (exp_square_bound 1.105997329785599); [lra|exact H5|lra]. }
  clear H5.
  assert (H7 : 1.496291861626587 <= exp (3.229 / 8)).
  { replace (3.229 / 8) with ((3.229 / 16) + (3.229 / 16)) by lra.
    apply (exp_square_bound 1.223230093492875); [lra|exact H6|lra]. }
  clear H6.
  assert (H8 : 2.238889335169957 <= exp (3.229 / 4)).
  { replace (3.229 / 4) with ((3.229 / 8) + (3.229 / 8)) by lra.
    apply (exp_square_bound 1.496291861626587); [lra|exact H7|lra]. }
  clear H7.
  assert (H9 : 5.012625455137772 <= exp (3.229 / 2)).
  { replace (3.229 / 2) with ((3.229 / 4) + (3.229 / 4)) by lra.
    apply (exp_square_bound 2.238889335169957); [lra|exact H8|lra]. }
  clear H8.
  assert (H10 : 25.126413953495155 <= exp (3.229)).
  { replace (3.229) with ((3.229 / 2) + (3.229 / 2)) by lra.
    apply (exp_square_bound 5.012625455137772); [lra|exact H9|lra]. }
  clear H9.
  lra.
Qed.

Lemma exp_3_95_gt : 25 < exp (3.95).
Proof.
  assert (H0 : 1.06171875 <= exp (3.95 / 64))
    by (generalize (exp_ineq1_le (3.95 / 64)); lra).
  assert (H1 : 1.127246704101562 <= exp (3.95 / 32)).
  { replace (3.95 / 32) with ((3.95 / 64) + (3.95 / 64)) by lra.
    apply (exp_square_bound 1.06171875); [lra|exact H0|lra]. }
  clear H0.
  assert (H2 : 1.270685131907834 <= exp (3.95 / 16)).
  { replace (3.95 / 16) with ((3.95 / 32) + (3.95 / 32)) by lra.
    apply (exp_square_bound 1.127246704101562); [lra|exact H1|lra]. }
  clear H1.
  assert (H3 : 1.614640704451629 <= exp (3.95 / 8)).
  { replace (3.95 / 8) with ((3.95 / 16) + (3.95 / 16)) by lra.
    apply (exp_square_bound 1.270685131907834); [lra|exact H2|lra]. }
  clear H2.
  assert (H4 : 2.607064604472052 <= exp (3.95 / 4)).
  { replace (3.95 / 4) with ((3.95 / 8) + (3.95 / 8)) by lra.
    apply (exp_square_bound 1.614640704451629); [lra|exact H3|lra]. }
  clear H3.
  assert (H5 : 6.796785851891016 <= exp (3.95 / 2)).
  { replace (3.95 / 2) with ((3.95 / 4) + (3.95 / 4)) by lra.
    apply (exp_square_bound 2.607064604472052); [lra|exact H4|lra]. }
  clear H4.
  assert (H6 : 46.196297916465884 <= exp (3.95)).
  { replace (3.95) with ((3.95 / 2) + (3.95 / 2)) by lra.
    apply (exp_square_bound 6.796785851891016); [lra|exact H5|lra]. }
  clear H5.
  lra.
Qed.

(** The SLS with its full 95 t: between 13.7 and 15.2 km/s, so that Mars
    is out of reach by less than 1.5 km/s. *)
Lemma cap_sls_95000 : 13.7 < calc_capability sls 95000 < 15.2.
Proof.
  rewrite calc_capability_formula by (simpl; lra).
  simpl. unfold G0.
  assert (Hu : ln ((2600000 + 95000) / (110000 + 95000)) < 2.5832).
  { apply ln_lt_of_exp; [lra|]. generalize exp_2_5832_gt. lra. }
  assert (Hl : 2.33 < ln ((2600000 + 95000) / (110000 + 95000))).
  { apply ln_gt_of_exp.
    pose proof exp_neg_2_33_gt as H.
    replace (-2.33) with (- (2.33)) in H by lra.
    rewrite exp_Ropp in H.
    assert (Hp := exp_pos 2.33).
    assert (He : exp 2.33 * / exp 2.33 = 1) by (apply Rinv_r; lra).
    nra. }
  lra.
Qed.

(** X3.  What the base margin means for the outcome.  A margin that is not
    negative always gives a successful plan without tankers, Direct or
    Oberth.  A margin between -1.5 and 0, for a body not named "Titan" and a
    rocket not named "Starship", gives the kick stage, a positive final
    margin and success.  A negative margin for a rocket named "Starship"
    whose [refuel_dv_per_tanker] is not positive gives the refuel strategy
    with no tanker, and the mission fails. *)
Theorem margin_decides_outcome (m : Mission) :
  (0 <= cap_of m - total_req_of m ->
   exists plan,
     run_mission_plan m = Some plan /\
     plan_success plan = true /\
     plan_tankers_needed plan = 0%Z /\
     (strategy (plan_mission plan) = Direct
      \/ strategy (plan_mission plan) = ObertPerigeeKick)) /\
  (-1.5 < cap_of m - total_req_of m < 0 ->
   names_titan m = false -> names_starship m = false ->
   exists plan,
     run_mission_plan m = Some plan /\
     strategy (plan_mission plan) = KickStage /\
     plan_tankers_needed plan = 0%Z /\
     0 < plan_final_margin plan /\
     plan_success plan = true) /\
  (cap_of m - total_req_of m < 0 ->
   names_titan m = false -> names_starship m = true ->
   refuel_dv_per_tanker (rocket m) <= 0 ->
   exists plan,
     run_mission_plan m = Some plan /\
     strategy (plan_mission plan) = OrbitalRefuel /\
     plan_tankers_needed plan = 0%Z /\
     plan_success plan = false).
Proof.
  repeat apply conj.
  - apply plan_when_margin_nonneg.
  - intros [Hlo Hhi] Ht Hs.
    pose proof (decide_kick_stage (initialised m) _ Hhi Ht Hs Hlo) as Hd.
    eexists. split; [apply (run_mission_plan_bonus m _ _ Hd); discriminate|].
    cbn [plan_mission plan_tankers_needed plan_final_margin plan_success
         strategy set_notes set_strategy].
    repeat apply conj; try reflexivity; try lra.
    rewrite andb_true_r. apply Rleb_le. lra.
  - intros Hm Ht Hs Hper.
    exists (refuel_plan m 0). split.
    + apply run_mission_plan_refuel; try assumption; try lra; try lia.
      apply compute_tanker_plan_zero. now left.
    + cbn [refuel_plan plan_mission plan_tankers_needed plan_success
           strategy set_notes set_strategy].
      repeat apply conj; try reflexivity.
      rewrite andb_true_r. unfold Rgeb. apply Rleb_gt. lra.
Qed.

Lemma margin_decides_outcome_witness :
  (exists plan,
     run_mission_plan (mk_mission sls mars "2025-01-01" 1000) = Some plan /\
     plan_success plan = true /\
     plan_tankers_needed plan = 0%Z /\
     (strategy (plan_mission plan) = Direct
      \/ strategy (plan_mission plan) = ObertPerigeeKick)) /\
  (exists plan,
     run_mission_plan (mk_mission sls mars "2025-01-01" 95000) = Some plan /\
     strategy (plan_mission plan) = KickStage /\
     plan_tankers_needed plan = 0%Z /\
     0 < plan_final_margin plan /\
     plan_success plan = true) /\
  (exists plan,
     run_mission_plan
       (mk_mission tankerless_starship mars "2025-01-01" 200000) = Some plan /\
     strategy (plan_mission plan) = OrbitalRefuel /\
     plan_tankers_needed plan = 0%Z /\
     plan_success plan = false).
Proof.
  repeat apply conj.
  - apply (proj1 (margin_decides_outcome
                    (mk_mission sls mars "2025-01-01" 1000))).
    rewrite total_req_mars.
    change (cap_of (mk_mission sls mars "2025-01-01" 1000))
      with (calc_capability sls 1000).
    generalize cap_sls_1000. lra.
  - apply (proj1 (proj2 (margin_decides_outcome
                           (mk_mission sls mars "2025-01-01" 95000))));
      try reflexivity.
    rewrite total_req_mars.
    change (cap_of (mk_mission sls mars "2025-01-01" 95000))
      with (calc_capability sls 95000).
    generalize cap_sls_95000. lra.
  - apply (proj2 (proj2 (margin_decides_outcome
                           (mk_mission tankerless_starship mars "2025-01-01"
                              200000))));
      try reflexivity; try (simpl; lra).
    rewrite total_req_mars.
    change (cap_of (mk_mission tankerless_starship mars "2025-01-01" 200000))
      with (calc_capability tankerless_starship 200000).
    rewrite calc_capability_over by (simpl; lra). lra.
Defined.

(** ** No catalog rocket reaches Titan directly *)

Lemma capability_upper r P c :
  0 <= isp_avg r -> 0 <= staging_factor r ->
  0 < dry_mass_kg r -> dry_mass_kg r < wet_mass_kg r -> 0 <= P ->
  0 <= c -> wet_mass_kg r / dry_mass_kg r < exp c ->
  calc_capability r P <= isp_avg r * G0 / 1000 * staging_factor r * c.
Proof.
  intros Hisp Hst Hd Hdw HP Hc Hexp.
  assert (Hk : 0 <= isp_avg r * G0 / 1000 * staging_factor r).
  { unfold G0. apply Rmult_le_pos; [|exact Hst]. lra. }
  destruct (Rle_dec P (payload_leo_kg r)) as [Hle|Hgt].
  - rewrite calc_capability_formula by lra.
    pose proof (mass_ratio_decreasing (wet_mass_kg r) (dry_mass_kg r) 0 P
                  Hdw ltac:(lra) HP) as Hr.
    rewrite !Rplus_0_r in Hr.
    assert (Hpos : 0 < (wet_mass_kg r + P) / (dry_mass_kg r + P))
      by (apply Rdiv_lt_0_compat; lra).
    assert (Hln : ln ((wet_mass_kg r + P) / (dry_mass_kg r + P)) < c).
    { apply ln_lt_of_exp; [exact Hpos|]. lra. }
    replace (isp_avg r * G0
             * ln ((wet_mass_kg r + P) / (dry_mass_kg r + P)) / 1000
             * staging_factor r)
      with (isp_avg r * G0 / 1000 * staging_factor r
            * ln ((wet_mass_kg r + P) / (dry_mass_kg r + P))) by field.
    apply Rmult_le_compat_l; lra.
  - rewrite calc_capability_over by lra.
    apply Rmult_le_pos; assumption.
Qed.

(** With a payload that is not negative no catalog rocket exceeds
    19 km/s, and New Glenn and the PSLV stay below 15 km/s. *)
Lemma catalog_capability_upper r P :
  In r rockets -> 0 <= P ->
  calc_capability r P <= 19 /\
  (r = new_glenn \/ r = pslv -> calc_capability r P <= 15).
Proof.
  intros Hr HP. simpl in Hr.
  destruct Hr as [<-|[<-|[<-|[<-|[]]]]].
  - assert (H : calc_capability starship P
                <= isp_avg starship * G0 / 1000 * staging_factor starship * 3.95).
    { apply capability_upper; try (simpl; lra).
      simpl. generalize exp_3_95_gt. lra. }
    simpl in H. unfold G0 in H. split; [lra|].
    intros [E|E]; discriminate E.
  - assert (H : calc_capability sls P
                <= isp_avg sls * G0 / 1000 * staging_factor sls * 3.229).
    { apply capability_upper; try (simpl; lra).
      simpl. generalize exp_3_229_gt. lra. }
    simpl in H. unfold G0 in H. split; [lra|].
    intros [E|E]; discriminate E.
  - assert (H : calc_capability new_glenn P
                <= isp_avg new_glenn * G0 / 1000 * staging_factor new_glenn
                   * (25 / 8)).
    { apply capability_upper; try (simpl; lra).
      simpl. generalize exp_25_8_gt_17. lra. }
    simpl in H. unfold G0 in H. split; [lra|]. intros _. lra.
  - assert (H : calc_capability pslv P
                <= isp_avg pslv * G0 / 1000 * staging_factor pslv * 4).
    { apply capability_upper; try (simpl; lra).
      simpl. generalize exp_4_gt_16. lra. }
    simpl in H. unfold G0 in H. split; [lra|]. intros _. lra.
Qed.

(** X5.  With a payload that is not negative the capability of a catalog
    rocket lies between 0 and 19 km/s, below the 19.6 km/s that Titan
    requires.  So a mission of the catalog to Titan never has the Direct
    strategy: it always gets the gravity assist and its 4.5 km/s, with no
    tankers; and with New Glenn or the PSLV, which stay below 15 km/s, it
    fails. *)
Theorem catalog_capability_bounded (m : Mission) :
  In (rocket m) rockets -> 0 <= payload_kg m ->
  0 <= calc_capability (rocket m) (payload_kg m) <= 19 /\
  (body m = titan ->
   exists plan,
     run_mission_plan m = Some plan /\
     strategy (plan_mission plan) = GravityAssist /\
     plan_bonus_dv plan = 4.5 /\
     plan_tankers_needed plan = 0%Z /\
     (rocket m = new_glenn \/ rocket m = pslv -> plan_success plan = false)).
Proof.
  intros Hr HP.
  destruct (catalog_rocket_facts _ Hr) as (Hisp & Hst & _).
  destruct (catalog_capability_upper _ _ Hr HP) as [H19 H15].
  pose proof (calc_capability_nonneg (rocket m) (payload_kg m) Hisp Hst) as H0.
  split; [lra|].
  intros Hb.
  fold (cap_of m) in H0, H19, H15.
  assert (Hreq : total_req_of m = 19.6).
  { unfold total_req_of, EARTH_ASCENT_COST. rewrite Hb. simpl. lra. }
  assert (Ht : names_titan (initialised m) = true).
  { unfold names_titan. cbn [initialised set_notes set_strategy body].
    rewrite Hb. reflexivity. }
  assert (Hm : cap_of m - total_req_of m < 0) by lra.
  pose proof (decide_gravity_assist (initialised m) _ Hm Ht) as Hd.
  eexists. split; [apply (run_mission_plan_bonus m _ _ Hd); discriminate|].
  cbn [plan_mission plan_bonus_dv plan_tankers_needed plan_success
       strategy set_notes set_strategy].
  repeat apply conj; try reflexivity.
  intros Hsmall. specialize (H15 Hsmall).
  rewrite andb_true_r. unfold Rgeb. apply Rleb_gt. lra.
Qed.

Lemma catalog_capability_bounded_witness :
  let m := mk_mission new_glenn titan "2025-01-01" 1000 in
  0 <= calc_capability new_glenn 1000 <= 19 /\
  exists plan,
    run_mission_plan m = Some plan /\
    strategy (plan_mission plan) = GravityAssist /\
    plan_bonus_dv plan = 4.5 /\
    plan_tankers_needed plan = 0%Z /\
    plan_success plan = false.
Proof.
  intros m.
  destruct (catalog_capability_bounded m) as [Hc Ht].
  - simpl. auto.
  - simpl. lra.
  - split; [exact Hc|].
    destruct (Ht eq_refl) as (plan & H1 & H2 & H3 & H4 & H5).
    exists plan. repeat apply conj; try assumption.
    apply H5. now left.
Defined.

(** ** More on the launch windows *)

(** X8.  The table headed "NEXT 5 LAUNCH WINDOWS" starts in the past: when
    the start date is after the epoch, the first launch is at or before the
    start instant and the second launch is at or after it. *)
Theorem start_between_first_windows (mktime : Z -> Z -> Z -> Z) (m : Mission)
    (start epoch : Z) :
  parse_date mktime (start_date m) = Some start ->
  parse_date mktime (epoch_date (body m)) = Some epoch ->
  0 < synodic_days (body m) ->
  0 <= transit_days_of m ->
  windows_in_range start epoch
    (synodic_days (body m) * 86400) (transit_days_of m * 86400) ->
  (epoch < start)%Z ->
  exists ws,
    run_mission_windows mktime m = Some ws /\
    (fst (nth 0 ws (0, 0)%Z) <= start <= fst (nth 1 ws (0, 0)%Z))%Z.
Proof.
  intros Hs He Hsyn Hdays Hrange Hlt.
  pose proof (run_mission_windows_value mktime m start epoch
                Hs He Hsyn Hdays Hrange) as Hrun.
  set (cs := synodic_days (body m) * 86400) in *.
  assert (Hcs : 0 < cs) by (unfold cs; lra).
  eexists. split; [exact Hrun|]. cbn [map nth window_at fst].
  apply IZR_lt in Hlt.
  unfold cycle_index.
  destruct (Rle_dec (IZR start - IZR epoch) 0) as [Hd|Hd]; [lra|].
  destruct (Int_part_bounds ((IZR start - IZR epoch) / cs)) as [Hl Hu].
  set (c := Int_part ((IZR start - IZR epoch) / cs)) in *.
  assert (Hq : (IZR start - IZR epoch) / cs * cs = IZR start - IZR epoch).
  { unfold Rdiv. rewrite Rmult_assoc, Rinv_l; lra. }
  assert (Hc0 : 0 <= IZR c).
  { apply IZR_le. apply Z.lt_succ_r. apply lt_IZR. rewrite succ_IZR.
    assert (0 < (IZR start - IZR epoch) / cs)
      by (apply Rdiv_lt_0_compat; lra). lra. }
  assert (Hx0 : 0 <= IZR (c + 0) * cs).
  { rewrite Z.add_0_r. apply Rmult_le_pos; lra. }
  assert (Hx1 : 0 <= IZR (c + 1) * cs).
  { rewrite plus_IZR. apply Rmult_le_pos; lra. }
  destruct (trunc_nonneg_bounds _ Hx0) as [Hl0 _].
  destruct (trunc_nonneg_bounds _ Hx1) as [_ Hu1].
  assert (Hc_le : IZR (c + 0) * cs <= IZR start - IZR epoch).
  { rewrite Z.add_0_r. apply Rmult_le_compat_r with (r := cs) in Hl; lra. }
  assert (Hc_gt : IZR start - IZR epoch < IZR (c + 1) * cs).
  { rewrite plus_IZR. apply Rmult_lt_compat_r with (r := cs) in Hu; lra. }
  split.
  - apply le_IZR. rewrite plus_IZR. lra.
  - apply Z.lt_succ_r. apply lt_IZR. rewrite succ_IZR, plus_IZR. lra.
Qed.

Lemma start_between_first_windows_witness :
  exists ws,
    run_mission_windows mktime_utc
      (mk_mission starship moon "2025-03-01" 0) = Some ws /\
    (fst (nth 0 ws (0, 0)%Z) <= 1740787200
     <= fst (nth 1 ws (0, 0)%Z))%Z.
Proof.
  set (m := mk_mission starship moon "2025-03-01" 0).
  assert (Hs : parse_date mktime_utc (start_date m) = Some 1740787200%Z)
    by (vm_compute; reflexivity).
  assert (He : parse_date mktime_utc (epoch_date (body m)) = Some 1736726400%Z)
    by (vm_compute; reflexivity).
  apply (start_between_first_windows mktime_utc m _ _ Hs He).
  - simpl. lra.
  - change (transit_days_of m) with 3. lra.
  - unfold windows_in_range.
    change (synodic_days (body m)) with 29.5.
    change (transit_days_of m) with 3.
    rewrite Rmax_right by lra.
    unfold TIME_T_MIN, TIME_T_MAX, INT_MAX.
    repeat apply conj; try lia; lra.
  - lia.
Defined.

Lemma launch_window_inv m epoch cycles cycle_sec i l a :
  launch_window m epoch cycles cycle_sec i = Some (l, a) ->
  a = (l + trunc (transit_days_of m * 86400))%Z.
Proof.
  unfold launch_window. fold (transit_days_of m).
  destruct (int_add cycles i) as [n|]; [|discriminate]. simpl.
  destruct (double_to_time_t (IZR n * cycle_sec)) as [off|]; [|discriminate].
  simpl.
  destruct (time_t_add epoch off) as [launch|]; [|discriminate]. simpl.
  destruct (double_to_time_t (transit_days_of m * 86400)) as [toff|] eqn:Et;
    [|discriminate].
  simpl.
  destruct (time_t_add launch toff) as [arrival|] eqn:Ea; [|discriminate].
  simpl. intros H. inversion H; subst.
  apply checked_Some in Et. apply checked_Some in Ea.
  destruct Et as [-> _]. destruct Ea as [-> _]. reflexivity.
Qed.

Lemma for_windows_inv m epoch cycles cycle_sec count :
  forall i ws,
  for_windows m epoch cycles cycle_sec count i = Some ws ->
  List.length ws = count /\
  forall w, In w ws -> snd w = (fst w + trunc (transit_days_of m * 86400))%Z.
Proof.
  induction count as [|count IH]; intros i ws; simpl.
  - intros H. inversion H. split; [reflexivity|]. intros w [].
  - destruct (launch_window m epoch cycles cycle_sec i) as [[l a]|] eqn:El;
      [|discriminate].
    simpl.
    destruct (for_windows m epoch cycles cycle_sec count (i + 1)) as [ws'|] eqn:Ef;
      [|discriminate].
    simpl. intros H. inversion H; subst ws.
    destruct (IH _ _ Ef) as [Hlen Hall].
    split; [simpl; now rewrite Hlen|].
    intros w [<-|Hw]; [|now apply Hall].
    simpl. now apply launch_window_inv in El.
Qed.

Lemma run_mission_windows_inv mktime m ws :
  run_mission_windows mktime m = Some ws ->
  List.length ws = 5%nat /\
  forall w, In w ws -> snd w = (fst w + trunc (transit_days_of m * 86400))%Z.
Proof.
  unfold run_mission_windows. cbv beta iota delta [bind].
  destruct (parse_date mktime (start_date m)) as [start|]; [|discriminate].
  destruct (parse_date mktime (epoch_date (body m))) as [epoch|]; [|discriminate].
  destruct (cycles_of _ _) as [cycles|]; [|discriminate].
  apply for_windows_inv.
Qed.

(** X9.  Whenever run_mission completes, its table has five rows and every
    row has the same transit.  For a body named "Titan" and a negative base
    margin the transit is 2555 days (220752000 s) whatever the body's
    typical transit; for any other body, and for a base margin that is not
    negative, it is the body's typical transit in whole seconds. *)
Theorem transit_of_rows (mktime : Z -> Z -> Z -> Z)
    (strftime_ymd : Z -> string) (m : Mission) (out : Output) :
  run_mission mktime strftime_ymd m = Some out ->
  List.length (out_windows out) = 5%nat /\
  List.length (out_rows out) = 5%nat /\
  (found (strstr (body_name (body m)) "Titan") = true ->
   calc_capability (rocket m) (payload_kg m)
     - (EARTH_ASCENT_COST + dv_transfer (body m) + dv_capture (body m)) < 0 ->
   forall w, In w (out_windows out) -> (snd w - fst w = 220752000)%Z) /\
  (found (strstr (body_name (body m)) "Titan") = false
   \/ 0 <= calc_capability (rocket m) (payload_kg m)
           - (EARTH_ASCENT_COST + dv_transfer (body m) + dv_capture (body m)) ->
   forall w, In w (out_windows out) ->
     (snd w - fst w = trunc (typical_transit_days (body m) * 86400))%Z).
Proof.
  intros Hrun. unfold run_mission in Hrun.
  destruct (run_mission_plan m) as [plan|] eqn:Hplan; [|discriminate].
  simpl in Hrun.
  destruct (run_mission_windows mktime (plan_mission plan)) as [ws|] eqn:Hws;
    [|discriminate].
  simpl in Hrun. inversion Hrun; subst out. cbn [out_windows out_rows].
  destruct (run_mission_windows_inv _ _ _ Hws) as [Hlen Hall].
  destruct (run_mission_plan_fields m plan Hplan) as (_ & Hb & _).
  destruct (run_mission_plan_inv m plan Hplan) as (_ & _ & _ & Hst & _).
  change (calc_capability (rocket m) (payload_kg m)
          - (EARTH_ASCENT_COST + dv_transfer (body m) + dv_capture (body m)))
    with (cap_of m - total_req_of m).
  repeat apply conj.
  - exact Hlen.
  - unfold window_rows. now rewrite length_map.
  - intros Ht Hm w Hw. rewrite (Hall w Hw).
    unfold transit_days_of. rewrite Hb, Ht, Hst.
    rewrite (decide_gravity_assist (initialised m) _ Hm Ht).
    cbn [fst strategy set_notes set_strategy Z.eqb andb Pos.eqb].
    replace (2555 * 86400) with (IZR 220752000) by lra.
    rewrite trunc_IZR. lia.
  - intros Hcase w Hw. rewrite (Hall w Hw).
    unfold transit_days_of. rewrite Hb.
    destruct Hcase as [Ht|Hm].
    + rewrite Ht, andb_false_r. lia.
    + destruct (decide_strategy_inv (initialised m) (cap_of m - total_req_of m)
                  eq_refl) as (_ & _ & Hd2 & _).
      destruct (Z.eqb_spec (strategy (plan_mission plan)) 2) as [E|E].
      * rewrite Hst in E. destruct (Hd2 E). lra.
      * simpl. lia.
Qed.

Lemma transit_of_rows_witness :
  exists out,
    run_mission mktime_utc strftime_ymd_utc
      (mk_mission starship mars "2025-01-01" 100000) = Some out /\
    List.length (out_windows out) = 5%nat /\
    List.length (out_rows out) = 5%nat.
Proof.
  destruct run_starship_mars_utc as [out Hout].
  exists out. split; [exact Hout|].
  destruct (transit_of_rows mktime_utc strftime_ymd_utc _ out Hout)
    as (H1 & H2 & _).
  split; assumption.
Defined.

(** ** The mission that main builds *)

Lemma length_substring_0 n s :
  String.length (substring 0 n s) = Nat.min n (String.length s).
Proof.
  revert s. induction n as [|n IH]; intros s.
  - destruct s; reflexivity.
  - destruct s as [|c s]; simpl; [reflexivity|]. now rewrite IH.
Qed.

Lemma clamp_selection_range n scanned :
  (1 <= n)%Z -> (1 <= clamp_selection n scanned <= n)%Z.
Proof.
  intros Hn. unfold clamp_selection.
  destruct scanned as [v|].
  - destruct (Z.ltb_spec v 1); simpl; [lia|].
    destruct (Z.gtb_spec v n); lia.
  - simpl. destruct (Z.gtb_spec 1 n); lia.
Qed.

Lemma clamp_selection_keeps n v :
  (1 <= v <= n)%Z -> clamp_selection n (Some v) = v.
Proof.
  intros H. unfold clamp_selection.
  destruct (Z.ltb_spec v 1); [lia|]. destruct (Z.gtb_spec v n); [lia|].
  reflexivity.
Qed.

Lemma clamp_selection_default n scanned :
  (1 <= n)%Z ->
  match scanned with Some v => (v < 1 \/ n < v)%Z | None => True end ->
  clamp_selection n scanned = 1%Z.
Proof.
  intros Hn H. unfold clamp_selection. destruct scanned as [v|].
  - destruct (Z.ltb_spec v 1); [reflexivity|].
    destruct (Z.gtb_spec v n); [reflexivity|lia].
  - destruct (Z.gtb_spec 1 n); [lia|reflexivity].
Qed.

Lemma NUM_ROCKETS_pos : (1 <= NUM_ROCKETS)%Z.
Proof. unfold NUM_ROCKETS. simpl. lia. Qed.

Lemma NUM_BODIES_pos : (1 <= NUM_BODIES)%Z.
Proof. unfold NUM_BODIES. simpl. lia. Qed.

Lemma rockets_get sel :
  (1 <= sel <= NUM_ROCKETS)%Z ->
  exists r, array_get rockets (sel - 1) = Some r /\ In r rockets.
Proof.
  unfold NUM_ROCKETS. simpl. intros H.
  assert (Hc : (sel = 1 \/ sel = 2 \/ sel = 3 \/ sel = 4)%Z) by lia.
  destruct Hc as [ -> | [ -> | [ -> | -> ]]]; eexists; (split; [reflexivity|]);
    simpl; auto.
Qed.

Lemma bodies_get sel :
  (1 <= sel <= NUM_BODIES)%Z ->
  exists b, array_get bodies (sel - 1) = Some b /\ In b bodies.
Proof.
  unfold NUM_BODIES. simpl. intros H.
  assert (Hc : (sel = 1 \/ sel = 2 \/ sel = 3)%Z) by lia.
  destruct Hc as [ -> | [ -> | -> ]]; eexists; (split; [reflexivity|]);
    simpl; auto.
Qed.

Lemma read_start_date_length line :
  (8 <= strlen (read_start_date line) <= 19)%Z.
Proof.
  unfold read_start_date.
  set (buf := cut_at_newline match line with Some l => l | None => _ end).
  destruct (Z.ltb_spec (strlen buf) 8) as [H|H].
  - unfold strlen. simpl. lia.
  - unfold strncpy, strlen, DATE_STRLEN in *.
    rewrite length_substring_0. simpl Z.to_nat. lia.
Qed.

Lemma read_payload_nonneg scanned : 0 <= read_payload scanned.
Proof.
  unfold read_payload.
  destruct (Rltb _ 0) eqn:E; [lra|]. now apply Rltb_false in E.
Qed.

Lemma plan_new_mission_wf m rsel bsel line payload :
  exists m',
    plan_new_mission m rsel bsel line payload = Some m' /\
    In (rocket m') rockets /\ In (body m') bodies /\
    0 <= payload_kg m' /\
    (8 <= strlen (start_date m') <= 19)%Z.
Proof.
  unfold plan_new_mission.
  destruct (rockets_get (clamp_selection NUM_ROCKETS rsel))
    as (r & Hr & Hrin); [apply clamp_selection_range, NUM_ROCKETS_pos|].
  destruct (bodies_get (clamp_selection NUM_BODIES bsel))
    as (b & Hb & Hbin); [apply clamp_selection_range, NUM_BODIES_pos|].
  rewrite Hr. simpl bind. rewrite Hb. simpl bind.
  eexists. split; [reflexivity|]. cbn [rocket body payload_kg start_date].
  repeat split; try assumption.
  - apply read_payload_nonneg.
  - apply read_start_date_length.
  - apply read_start_date_length.
Qed.

Lemma read_payload_number scanned :
  read_payload_scanned (option_map Number scanned)
    = Number (read_payload scanned).
Proof.
  unfold read_payload_scanned, read_payload.
  destruct scanned as [v|]; simpl; destruct (Rltb _ 0); reflexivity.
Qed.

(** What the guard [payload < 0] lets through. *)
Lemma read_payload_scanned_cases scanned :
  match read_payload_scanned scanned with
  | Number x => 0 <= x
  | PlusInfinity => scanned = Some PlusInfinity
  | MinusInfinity => False
  | NotANumber => scanned = Some NotANumber
  end.
Proof.
  unfold read_payload_scanned.
  destruct scanned as [[x| | |]|]; simpl; try reflexivity; try lra.
  - destruct (Rltb x 0) eqn:E; [lra|]. now apply Rltb_false in E.
  - destruct (Rltb 0 0) eqn:E; [lra|]. now apply Rltb_false in E.
Qed.

(** X10.  Menu entry 2 builds a mission inside the tables, whatever the
    user types: both array accesses are within bounds, a selection that is
    missing or outside the table is the first entry, and the start date has
    8 to 19 characters, so that the length test of parse_date never rejects
    it.  The payload test [payload < 0] lets through the numbers that are
    not negative, and also what [scanf] stores for "inf" and "nan": the
    payload is never a negative number, but it is a NaN when a NaN was
    read. *)
Theorem main_builds_mission (mktime : Z -> Z -> Z -> Z) (m : Mission)
    (rsel bsel : option Z) (line : option string) (payload : option R)
    (scanned : option scanned_double) :
  (exists m',
     plan_new_mission m rsel bsel line payload = Some m' /\
     In (rocket m') rockets /\ In (body m') bodies /\
     (8 <= strlen (start_date m') <= 19)%Z /\
     (sscanf_ymd (start_date m') = None ->
      parse_date mktime (start_date m') = Some (-1)%Z) /\
     (sscanf_ymd (start_date m') <> None ->
      (strlen (start_date m') <? 8)%Z = false) /\
     (match rsel with
      | Some v => (v < 1 \/ NUM_ROCKETS < v)%Z
      | None => True
      end -> rocket m' = starship) /\
     (match bsel with
      | Some v => (v < 1 \/ NUM_BODIES < v)%Z
      | None => True
      end -> body m' = moon) /\
     read_payload_scanned (option_map Number payload)
       = Number (payload_kg m')) /\
  match read_payload_scanned scanned with
  | Number x => 0 <= x
  | PlusInfinity => scanned = Some PlusInfinity
  | MinusInfinity => False
  | NotANumber => scanned = Some NotANumber
  end.
Proof.
  split; [|apply read_payload_scanned_cases].
  destruct (plan_new_mission_wf m rsel bsel line payload)
    as (m' & Hm' & Hr & Hb & Hp & Hlen).
  exists m'. repeat apply conj; try assumption; try lia.
  - intros Hs. apply parse_date_rejects. now right.
  - intros Hsel. unfold plan_new_mission in Hm'.
    rewrite (clamp_selection_default NUM_ROCKETS rsel NUM_ROCKETS_pos Hsel)
      in Hm'.
    simpl array_get in Hm'. simpl bind in Hm'.
    destruct (array_get bodies _) in Hm'; [|discriminate].
    simpl in Hm'. inversion Hm'. reflexivity.
  - intros Hsel. unfold plan_new_mission in Hm'.
    rewrite (clamp_selection_default NUM_BODIES bsel NUM_BODIES_pos Hsel)
      in Hm'.
    destruct (array_get rockets _) in Hm'; [|discriminate].
    simpl in Hm'. inversion Hm'. reflexivity.
  - rewrite read_payload_number. f_equal.
    unfold plan_new_mission in Hm'.
    destruct (array_get rockets _) in Hm'; [|discriminate].
    destruct (array_get bodies _) in Hm'; [|discriminate].
    simpl in Hm'. inversion Hm'. reflexivity.
Qed.

(** X11.  Menu entry 2 followed by run_mission: the plan of the mission
    that main builds always completes, with at most 3 tankers, and it does
    not depend on the strategy and the notes that the run before left in
    the mission object. *)
Theorem main_plan_completes (m1 m2 : Mission) (rsel bsel : option Z)
    (line : option string) (payload : option R) :
  exists m' plan,
    plan_new_mission m1 rsel bsel line payload = Some m' /\
    run_mission_plan m' = Some plan /\
    (0 <= plan_tankers_needed plan <= 3)%Z /\
    exists m'',
      plan_new_mission m2 rsel bsel line payload = Some m'' /\
      run_mission_plan m'' = Some plan.
Proof.
  destruct (plan_new_mission_wf m1 rsel bsel line payload)
    as (m' & Hm' & Hr & Hb & Hp & _).
  destruct (catalog_plan_defined m' Hr Hb Hp) as (plan & Hplan & Ht).
  destruct (plan_new_mission_wf m2 rsel bsel line payload)
    as (m'' & Hm'' & _).
  exists m', plan. repeat split; try assumption; try lia.
  exists m''. split; [exact Hm''|].
  rewrite <- Hplan. apply run_mission_plan_ext.
  all: unfold plan_new_mission in Hm', Hm'';
    destruct (array_get rockets _); try discriminate;
    destruct (array_get bodies _); try discriminate;
    simpl in Hm', Hm''; inversion Hm'; inversion Hm''; reflexivity.
Qed.

Lemma main_builds_mission_witness :
  (exists m',
     plan_new_mission (mk_mission pslv titan "" 0) (Some 9%Z) None
       (Some "abc") (Some (-5)%R) = Some m' /\
     rocket m' = starship /\ body m' = moon /\
     (8 <= strlen (start_date m') <= 19)%Z /\
     Number (payload_kg m') = Number 0) /\
  read_payload_scanned (Some NotANumber) = NotANumber.
Proof.
  destruct (main_builds_mission mktime_utc (mk_mission pslv titan "" 0)
              (Some 9%Z) None (Some "abc") (Some (-5)%R) (Some NotANumber))
    as [(m' & Hm' & _ & _ & Hlen & _ & _ & Hr & Hb & Hp) Hnan].
  split; [|reflexivity].
  exists m'. repeat apply conj; try assumption; try lia.
  - apply Hr. right. unfold NUM_ROCKETS. simpl. lia.
  - apply Hb. exact I.
  - rewrite <- Hp. unfold read_payload_scanned. simpl.
    rewrite Rltb_lt by lra. reflexivity.
Defined.

(** ** Text after the date *)

Lemma scan_int_sign_step s :
  scan_int s =
    let s1 := skip_space s in
    let '(neg, s2) := sign_step s1 in
    match s2 with
    | String c _ =>
        match digit_of c with
        | Some _ =>
            let '(v, rest) := scan_digits s2 0 in
            Some (if neg then (- v)%Z else v, rest)
        | None => None
        end
    | EmptyString => None
    end.
Proof.
  unfold scan_int, sign_step.
  destruct (skip_space s) as [|c r]; [reflexivity|].
  destruct c as [[] [] [] [] [] [] [] []]; reflexivity.
Qed.

Lemma scan_dash_eqb s :
  scan_dash s =
    match s with
    | String c rest => if Ascii.eqb c "-" then Some rest else None
    | EmptyString => None
    end.
Proof.
  unfold scan_dash. destruct s as [|c r]; [reflexivity|].
  destruct c as [[] [] [] [] [] [] [] []]; reflexivity.
Qed.

Lemma scan_digits_app s acc t :
  no_leading_digit t ->
  scan_digits (s ++ t) acc
    = (fst (scan_digits s acc), snd (scan_digits s acc) ++ t).
Proof.
  intros Ht. revert acc. induction s as [|c s IH]; intros acc.
  - simpl. destruct t as [|c t]; [reflexivity|].
    simpl in Ht. simpl. now rewrite Ht.
  - simpl. destruct (digit_of c); [apply IH|reflexivity].
Qed.

Lemma skip_space_app s t :
  skip_space s <> EmptyString -> skip_space (s ++ t) = skip_space s ++ t.
Proof.
  induction s as [|c s IH]; simpl; [congruence|].
  destruct (isspace c); [exact IH|reflexivity].
Qed.

Lemma scan_int_app s t v r :
  no_leading_digit t ->
  scan_int s = Some (v, r) -> scan_int (s ++ t) = Some (v, r ++ t).
Proof.
  intros Ht. rewrite !scan_int_sign_step. cbv zeta.
  destruct (skip_space s) as [|c s1] eqn:Es; [discriminate|].
  rewrite skip_space_app by (rewrite Es; discriminate). rewrite Es.
  change (String c s1 ++ t) with (String c (s1 ++ t)).
  unfold sign_step.
  assert (Hcore : forall (neg : bool) (s2 : string),
    match s2 with
    | String c0 _ =>
        match digit_of c0 with
        | Some _ =>
            let '(v0, rest) := scan_digits s2 0 in
            Some (if neg then (- v0)%Z else v0, rest)
        | None => None
        end
    | EmptyString => None
    end = Some (v, r) ->
    match s2 ++ t with
    | String c0 _ =>
        match digit_of c0 with
        | Some _ =>
            let '(v0, rest) := scan_digits (s2 ++ t) 0 in
            Some (if neg then (- v0)%Z else v0, rest)
        | None => None
        end
    | EmptyString => None
    end = Some (v, r ++ t)).
  { intros neg s2 H. destruct s2 as [|c0 s2]; [discriminate|].
    change (String c0 s2 ++ t) with (String c0 (s2 ++ t)).
    destruct (digit_of c0) eqn:Ed; [|discriminate].
    change (String c0 (s2 ++ t)) with (String c0 s2 ++ t).
    rewrite (scan_digits_app _ 0 t Ht).
    destruct (scan_digits (String c0 s2) 0) as [v0 rest].
    simpl fst. simpl snd. inversion H; subst. now rewrite Ed. }
  destruct (Ascii.eqb c "-"); [apply (Hcore true)|].
  destruct (Ascii.eqb c "+"); [apply (Hcore false)|].
  intros H. apply (Hcore false (String c s1) H).
Qed.

Lemma scan_dash_app s t r :
  scan_dash s = Some r -> scan_dash (s ++ t) = Some (r ++ t).
Proof.
  rewrite !scan_dash_eqb. destruct s as [|c s]; [discriminate|].
  change (String c s ++ t) with (String c (s ++ t)).
  destruct (Ascii.eqb c "-") eqn:E; [|discriminate].
  intros H. inversion H; subst. cbv iota. now rewrite E.
Qed.

Lemma sscanf_ymd_app s t ymd :
  no_leading_digit t ->
  sscanf_ymd s = Some ymd -> sscanf_ymd (s ++ t) = Some ymd.
Proof.
  intros Ht. unfold sscanf_ymd.
  destruct (scan_int s) as [[y s1]|] eqn:E1; [|discriminate].
  rewrite (scan_int_app _ t _ _ Ht E1).
  destruct (scan_dash s1) as [s2|] eqn:E2; [|discriminate].
  rewrite (scan_dash_app _ t _ E2).
  destruct (scan_int s2) as [[mo s3]|] eqn:E3; [|discriminate].
  rewrite (scan_int_app _ t _ _ Ht E3).
  destruct (scan_dash s3) as [s4|] eqn:E4; [|discriminate].
  rewrite (scan_dash_app _ t _ E4).
  destruct (scan_int s4) as [[d s5]|] eqn:E5; [|discriminate].
  rewrite (scan_int_app _ t _ _ Ht E5). auto.
Qed.

Lemma strlen_app s t : strlen (s ++ t) = (strlen s + strlen t)%Z.
Proof.
  unfold strlen. rewrite <- Nat2Z.inj_add. f_equal.
  induction s as [|c s IH]; simpl; [reflexivity|]. now rewrite IH.
Qed.

(** X12.  parse_date reads the three numbers and nothing after them: a
    date that it accepts is read as the same instant when it is followed by
    any text that does not start with a digit. *)
Theorem parse_date_ignores_tail (mktime : Z -> Z -> Z -> Z) (s t : string) :
  (8 <= strlen s)%Z ->
  sscanf_ymd s <> None ->
  no_leading_digit t ->
  parse_date mktime (s ++ t) = parse_date mktime s.
Proof.
  intros Hlen Hs Ht. unfold parse_date.
  assert (Hlen' : (8 <= strlen (s ++ t))%Z).
  { rewrite strlen_app. unfold strlen at 2. lia. }
  destruct (Z.ltb_spec (strlen s) 8); [lia|].
  destruct (Z.ltb_spec (strlen (s ++ t)) 8); [lia|].
  destruct (sscanf_ymd s) as [ymd|] eqn:E; [|congruence].
  now rewrite (sscanf_ymd_app s t ymd Ht E).
Qed.

Lemma parse_date_ignores_tail_witness :
  parse_date mktime_utc ("2025-01-16" ++ "T10:30 or so")
    = parse_date mktime_utc "2025-01-16".
Proof.
  apply (parse_date_ignores_tail mktime_utc "2025-01-16" "T10:30 or so").
  - vm_compute. discriminate.
  - vm_compute. discriminate.
  - reflexivity.
Defined.

(** ** Lines of the standard input *)

Lemma cut_at_newline_idem s : cut_at_newline (cut_at_newline s) = cut_at_newline s.
Proof.
  induction s as [|c s IH]; simpl; [reflexivity|].
  destruct (Ascii.eqb c newline) eqn:E; [reflexivity|].
  simpl. now rewrite E, IH.
Qed.

(** X13.  The two ways the program splits its input at a newline agree:
    for a line without a newline followed by a newline and more input,
    [cut_at_newline] (used on the date buffer) gives the line and
    clean_stdin leaves exactly the input after the newline; input without
    any newline is consumed whole.  The save prompt therefore looks at the
    first character after the pending line, and saves for y or Y only. *)
Theorem stdin_line_split (line rest : string) :
  cut_at_newline line = line ->
  cut_at_newline (line ++ String newline rest) = line /\
  clean_stdin (line ++ String newline rest) = rest /\
  clean_stdin line = EmptyString /\
  wants_save line = false /\
  wants_save (line ++ String newline rest)
    = match rest with
      | String c _ => Ascii.eqb c "y" || Ascii.eqb c "Y"
      | EmptyString => false
      end.
Proof.
  intros Hline.
  assert (H : cut_at_newline (line ++ String newline rest) = line /\
              clean_stdin (line ++ String newline rest) = rest /\
              clean_stdin line = EmptyString).
  { induction line as [|c line IH]; simpl.
    - rewrite ?Ascii.eqb_refl. auto.
    - simpl in Hline. destruct (Ascii.eqb c newline) eqn:E; [discriminate|].
      inversion Hline as [Hl]. rewrite Hl.
      destruct (IH Hl) as (H1 & H2 & H3). rewrite H1. auto. }
  destruct H as (H1 & H2 & H3).
  repeat apply conj; try assumption.
  - unfold wants_save. now rewrite H3.
  - unfold wants_save. now rewrite H2.
Qed.

Lemma stdin_line_split_witness :
  cut_at_newline ("150000" ++ String newline "y") = "150000" /\
  clean_stdin ("150000" ++ String newline "y") = "y" /\
  clean_stdin "150000" = EmptyString /\
  wants_save "150000" = false /\
  wants_save ("150000" ++ String newline "y") = true.
Proof.
  exact (stdin_line_split "150000" "y" eq_refl).
Defined.

(** ** The notes and the timeline *)

(** X14.  After run_mission the notes are never empty, so the tests
    [strlen(m->notes) > 0] always hold: a direct mission carries the note
    "None".  Under the refuel strategy the note is always the one with the
    tanker count; the note "Assumption: LEO refueling by tanker missions"
    that the decision logic writes first is always overwritten. *)
Theorem notes_after_run (m : Mission) (plan : Plan) :
  run_mission_plan m = Some plan ->
  notes (plan_mission plan) <> "" /\
  (strategy (plan_mission plan) = Direct ->
   notes (plan_mission plan) = "None") /\
  (strategy (plan_mission plan) = OrbitalRefuel ->
   notes (plan_mission plan) = refuel_note (plan_tankers_needed plan) /\
   notes (plan_mission plan)
     <> "Assumption: LEO refueling by tanker missions").
Proof.
  intros Hrun. unfold run_mission_plan, decide_strategy in Hrun.
  change (calc_capability (rocket m) (payload_kg m)) with (cap_of m) in Hrun.
  change (EARTH_ASCENT_COST + dv_transfer (body m) + dv_capture (body m))
    with (total_req_of m) in Hrun.
  unfold Direct, OrbitalRefuel.
  assert (Hfin : forall p : Plan,
    notes (plan_mission p) <> "" ->
    (strategy (plan_mission p) = 0%Z -> notes (plan_mission p) = "None") ->
    (strategy (plan_mission p) = 3%Z ->
     notes (plan_mission p) = refuel_note (plan_tankers_needed p) /\
     notes (plan_mission p) <> "Assumption: LEO refueling by tanker missions") ->
    Some p = Some plan ->
    notes (plan_mission plan) <> "" /\
    (strategy (plan_mission plan) = 0%Z -> notes (plan_mission plan) = "None") /\
    (strategy (plan_mission plan) = 3%Z ->
     notes (plan_mission plan) = refuel_note (plan_tankers_needed plan) /\
     notes (plan_mission plan)
       <> "Assumption: LEO refueling by tanker missions")).
  { intros p H1 H2 H3 E. inversion E; subst p. auto. }
  destruct (Rltb (cap_of m - total_req_of m) 0) eqn:Em.
  - apply Rltb_true in Em.
    destruct (found (strstr _ "Titan")).
    { simpl in Hrun. apply (Hfin _) in Hrun; [exact Hrun|..];
        simpl; intros E; discriminate E. }
    destruct (found (strstr _ "Starship")).
    { cbn [strategy set_notes set_strategy Z.eqb Pos.eqb] in Hrun.
      rewrite Rleb_gt in Hrun by lra.
      destruct (compute_tanker_plan _ _) as [n|]; [|discriminate].
      simpl in Hrun. apply (Hfin _) in Hrun; [exact Hrun|..];
        cbn [plan_mission plan_tankers_needed notes set_notes strategy
             set_strategy].
      - intros E; discriminate E.
      - intros E; discriminate E.
      - intros _. split; [reflexivity|intros E; discriminate E]. }
    destruct (Rgtb _ _); simpl in Hrun;
      (apply (Hfin _) in Hrun; [exact Hrun|..]);
      simpl; intros E; discriminate E.
  - destruct (_ && _ && _); simpl in Hrun;
      (apply (Hfin _) in Hrun; [exact Hrun|..]);
      simpl; try (intros E; discriminate E); intros _; reflexivity.
Qed.

Lemma notes_after_run_witness :
  let plan := refuel_plan (mk_mission starship mars "2025-01-01" 100000) 1 in
  notes (plan_mission plan) <> "" /\
  (strategy (plan_mission plan) = Direct ->
   notes (plan_mission plan) = "None") /\
  (strategy (plan_mission plan) = OrbitalRefuel ->
   notes (plan_mission plan) = refuel_note (plan_tankers_needed plan) /\
   notes (plan_mission plan)
     <> "Assumption: LEO refueling by tanker missions").
Proof.
  exact (notes_after_run
           (mk_mission starship mars "2025-01-01" 100000) _
           (plan_starship_mars "2025-01-01")).
Defined.

Lemma success_not_infeasible m plan :
  run_mission_plan m = Some plan -> plan_success plan = true ->
  In (strategy (plan_mission plan)) [0; 1; 2; 3; 4]%Z.
Proof.
  intros Hrun Hs.
  destruct (run_mission_plan_inv m plan Hrun)
    as (_ & _ & _ & Hst & _ & _ & _ & Hsucc & _).
  pose proof (decide_strategy_codes (initialised m)
                (cap_of m - total_req_of m) eq_refl) as Hc.
  rewrite <- Hst in Hc. rewrite Hsucc in Hs.
  apply andb_true_iff in Hs. destruct Hs as [_ Hs].
  apply negb_true_iff, Z.eqb_neq in Hs.
  simpl in Hc. simpl. intuition.
Qed.

(** X15.  The timeline is printed exactly for the successful plans, so
    never for the impossible strategy; the generic row "Trans Injection",
    the [else] of the chain of tests, is then printed exactly for the direct
    strategy; and the timeline has 8 rows under the refuel strategy and 7
    under any other. *)
Theorem timeline_of_plan (m : Mission) (plan : Plan) :
  run_mission_plan m = Some plan ->
  (printed_timeline plan = None <-> plan_success plan = false) /\
  (forall rows, printed_timeline plan = Some rows ->
     strategy (plan_mission plan) <> Infeasible /\
     (In "Trans Injection" rows <-> strategy (plan_mission plan) = Direct) /\
     List.length rows
       = (if (strategy (plan_mission plan) =? OrbitalRefuel)%Z
          then 8%nat else 7%nat)).
Proof.
  intros Hrun. unfold printed_timeline. split.
  - destruct (plan_success plan); split; intros E; try discriminate E;
      reflexivity.
  - intros rows Hrows.
    destruct (plan_success plan) eqn:Hs; [|discriminate].
    inversion Hrows; subst rows.
    pose proof (success_not_infeasible m plan Hrun Hs) as Hin.
    unfold timeline_regimes, Infeasible, Direct, OrbitalRefuel.
    simpl in Hin.
    destruct Hin as [E|[E|[E|[E|[E|[]]]]]]; rewrite <- E; simpl;
      (split; [discriminate|split; [|reflexivity]]);
      split; intros H; try discriminate H; try reflexivity;
      try (repeat (destruct H as [H|H]; try discriminate H); contradiction);
      auto 10.
Qed.

Lemma timeline_of_plan_witness :
  let plan := refuel_plan (mk_mission starship mars "2025-01-01" 100000) 1 in
  (printed_timeline plan = None <-> plan_success plan = false) /\
  (forall rows, printed_timeline plan = Some rows ->
     strategy (plan_mission plan) <> Infeasible /\
     (In "Trans Injection" rows <-> strategy (plan_mission plan) = Direct) /\
     List.length rows
       = (if (strategy (plan_mission plan) =? OrbitalRefuel)%Z
          then 8%nat else 7%nat)).
Proof.
  exact (timeline_of_plan
           (mk_mission starship mars "2025-01-01" 100000) _
           (plan_starship_mars "2025-01-01")).
Defined.

(** * Properties of assignment.c *)

Module AssignmentProps.
Import Assignment.

Lemma print_launch_windows_catalog r b :
  In b bodies ->
  print_launch_windows r b = Some (map (window_row r) (windows b)) /\
  List.length (windows b) = 5%nat.
Proof.
  intros H. simpl in H.
  destruct H as [<-|[<-|[<-|[]]]]; split; reflexivity.
Qed.

Lemma select_by_menu_value n v :
  select_by_menu n (Some v)
    = Some (if (1 <=? v)%Z && (v <=? n)%Z then (v - 1)%Z else (-1)%Z).
Proof. reflexivity. Qed.

Lemma rockets_index v :
  (1 <= v <= NUM_ROCKETS)%Z ->
  exists r, array_get rockets (v - 1) = Some r /\ In r rockets.
Proof.
  unfold NUM_ROCKETS. intros H.
  assert (Hc : (v = 1 \/ v = 2 \/ v = 3 \/ v = 4)%Z) by lia.
  destruct Hc as [ -> | [ -> | [ -> | -> ]]]; eexists;
    (split; [reflexivity|]); simpl; auto.
Qed.

Lemma bodies_index w :
  (1 <= w <= NUM_BODIES)%Z ->
  exists b, array_get bodies (w - 1) = Some b /\ In b bodies.
Proof.
  unfold NUM_BODIES. intros H.
  assert (Hc : (w = 1 \/ w = 2 \/ w = 3)%Z) by lia.
  destruct Hc as [ -> | [ -> | -> ]]; eexists;
    (split; [reflexivity|]); simpl; auto.
Qed.

(** X16.  assignment.c never reads outside its tables.  A rocket number
    outside 1..4 ends the program with status 1 before the body is asked
    for; so does a body number outside 1..3; any other pair of numbers
    selects the two entries, and exactly five rows are printed, one for each
    window of the body. *)
Theorem main_selection (v w : Z) (bsel : option Z) :
  ((v < 1 \/ NUM_ROCKETS < v)%Z -> main (Some v) bsel = Some (1%Z, [])) /\
  ((1 <= v <= NUM_ROCKETS)%Z -> (w < 1 \/ NUM_BODIES < w)%Z ->
   main (Some v) (Some w) = Some (1%Z, [])) /\
  ((1 <= v <= NUM_ROCKETS)%Z -> (1 <= w <= NUM_BODIES)%Z ->
   exists r b,
     array_get rockets (v - 1) = Some r /\
     array_get bodies (w - 1) = Some b /\
     main (Some v) (Some w) = Some (0%Z, map (window_row r) (windows b)) /\
     List.length (map (window_row r) (windows b)) = 5%nat).
Proof.
  unfold main. rewrite select_by_menu_value.
  cbv beta iota delta [bind].
  repeat apply conj.
  - intros Hv.
    destruct (Z.leb_spec 1 v); destruct (Z.leb_spec v NUM_ROCKETS);
      try lia; reflexivity.
  - intros Hv Hw.
    destruct (Z.leb_spec 1 v); [|lia].
    destruct (Z.leb_spec v NUM_ROCKETS); [|lia]. simpl andb. cbv iota.
    destruct (Z.eqb_spec (v - 1) (-1)); [lia|].
    rewrite select_by_menu_value.
    destruct (Z.leb_spec 1 w); destruct (Z.leb_spec w NUM_BODIES);
      try lia; reflexivity.
  - intros Hv Hw.
    destruct (rockets_index v Hv) as (r & Hr & _).
    destruct (bodies_index w Hw) as (b & Hb & Hbin).
    destruct (print_launch_windows_catalog r b Hbin) as [Hrows Hlen].
    exists r, b.
    destruct (Z.leb_spec 1 v); [|lia].
    destruct (Z.leb_spec v NUM_ROCKETS); [|lia]. simpl andb. cbv iota.
    destruct (Z.eqb_spec (v - 1) (-1)); [lia|].
    rewrite select_by_menu_value.
    destruct (Z.leb_spec 1 w); [|lia].
    destruct (Z.leb_spec w NUM_BODIES); [|lia]. simpl andb. cbv iota.
    destruct (Z.eqb_spec (w - 1) (-1)); [lia|].
    rewrite Hr, Hb, Hrows, length_map. auto.
Qed.

Lemma main_selection_witness :
  main (Some 7%Z) None = Some (1%Z, []) /\
  main (Some 2%Z) (Some 0%Z) = Some (1%Z, []) /\
  exists r b,
    array_get rockets (2 - 1) = Some r /\
    array_get bodies (3 - 1) = Some b /\
    main (Some 2%Z) (Some 3%Z) = Some (0%Z, map (window_row r) (windows b)) /\
    List.length (map (window_row r) (windows b)) = 5%nat.
Proof.
  destruct (main_selection 7 0 None) as (H1 & _).
  destruct (main_selection 2 0 None) as (_ & H2 & _).
  destruct (main_selection 2 3 None) as (_ & _ & H3).
  unfold NUM_ROCKETS, NUM_BODIES in *.
  split; [apply H1; lia|]. split; [apply H2; lia|]. apply H3; lia.
Defined.

Lemma estimate_fuel_formula dv r :
  0 <= dry_mass r * (exp (dv * 1000 / (9.81 * isp r)) - 1) ->
  estimate_fuel dv r = dry_mass r * (exp (dv * 1000 / (9.81 * isp r)) - 1).
Proof.
  intros H. unfold estimate_fuel. cbv zeta.
  replace (dv * 1000.0) with (dv * 1000) by lra.
  now rewrite Rltb_ge.
Qed.

Lemma exp_ge_1 x : 0 <= x -> 1 <= exp x.
Proof. intros H. generalize (exp_ineq1_le x). lra. Qed.

Lemma exp_le_mono x y : x <= y -> exp x <= exp y.
Proof.
  intros [H| ->]; [left; now apply exp_increasing|lra].
Qed.

(** X17.  estimate_fuel never returns a negative mass.  For a positive
    specific impulse, a dry mass and a delta-v that are not negative, it is
    [dry * (exp (dv * 1000 / (9.81 * isp)) - 1)], it grows with the delta-v,
    and it inverts the rocket equation: burning that fuel from the dry mass
    gives back the delta-v, [9.81 * isp * ln ((dry + fuel) / dry) / 1000]. *)
Theorem estimate_fuel_spec (dv : R) (r : Rocket) :
  0 <= estimate_fuel dv r /\
  (0 < isp r -> 0 <= dry_mass r -> 0 <= dv ->
   estimate_fuel dv r
     = dry_mass r * (exp (dv * 1000 / (9.81 * isp r)) - 1) /\
   (forall dv', dv <= dv' -> estimate_fuel dv r <= estimate_fuel dv' r) /\
   (0 < dry_mass r ->
    9.81 * isp r * ln ((dry_mass r + estimate_fuel dv r) / dry_mass r) / 1000
      = dv)).
Proof.
  split.
  - unfold estimate_fuel. destruct (Rltb _ 0) eqn:E; [lra|].
    now apply Rltb_false in E.
  - intros Hisp Hdry Hdv.
    assert (Hk : 0 < 9.81 * isp r) by lra.
    assert (Hnn : forall d, 0 <= d ->
              0 <= dry_mass r * (exp (d * 1000 / (9.81 * isp r)) - 1)).
    { intros d Hd. apply Rmult_le_pos; [exact Hdry|].
      assert (0 <= d * 1000 / (9.81 * isp r)).
      { apply Rmult_le_pos; [lra|]. left. now apply Rinv_0_lt_compat. }
      generalize (exp_ge_1 _ H). lra. }
    rewrite (estimate_fuel_formula dv r (Hnn dv Hdv)).
    repeat apply conj.
    + reflexivity.
    + intros dv' Hle.
      rewrite (estimate_fuel_formula dv' r (Hnn dv' ltac:(lra))).
      apply Rmult_le_compat_l; [exact Hdry|].
      apply Rplus_le_compat_r. apply exp_le_mono.
      apply Rmult_le_compat_r; [left; now apply Rinv_0_lt_compat|lra].
    + intros Hd.
      replace ((dry_mass r
                + dry_mass r * (exp (dv * 1000 / (9.81 * isp r)) - 1))
               / dry_mass r)
        with (exp (dv * 1000 / (9.81 * isp r))) by (field; lra).
      rewrite ln_exp. field. lra.
Qed.

Lemma estimate_fuel_spec_witness :
  let r := {| name := "SpaceX Starship"; isp := 380; dry_mass := 120000;
              wet_mass := 500000; max_dv := 9.1 |} in
  0 <= estimate_fuel 10.8 r /\
  9.81 * isp r * ln ((dry_mass r + estimate_fuel 10.8 r) / dry_mass r) / 1000
    = 10.8.
Proof.
  intros r.
  destruct (estimate_fuel_spec 10.8 r) as [H0 H].
  split; [exact H0|].
  destruct H as (_ & _ & Hinv); try (simpl; lra).
  apply Hinv. simpl. lra.
Defined.

(** X18.  With the tables of assignment.c no window is usable: for every
    rocket and every body of the tables, each of the five rows reads
    "EXCEEDS BY" with an excess of at least 0.8 km/s, never "YES". *)
Theorem no_window_usable (r : Rocket) (b : CelestialBody) :
  In r rockets -> In b bodies ->
  exists rows,
    print_launch_windows r b = Some rows /\
    List.length rows = 5%nat /\
    forall row, In row rows ->
      exists dv_over,
        row_status row = ExceedsBy dv_over /\
        dv_over = row_req_dv row - max_dv r /\
        0.8 <= dv_over.
Proof.
  intros Hr Hb.
  destruct (print_launch_windows_catalog r b Hb) as [Hrows Hlen].
  exists (map (window_row r) (windows b)).
  split; [exact Hrows|]. split; [now rewrite length_map|].
  intros row Hin. apply in_map_iff in Hin. destruct Hin as (w & <- & Hw).
  assert (Hmax : max_dv r <= 10).
  { simpl in Hr. destruct Hr as [<-|[<-|[<-|[<-|[]]]]]; simpl; lra. }
  assert (Hreq : 10.8 <= required_dv w).
  { simpl in Hb. destruct Hb as [<-|[<-|[<-|[]]]]; simpl in Hw;
      repeat (destruct Hw as [<-|Hw]; [simpl; lra|]); contradiction. }
  exists (required_dv w - max_dv r).
  unfold window_row. cbn [row_status row_req_dv].
  rewrite Rleb_gt by lra. repeat split. lra.
Qed.

Lemma no_window_usable_witness :
  exists rows,
    print_launch_windows
      {| name := "NASA SLS"; isp := 452; dry_mass := 85000;
         wet_mass := 2600000; max_dv := 10.0 |}
      {| cname := "Moon"; average_distance := 384400; synodic_period := 29.53;
         min_dv := 10.8;
         windows :=
           [ window "2025-12-01" "2025-12-04" 10.8;
             window "2026-01-01" "2026-01-04" 10.8;
             window "2026-01-31" "2026-02-03" 10.8;
             window "2026-03-01" "2026-03-04" 10.8;
             window "2026-03-30" "2026-04-02" 10.8 ] |} = Some rows /\
    List.length rows = 5%nat.
Proof.
  destruct (no_window_usable
              {| name := "NASA SLS"; isp := 452; dry_mass := 85000;
                 wet_mass := 2600000; max_dv := 10.0 |}
              {| cname := "Moon"; average_distance := 384400;
                 synodic_period := 29.53; min_dv := 10.8;
                 windows :=
                   [ window "2025-12-01" "2025-12-04" 10.8;
                     window "2026-01-01" "2026-01-04" 10.8;
                     window "2026-01-31" "2026-02-03" 10.8;
                     window "2026-03-01" "2026-03-04" 10.8;
                     window "2026-03-30" "2026-04-02" 10.8 ] |})
    as (rows & H1 & H2 & _).
  - simpl. auto.
  - simpl. auto.
  - exists rows. split; assumption.
Defined.

End AssignmentProps.
